(** * The Sous-Chef agent: tool-call extraction, dispatch and memory

    A shallow embedding of [src/main.py] (class [SousChefAgent]) and the
    proofs of the properties its specification states.

    Modelling conventions.
    - A Python [str] is a Rocq [string]; its characters are the code points
      U+0000..U+00FF.  On this alphabet [str.strip], [str.lower],
      [str.replace] and the [json] decoder and encoder are modelled as
      CPython behaves.  A JSON escape [\uXXXX] above U+00FF produces a
      string the alphabet cannot hold: the decoder then answers [Beyond],
      and every operation that meets it answers [OutOfModel].
    - A JSON number with a fraction or an exponent is carried as the
      lexeme it was read from ([JFloat]); the encoder writes the lexeme
      back, where CPython writes [repr] of the float it denotes.
    - A Python exception is a value of [exn]; code that can raise lives in
      the state-and-exception monad [M].
    - The interpreter's resource limits (recursion depth, integer digit
      limit) and input/output failures of the file system are not
      modelled. *)

From Stdlib Require Import ZArith Ascii String List Lia.
From Stdlib Require Import DecimalString DecimalZ DecimalPos DecimalFacts.
From stdpp Require Import gmap strings list sorting.

Local Open Scope Z_scope.

(** ** Characters and Python string methods *)

Module PyStr.

(** [str.isspace] on one character: the Unicode white space below U+0100. *)
Definition isspace (c : ascii) : bool :=
  match c with
  | "009" | "010" | "011" | "012" | "013"
  | "028" | "029" | "030" | "031" | " "
  | "133" | "160" => true
  | _ => false
  end%char.

(** [str.lower] on one character: A..Z and the Latin-1 capitals
    U+00C0..U+00DE (the multiplication sign U+00D7 apart) move up by 32. *)
Definition lower_char (c : ascii) : ascii :=
  let n := N_of_ascii c in
  if ((65 <=? n) && (n <=? 90))%N then ascii_of_N (n + 32)
  else if ((192 <=? n) && (n <=? 222) && negb (n =? 215))%N then ascii_of_N (n + 32)
  else c.

Fixpoint lower (s : string) : string :=
  match s with
  | EmptyString => EmptyString
  | String c s' => String (lower_char c) (lower s')
  end.

Fixpoint lstrip (s : string) : string :=
  match s with
  | EmptyString => EmptyString
  | String c s' => if isspace c then lstrip s' else s
  end.

Fixpoint rstrip (s : string) : string :=
  match s with
  | EmptyString => EmptyString
  | String c s' =>
      match rstrip s' with
      | EmptyString => if isspace c then EmptyString else String c EmptyString
      | r => String c r
      end
  end.

(** [s.strip()] *)
Definition strip (s : string) : string := rstrip (lstrip s).

(** [s.replace(old, new)]: the occurrences of [old] are taken from the left
    and do not overlap.  [skip] counts the characters of the occurrence
    just replaced that are still to be passed over. *)
Fixpoint replace_go (old new : string) (skip : nat) (s : string) : string :=
  match s with
  | EmptyString => EmptyString
  | String c s' =>
      match skip with
      | S k => replace_go old new k s'
      | O =>
          if String.prefix old s
          then new +:+ replace_go old new (String.length old - 1) s'
          else String c (replace_go old new 0 s')
      end
  end.

(** The source only replaces a non-empty [old]. *)
Definition replace (old new s : string) : string :=
  match old with
  | EmptyString => s
  | _ => replace_go old new 0 s
  end.

(** [sub in s] on strings *)
Fixpoint contains (sub s : string) : bool :=
  String.prefix sub s ||
  match s with
  | EmptyString => false
  | String _ s' => contains sub s'
  end.

End PyStr.

(** ** The regular expression of [ask] *)

Module Re.

(** The fragment of [re] the source uses: literal characters and a greedy
    [.*] under [re.DOTALL] (the dot matches every character). *)
Inductive atom := Lit (c : ascii) | DotStar.

(** Backtracking match of the atoms at the start of [s]; the answer is the
    text matched.  [.*] first takes as many characters as there are and
    gives them back one at a time. *)
Fixpoint match_here (re : list atom) : string → option string :=
  match re with
  | [] => fun _ => Some EmptyString
  | Lit c :: re' => fun s =>
      match s with
      | String d s' => if Ascii.eqb c d then String d <$> match_here re' s' else None
      | EmptyString => None
      end
  | DotStar :: re' =>
      fix star (s : string) : option string :=
        match s with
        | EmptyString => match_here re' EmptyString
        | String d s' =>
            match star s' with
            | Some m => Some (String d m)
            | None => match_here re' s
            end
        end
  end.

(** [re.search(re, s).group(0)]: the match at the leftmost position that
    has one. *)
Fixpoint search (re : list atom) (s : string) : option string :=
  match match_here re s with
  | Some m => Some m
  | None =>
      match s with
      | EmptyString => None
      | String _ s' => search re s'
      end
  end.

(** [r'\{.*\}'] *)
Definition brace_re : list atom := [Lit "{"; DotStar; Lit "}"]%char.

End Re.

(** ** JSON values, [json.loads] and [json.dumps] *)

Module Json.

(** What [json.loads] builds.  A [dict] keeps its keys in insertion order
    and holds each key once. *)
#[warnings="-register-all"] Inductive json :=
| JNull
| JBool (b : bool)
| JInt (n : Z)
| JFloat (lexeme : string)
| JStr (s : string)
| JArr (items : list json)
| JObj (members : list (string * json)).

(** [d.get(k)], [None] when the key is absent *)
Fixpoint dict_get (k : string) (d : list (string * json)) : option json :=
  match d with
  | [] => None
  | (k', v) :: d' => if String.eqb k k' then Some v else dict_get k d'
  end.

(** [d[k] = v]: a key already present keeps its place. *)
Fixpoint dict_set (k : string) (v : json) (d : list (string * json))
  : list (string * json) :=
  match d with
  | [] => [(k, v)]
  | (k', v') :: d' =>
      if String.eqb k k' then (k, v) :: d' else (k', v') :: dict_set k v d'
  end.

(** [k in d] *)
Definition dict_has (k : string) (d : list (string * json)) : bool :=
  match dict_get k d with Some _ => true | None => false end.

(** *** The decoder *)

(** The answer of a scanning step: a value and the text after it, a
    [JSONDecodeError], a [\uXXXX] escape above U+00FF, or recursion budget
    used up (which [loads] never meets, see [loads_never_exhausted]). *)
Inductive scan (A : Type) :=
| Scanned (a : A) (rest : string)
| Malformed
| Beyond
| Exhausted.
Arguments Scanned {A} a rest.
Arguments Malformed {A}.
Arguments Beyond {A}.
Arguments Exhausted {A}.

Definition scan_map {A B} (f : A → B) (r : scan A) : scan B :=
  match r with
  | Scanned a rest => Scanned (f a) rest
  | Malformed => Malformed
  | Beyond => Beyond
  | Exhausted => Exhausted
  end.

(** [WHITESPACE]: space, tab, line feed and carriage return *)
Definition is_ws (c : ascii) : bool :=
  match c with
  | " " | "009" | "010" | "013" => true
  | _ => false
  end%char.

Fixpoint skip_ws (s : string) : string :=
  match s with
  | String c s' => if is_ws c then skip_ws s' else s
  | EmptyString => EmptyString
  end.

Definition is_digit (c : ascii) : bool :=
  match c with
  | "0" | "1" | "2" | "3" | "4" | "5" | "6" | "7" | "8" | "9" => true
  | _ => false
  end%char.

Definition hex_val (c : ascii) : option N :=
  let n := N_of_ascii c in
  (if (48 <=? n) && (n <=? 57) then Some (n - 48)
   else if (97 <=? n) && (n <=? 102) then Some (n - 87)
   else if (65 <=? n) && (n <=? 70) then Some (n - 55)
   else None)%N.

(** [_decode_uXXXX]: four hexadecimal digits *)
Definition decode_uXXXX (h1 h2 h3 h4 : ascii) : option N :=
  match hex_val h1, hex_val h2, hex_val h3, hex_val h4 with
  | Some a, Some b, Some c, Some d => Some (((a * 16 + b) * 16 + c) * 16 + d)%N
  | _, _, _, _ => None
  end.

(** [BACKSLASH]: the one-character escapes *)
Definition backslash (e : ascii) : option ascii :=
  match e with
  | "034" => Some "034"
  | "\" => Some "\"
  | "/" => Some "/"
  | "b" => Some "008"
  | "f" => Some "012"
  | "n" => Some "010"
  | "r" => Some "013"
  | "t" => Some "009"
  | _ => None
  end%char.

(** Characters [\x00-\x1f], which a strict decoder refuses inside a string *)
Definition is_control (c : ascii) : bool := (N_of_ascii c <? 32)%N.

Definition scan_cons (c : ascii) (r : scan string) : scan string :=
  scan_map (String c) r.

(** [scanstring], entered after the opening quote *)
Fixpoint scanstring (s : string) : scan string :=
  match s with
  | EmptyString => Malformed
  | String c s1 =>
      if Ascii.eqb c "034" then Scanned EmptyString s1
      else if Ascii.eqb c "\" then
        match s1 with
        | EmptyString => Malformed
        | String e s2 =>
            if Ascii.eqb e "u" then
              match s2 with
              | String h1 (String h2 (String h3 (String h4 s6))) =>
                  match decode_uXXXX h1 h2 h3 h4 with
                  | Some n =>
                      if (n <? 256)%N then scan_cons (ascii_of_N n) (scanstring s6)
                      else Beyond
                  | None => Malformed
                  end
              | _ => Malformed
              end
            else
              match backslash e with
              | Some ch => scan_cons ch (scanstring s2)
              | None => Malformed
              end
        end
      else if is_control c then Malformed
      else scan_cons c (scanstring s1)
  end.

(** The longest run of decimal digits at the start of [s], and the rest *)
Fixpoint span_digits (s : string) : string * string :=
  match s with
  | String c s' =>
      if is_digit c then let '(ds, r) := span_digits s' in (String c ds, r)
      else (EmptyString, s)
  | EmptyString => (EmptyString, EmptyString)
  end.

(** [int(lexeme)] for a lexeme [-?digits] *)
Definition int_of_lexeme (lexeme : string) : Z :=
  match NilZero.int_of_string lexeme with
  | Some d => Z.of_int d
  | None => 0
  end.

(** [int.__repr__] *)
Definition repr_int (n : Z) : string := NilZero.string_of_int (Z.to_int n).

(** [s] without its prefix [p], when it starts with [p] *)
Fixpoint after (p s : string) : option string :=
  match p with
  | EmptyString => Some s
  | String c p' =>
      match s with
      | String d s' => if Ascii.eqb c d then after p' s' else None
      | EmptyString => None
      end
  end.

Definition quote : string := String "034" EmptyString.

(** The integer part of a number: a lone 0, or a digit 1..9 and the digits
    after it *)
Definition scan_int_part (s : string) : option (string * string) :=
  match s with
  | String d s' =>
      if Ascii.eqb d "0" then Some ("0", s')
      else if is_digit d then
        let '(ds, r) := span_digits s' in Some (String d ds, r)
      else None
  | EmptyString => None
  end.

(** The optional fraction: a dot and at least one digit *)
Definition scan_frac (s : string) : string * string :=
  match after "." s with
  | Some s' =>
      match span_digits s' with
      | (EmptyString, _) => (EmptyString, s)
      | (ds, r) => (String "." ds, r)
      end
  | None => (EmptyString, s)
  end.

(** The optional sign of an exponent *)
Definition scan_sign (s : string) : string * string :=
  match s with
  | String g t =>
      if Ascii.eqb g "-" || Ascii.eqb g "+" then (String g EmptyString, t)
      else (EmptyString, s)
  | EmptyString => (EmptyString, s)
  end.

(** The optional exponent: e or E, an optional sign, at least one digit;
    without a digit nothing is taken *)
Definition scan_exp (s : string) : string * string :=
  match s with
  | String e s' =>
      if Ascii.eqb e "e" || Ascii.eqb e "E" then
        let '(sg, s'') := scan_sign s' in
        match span_digits s'' with
        | (EmptyString, _) => (EmptyString, s)
        | (ds, r) => (String e (sg +:+ ds), r)
        end
      else (EmptyString, s)
  | EmptyString => (EmptyString, s)
  end.

(** [_match_number]: an optional minus sign, the integer part, an optional
    fraction and an optional exponent; an integer when neither fraction
    nor exponent is there. *)
Definition match_number (s : string) : scan json :=
  let '(sign, s1) :=
    match after "-" s with
    | Some s' => ("-", s')
    | None => (EmptyString, s)
    end in
  match scan_int_part s1 with
  | None => Malformed
  | Some (ip, r) =>
      let '(frac, r1) := scan_frac r in
      let '(ex, r2) := scan_exp r1 in
      match frac, ex with
      | EmptyString, EmptyString => Scanned (JInt (int_of_lexeme (sign +:+ ip))) r2
      | _, _ => Scanned (JFloat (sign +:+ ip +:+ frac +:+ ex)) r2
      end
  end.

(** The named constants, tried before a number *)
Definition scan_constant (s : string) : option (json * string) :=
  match after "null" s with
  | Some r => Some (JNull, r)
  | None =>
  match after "true" s with
  | Some r => Some (JBool true, r)
  | None =>
  match after "false" s with
  | Some r => Some (JBool false, r)
  | None =>
  match after "NaN" s with
  | Some r => Some (JFloat "NaN", r)
  | None =>
  match after "Infinity" s with
  | Some r => Some (JFloat "Infinity", r)
  | None =>
  match after "-Infinity" s with
  | Some r => Some (JFloat "-Infinity", r)
  | None => None
  end end end end end end.

(** A named constant or a number *)
Definition scan_atom (s : string) : scan json :=
  match scan_constant s with
  | Some (v, r) => Scanned v r
  | None => match_number s
  end.

(** [scan_once], [JSONObject] and [JSONArray].  The two loops are entered
    at the first member, after the white space that follows the opening
    bracket (or the comma). *)
Fixpoint scan_once (fuel : nat) (s : string) : scan json :=
  match fuel with
  | O => Exhausted
  | S fuel' =>
      match after quote s with
      | Some s1 => scan_map JStr (scanstring s1)
      | None =>
      match after "{" s with
      | Some s1 =>
          match after "}" (skip_ws s1) with
          | Some r => Scanned (JObj []) r
          | None => object_loop fuel' [] (skip_ws s1)
          end
      | None =>
      match after "[" s with
      | Some s1 =>
          match after "]" (skip_ws s1) with
          | Some r => Scanned (JArr []) r
          | None => array_loop fuel' [] (skip_ws s1)
          end
      | None => scan_atom s
      end end end
  end

with object_loop (fuel : nat) (acc : list (string * json)) (s : string)
  : scan json :=
  match fuel with
  | O => Exhausted
  | S fuel' =>
      match after quote s with
      | None => Malformed
      | Some s1 =>
      match scanstring s1 with
      | Malformed => Malformed
      | Beyond => Beyond
      | Exhausted => Exhausted
      | Scanned key s2 =>
      match after ":" (skip_ws s2) with
      | None => Malformed
      | Some s3 =>
      match scan_once fuel' (skip_ws s3) with
      | Malformed => Malformed
      | Beyond => Beyond
      | Exhausted => Exhausted
      | Scanned v s4 =>
          match after "}" (skip_ws s4) with
          | Some r => Scanned (JObj (dict_set key v acc)) r
          | None =>
          match after "," (skip_ws s4) with
          | Some s5 => object_loop fuel' (dict_set key v acc) (skip_ws s5)
          | None => Malformed
          end end
      end end end end
  end

with array_loop (fuel : nat) (acc : list json) (s : string) : scan json :=
  match fuel with
  | O => Exhausted
  | S fuel' =>
      match scan_once fuel' s with
      | Malformed => Malformed
      | Beyond => Beyond
      | Exhausted => Exhausted
      | Scanned v s1 =>
          match after "]" (skip_ws s1) with
          | Some r => Scanned (JArr (acc ++ [v])) r
          | None =>
          match after "," (skip_ws s1) with
          | Some s2 => array_loop fuel' (acc ++ [v]) (skip_ws s2)
          | None => Malformed
          end end
      end
  end.

(** The answer of [json.loads] *)
Inductive loaded :=
| Parsed (v : json)
| JSONDecodeError
| Unsupported.

(** [json.loads(s)]: white space, one value, white space, end of text *)
Definition loads (s : string) : loaded :=
  match scan_once (2 * String.length s + 2) (skip_ws s) with
  | Scanned v rest =>
      match skip_ws rest with
      | EmptyString => Parsed v
      | _ => JSONDecodeError
      end
  | Malformed => JSONDecodeError
  | Beyond | Exhausted => Unsupported
  end.

(** *** The encoder: [json.dumps(v, indent=4)] *)

Definition hex_digit (n : N) : ascii :=
  match n with
  | 0 => "0" | 1 => "1" | 2 => "2" | 3 => "3" | 4 => "4" | 5 => "5"
  | 6 => "6" | 7 => "7" | 8 => "8" | 9 => "9" | 10 => "a" | 11 => "b"
  | 12 => "c" | 13 => "d" | 14 => "e" | _ => "f"
  end%N%char.

(** [ESCAPE_DCT] of [encode_basestring_ascii]: the quote, the backslash
    and the five named control characters have two-character escapes;
    everything outside space..tilde is written as a [\u00XX] escape. *)
Definition escape_char (c : ascii) : string :=
  match c with
  | "034"%char => String "\" (String "034" EmptyString)
  | "\"%char => "\\"
  | "008"%char => "\b"
  | "012"%char => "\f"
  | "010"%char => "\n"
  | "013"%char => "\r"
  | "009"%char => "\t"
  | _ =>
      let n := N_of_ascii c in
      if ((32 <=? n) && (n <=? 126))%N then String c EmptyString
      else "\u00" +:+ String (hex_digit (n / 16)) (String (hex_digit (n mod 16)) EmptyString)
  end.

Fixpoint escape_body (s : string) : string :=
  match s with
  | EmptyString => EmptyString
  | String c s' => escape_char c +:+ escape_body s'
  end.

(** [encode_basestring_ascii] *)
Definition encode_string (s : string) : string :=
  String "034" (escape_body s +:+ String "034" EmptyString).

Fixpoint spaces (n : nat) : string :=
  match n with
  | O => EmptyString
  | S n' => String " " (spaces n')
  end.

(** ['\n' + _indent * level], with [_indent] four spaces *)
Definition newline_indent (level : nat) : string :=
  String "010" (spaces (4 * level)).

(** [_iterencode]: an empty container is written closed; otherwise every
    item goes on a line of its own, one level deeper, items separated by a
    comma, keys followed by a colon and a space. *)
Fixpoint encode (level : nat) (v : json) {struct v} : string :=
  match v with
  | JNull => "null"
  | JBool true => "true"
  | JBool false => "false"
  | JInt n => repr_int n
  | JFloat lexeme => lexeme
  | JStr s => encode_string s
  | JArr [] => "[]"
  | JArr (x :: xs) =>
      "[" +:+ newline_indent (S level) +:+ encode (S level) x +:+
      (fix more (l : list json) : string :=
         match l with
         | [] => newline_indent level +:+ "]"
         | y :: l' =>
             "," +:+ newline_indent (S level) +:+ encode (S level) y +:+ more l'
         end) xs
  | JObj [] => "{}"
  | JObj ((k, x) :: ms) =>
      "{" +:+ newline_indent (S level) +:+
      encode_string k +:+ ": " +:+ encode (S level) x +:+
      (fix more (l : list (string * json)) : string :=
         match l with
         | [] => newline_indent level +:+ "}"
         | (k', y) :: l' =>
             "," +:+ newline_indent (S level) +:+
             encode_string k' +:+ ": " +:+ encode (S level) y +:+ more l'
         end) ms
  end.

Definition dumps (v : json) : string := encode 0 v.

(** *** Values the encoder writes and the decoder reads back *)

(** What can follow a value in the encoder's output: the end of the text,
    a comma or a line feed *)
Definition delimited (rest : string) : bool :=
  match rest with
  | EmptyString => true
  | String c _ => Ascii.eqb c "," || Ascii.eqb c "010"
  end.

(** The characters a number or a named constant can start with *)
Definition atom_head (s : string) : bool :=
  match s with
  | String c _ =>
      is_digit c || Ascii.eqb c "-" || Ascii.eqb c "N" || Ascii.eqb c "I"
  | EmptyString => false
  end.

(** A lexeme the decoder reads as this very float, whatever delimited text
    follows it *)
Definition float_lexeme (lexeme : string) : Prop :=
  atom_head lexeme = true ∧
  ∀ rest, delimited rest = true →
    scan_atom (lexeme +:+ rest) = Scanned (JFloat lexeme) rest.

(** Values as [json.loads] builds them: every dict holds each key once,
    every float is a float lexeme. *)
#[warnings="-register-all"] Inductive wf : json → Prop :=
| wf_null : wf JNull
| wf_bool b : wf (JBool b)
| wf_int n : wf (JInt n)
| wf_float lexeme : float_lexeme lexeme → wf (JFloat lexeme)
| wf_str s : wf (JStr s)
| wf_arr items : Forall wf items → wf (JArr items)
| wf_obj members :
    NoDup (fst <$> members) → Forall (fun kv => wf (snd kv)) members →
    wf (JObj members).

(** The items of a list after the first one, up to the closing bracket *)
Fixpoint encode_items (level : nat) (l : list json) : string :=
  match l with
  | [] => newline_indent level +:+ "]"
  | y :: l' =>
      "," +:+ newline_indent (S level) +:+ encode (S level) y +:+ encode_items level l'
  end.

(** The members of a dict after the first one, up to the closing brace *)
Fixpoint encode_members (level : nat) (l : list (string * json)) : string :=
  match l with
  | [] => newline_indent level +:+ "}"
  | (k, y) :: l' =>
      "," +:+ newline_indent (S level) +:+
      encode_string k +:+ ": " +:+ encode (S level) y +:+ encode_members level l'
  end.

(** The text starts with a character that is neither white space nor a
    closing bracket. *)
Definition value_head (s : string) : bool :=
  match s with
  | String c _ => negb (is_ws c || Ascii.eqb c "]" || Ascii.eqb c "}")
  | EmptyString => false
  end.

(** The encoder's output for [v] is read back as [v], given the budget. *)
Definition reads_back (v : json) : Prop :=
  ∀ fuel level rest, delimited rest = true →
    scan_once fuel (encode level v +:+ rest) = Scanned v rest ∨
    scan_once fuel (encode level v +:+ rest) = Exhausted.

(** All characters are decimal digits. *)
Fixpoint all_digits (s : string) : bool :=
  match s with
  | EmptyString => true
  | String c s' => is_digit c && all_digits s'
  end.

(** The text does not start with a decimal digit. *)
Definition no_digit_head (s : string) : bool :=
  match s with
  | EmptyString => true
  | String c _ => negb (is_digit c)
  end.

(** The shape of the fraction the scanner takes: nothing, or a dot and
    digits *)
Definition frac_ok (frac : string) : Prop :=
  frac = EmptyString ∨
  ∃ d ds, frac = String "." (String d ds) ∧ is_digit d = true ∧ all_digits ds = true.

(** The shape of the exponent the scanner takes: nothing, or e or E, an
    optional sign and digits *)
Definition exp_ok (ex : string) : Prop :=
  ex = EmptyString ∨
  ∃ e sg d ds, ex = String e (sg +:+ String d ds) ∧
    (e = "e" ∨ e = "E")%char ∧ (sg = EmptyString ∨ sg = "-" ∨ sg = "+") ∧
    is_digit d = true ∧ all_digits ds = true.

End Json.

(** ** Dates: [datetime.date], [strptime] and [timedelta] *)

Module Calendar.

Import Json.

(** A [date] is its proleptic Gregorian ordinal ([date.toordinal()]):
    day 1 is 0001-01-01, the last day is 9999-12-31. *)
Definition MAXORDINAL : Z := 3652059.

Definition is_leap (year : Z) : bool :=
  (year mod 4 =? 0) && (negb (year mod 100 =? 0) || (year mod 400 =? 0)).

Definition days_before_year (year : Z) : Z :=
  let y := year - 1 in y * 365 + y / 4 - y / 100 + y / 400.

Definition days_in_month (year month : Z) : Z :=
  if (month =? 2) && is_leap year then 29
  else nth (Z.to_nat month) [0; 31; 28; 31; 30; 31; 30; 31; 31; 30; 31; 30; 31] 0.

Definition days_before_month (year month : Z) : Z :=
  nth (Z.to_nat month) [0; 0; 31; 59; 90; 120; 151; 181; 212; 243; 273; 304; 334] 0
  + (if (2 <? month) && is_leap year then 1 else 0).

(** [_ymd2ord] *)
Definition ymd2ord (year month day : Z) : Z :=
  days_before_year year + days_before_month year month + day.

(** [_ord2ymd] *)
Definition ord2ymd (n : Z) : Z * Z * Z :=
  let n := n - 1 in
  let n400 := n / 146097 in
  let n := n mod 146097 in
  let year := n400 * 400 + 1 in
  let n100 := n / 36524 in
  let n := n mod 36524 in
  let n4 := n / 1461 in
  let n := n mod 1461 in
  let n1 := n / 365 in
  let n := n mod 365 in
  let year := year + n100 * 100 + n4 * 4 + n1 in
  if (n1 =? 4) || (n100 =? 4) then (year - 1, 12, 31)
  else
    let leapyear := (n1 =? 3) && (negb (n4 =? 24) || (n100 =? 3)) in
    let month := Z.shiftr (n + 50) 5 in
    let preceding :=
      nth (Z.to_nat month) [0; 0; 31; 59; 90; 120; 151; 181; 212; 243; 273; 304; 334] 0
      + (if (2 <? month) && leapyear then 1 else 0) in
    if n <? preceding then
      let month := month - 1 in
      let preceding :=
        preceding
        - (nth (Z.to_nat month) [0; 31; 28; 31; 30; 31; 30; 31; 31; 30; 31; 30; 31] 0
           + (if (month =? 2) && leapyear then 1 else 0)) in
      (year, month, n - preceding + 1)
    else (year, month, n - preceding + 1).

Definition digit_val (c : ascii) : Z := Z.of_N (N_of_ascii c) - 48.

Definition digit_char (n : Z) : ascii := ascii_of_N (Z.to_N (n mod 10 + 48)).

(** [str(date)]: [YYYY-MM-DD] *)
Definition isoformat (d : Z) : string :=
  let '(y, m, dd) := ord2ymd d in
  String (digit_char (y / 1000)) (String (digit_char (y / 100))
   (String (digit_char (y / 10)) (String (digit_char y)
   (String "-" (String (digit_char (m / 10)) (String (digit_char m)
   (String "-" (String (digit_char (dd / 10)) (String (digit_char dd)
    EmptyString))))))))).

(** The month of ['%m']: 10..12, then 01..09, then 1..9 *)
Definition scan_month (s : string) : option (Z * string) :=
  match s with
  | String a (String b r) =>
      if Ascii.eqb a "1" && (Ascii.eqb b "0" || Ascii.eqb b "1" || Ascii.eqb b "2")
      then Some (10 + digit_val b, r)
      else if Ascii.eqb a "0" && is_digit b && negb (Ascii.eqb b "0")
      then Some (digit_val b, r)
      else if is_digit a && negb (Ascii.eqb a "0") then Some (digit_val a, String b r)
      else None
  | String a EmptyString =>
      if is_digit a && negb (Ascii.eqb a "0") then Some (digit_val a, EmptyString)
      else None
  | EmptyString => None
  end.

(** The day of ['%d']: 30, 31, then 10..29, then 01..09, then 1..9, then a
    space and 1..9 *)
Definition scan_day (s : string) : option (Z * string) :=
  match s with
  | String a (String b r) =>
      if Ascii.eqb a "3" && (Ascii.eqb b "0" || Ascii.eqb b "1")
      then Some (30 + digit_val b, r)
      else if (Ascii.eqb a "1" || Ascii.eqb a "2") && is_digit b
      then Some (10 * digit_val a + digit_val b, r)
      else if Ascii.eqb a "0" && is_digit b && negb (Ascii.eqb b "0")
      then Some (digit_val b, r)
      else if is_digit a && negb (Ascii.eqb a "0") then Some (digit_val a, String b r)
      else if Ascii.eqb a " " && is_digit b && negb (Ascii.eqb b "0")
      then Some (digit_val b, r)
      else None
  | String a EmptyString =>
      if is_digit a && negb (Ascii.eqb a "0") then Some (digit_val a, EmptyString)
      else None
  | EmptyString => None
  end.

(** [datetime.strptime(s, '%Y-%m-%d').date()]; [None] is [ValueError]:
    the text does not match the format, text is left over, or the day
    does not exist. *)
Definition strptime_ymd (s : string) : option Z :=
  match s with
  | String y1 (String y2 (String y3 (String y4 (String "-" s1)))) =>
      if is_digit y1 && is_digit y2 && is_digit y3 && is_digit y4 then
        let year := ((digit_val y1 * 10 + digit_val y2) * 10 + digit_val y3) * 10
                    + digit_val y4 in
        match scan_month s1 with
        | Some (month, String "-" s2) =>
            match scan_day s2 with
            | Some (day, EmptyString) =>
                if (1 <=? year) && (1 <=? day) && (day <=? days_in_month year month)
                then Some (ymd2ord year month day)
                else None
            | _ => None
            end
        | _ => None
        end
      else None
  | _ => None
  end.

(** A naive [datetime]: the date and the seconds since midnight *)
Record datetime := { dt_date : Z; dt_seconds : Z }.

(** [datetime.combine(d, datetime.min.time()) + timedelta(hours=h)] *)
Definition at_hour (d : Z) (h : Z) : datetime :=
  {| dt_date := d + (h * 3600) / 86400; dt_seconds := (h * 3600) mod 86400 |}.

End Calendar.

(** ** The agent *)

Module Agent.

Import PyStr Json Calendar.

(** *** Exceptions and results *)

Inductive exn :=
| KeyError (key : string)
| TypeError
| AttributeError
| ValueError
| OverflowError
| TransportError.

(** What a piece of Python code answers: a value, an exception, or a
    value the model cannot hold (see the conventions above). *)
Inductive res (A : Type) :=
| Ret (a : A)
| Raise (e : exn)
| OutOfModel.
Arguments Ret {A} a.
Arguments Raise {A} e.
Arguments OutOfModel {A}.

Definition res_bind {A B} (r : res A) (k : A → res B) : res B :=
  match r with
  | Ret a => k a
  | Raise e => Raise e
  | OutOfModel => OutOfModel
  end.

(** *** The state an agent instance works on *)

Inductive file := Missing | Content (text : string).

(** A calendar event: the two values formatted into its name, its start
    and its duration in seconds. *)
Record event := {
  ev_meal_type : json;
  ev_meal_name : json;
  ev_begin : datetime;
  ev_duration : Z
}.

(** The fields of [self], the file named [self.memory_file], the calendar
    file of this user, and the current date. *)
Record state := {
  user_id : string;
  pantry : gset string;
  liked_recipes : gset string;
  disliked_recipes : gset string;
  memory_file : file;
  calendar_file : option (list event);
  today : Z
}.

Definition set_pantry (p : gset string) (s : state) : state :=
  {| user_id := user_id s; pantry := p; liked_recipes := liked_recipes s;
     disliked_recipes := disliked_recipes s; memory_file := memory_file s;
     calendar_file := calendar_file s; today := today s |}.

Definition set_liked (l : gset string) (s : state) : state :=
  {| user_id := user_id s; pantry := pantry s; liked_recipes := l;
     disliked_recipes := disliked_recipes s; memory_file := memory_file s;
     calendar_file := calendar_file s; today := today s |}.

Definition set_disliked (d : gset string) (s : state) : state :=
  {| user_id := user_id s; pantry := pantry s; liked_recipes := liked_recipes s;
     disliked_recipes := d; memory_file := memory_file s;
     calendar_file := calendar_file s; today := today s |}.

Definition set_memory_file (f : file) (s : state) : state :=
  {| user_id := user_id s; pantry := pantry s; liked_recipes := liked_recipes s;
     disliked_recipes := disliked_recipes s; memory_file := f;
     calendar_file := calendar_file s; today := today s |}.

Definition set_calendar_file (c : option (list event)) (s : state) : state :=
  {| user_id := user_id s; pantry := pantry s; liked_recipes := liked_recipes s;
     disliked_recipes := disliked_recipes s; memory_file := memory_file s;
     calendar_file := c; today := today s |}.

(** *** The state-and-exception monad *)

Definition M (A : Type) : Type := state → state * res A.

Definition ret {A} (a : A) : M A := fun s => (s, Ret a).

Definition bind {A B} (m : M A) (k : A → M B) : M B :=
  fun s =>
    match m s with
    | (s', Ret a) => k a s'
    | (s', Raise e) => (s', Raise e)
    | (s', OutOfModel) => (s', OutOfModel)
    end.

Definition lift {A} (r : res A) : M A := fun s => (s, r).

Definition get : M state := fun s => (s, Ret s).

Definition modify (f : state → state) : M unit := fun s => (f s, Ret tt).

Declare Scope monad_scope.
Delimit Scope monad_scope with monad.
Notation "x <- m ;; k" := (bind m (fun x => k))
  (at level 100, m at next level, right associativity) : monad_scope.
Notation "m ;; k" := (bind m (fun _ => k))
  (at level 100, right associativity) : monad_scope.
Local Open Scope monad_scope.

(** *** Python operations on JSON values *)

(** [v[k]] with a string key *)
Definition getitem (v : json) (k : string) : res json :=
  match v with
  | JObj d =>
      match dict_get k d with
      | Some x => Ret x
      | None => Raise (KeyError k)
      end
  | _ => Raise TypeError
  end.

(** [v.get(k, default)] *)
Definition get_default (v : json) (k : string) (default : json) : res json :=
  match v with
  | JObj d =>
      match dict_get k d with
      | Some x => Ret x
      | None => Ret default
      end
  | _ => Raise AttributeError
  end.

(** [container[k] = v] with a string key *)
Definition setitem (container : json) (k : string) (v : json) : res json :=
  match container with
  | JObj d => Ret (JObj (dict_set k v d))
  | _ => Raise TypeError
  end.

Definition is_str (v : json) : bool :=
  match v with JStr _ => true | _ => false end.

(** [v == s] for a string literal [s] *)
Definition str_eq (v : json) (s : string) : bool :=
  match v with
  | JStr t => String.eqb t s
  | _ => false
  end.

(** [k in v] *)
Definition py_in (k : string) (v : json) : res bool :=
  match v with
  | JObj d => Ret (dict_has k d)
  | JArr l => Ret (existsb (fun x => str_eq x k) l)
  | JStr s => Ret (contains k s)
  | _ => Raise TypeError
  end.

Definition chars (s : string) : list string :=
  (fun c => String c EmptyString) <$> list_ascii_of_string s.

(** [for item in v]: the items of a list, the characters of a string, the
    keys of a dict *)
Definition py_iter (v : json) : res (list json) :=
  match v with
  | JArr l => Ret l
  | JStr s => Ret (JStr <$> chars s)
  | JObj d => Ret ((fun kv => JStr (fst kv)) <$> d)
  | _ => Raise TypeError
  end.

Definition unhashable (v : json) : bool :=
  match v with JArr _ | JObj _ => true | _ => false end.

Definition strings_of (l : list json) : list string :=
  omap (fun v => match v with JStr s => Some s | _ => None end) l.

(** [set(v)]: a list or a dict inside is unhashable; a number, a boolean
    or [None] inside would be a member that is not a string, which the
    sets of [state] do not hold. *)
Definition py_set (v : json) : res (gset string) :=
  match v with
  | JArr l =>
      if existsb unhashable l then Raise TypeError
      else if forallb is_str l then Ret (list_to_set (strings_of l))
      else OutOfModel
  | JStr s => Ret (list_to_set (chars s))
  | JObj d => Ret (list_to_set (fst <$> d))
  | _ => Raise TypeError
  end.

(** [list(a_set)] as a JSON array; the order Python picks is not
    specified, the model takes the order of [elements]. *)
Definition json_of_set (X : gset string) : json := JArr (JStr <$> elements X).

(** [item.strip().lower()] *)
Definition normalize (s : string) : string := lower (strip s).

Definition strip_lower (item : json) : res string :=
  match item with
  | JStr s => Ret (normalize s)
  | _ => Raise AttributeError
  end.

(** [v.lower()] *)
Definition py_lower (v : json) : res string :=
  match v with
  | JStr s => Ret (lower s)
  | _ => Raise AttributeError
  end.

Fixpoint res_map {A B} (f : A → res B) (l : list A) : res (list B) :=
  match l with
  | [] => Ret []
  | x :: l' => res_bind (f x) (fun y => res_bind (res_map f l') (fun ys => Ret (y :: ys)))
  end.

(** *** Long-term memory *)

(** [_load_memory] *)
Definition _load_memory : M unit :=
  s <- get ;;
  match memory_file s with
  | Missing => ret tt
  | Content text =>
      match loads text with
      | JSONDecodeError => ret tt
      | Unsupported => lift OutOfModel
      | Parsed full_memory_bank =>
          user_data <- lift (get_default full_memory_bank (user_id s) (JObj [])) ;;
          p <- lift (res_bind (get_default user_data "pantry" (JArr [])) py_set) ;;
          modify (set_pantry p) ;;
          l <- lift (res_bind (get_default user_data "liked_recipes" (JArr [])) py_set) ;;
          modify (set_liked l) ;;
          d <- lift (res_bind (get_default user_data "disliked_recipes" (JArr [])) py_set) ;;
          modify (set_disliked d)
      end
  end.

(** What [_save_memory] starts from: the content of the file, or an empty
    dict when the file is missing or does not decode. *)
Definition read_bank (f : file) : res json :=
  match f with
  | Missing => Ret (JObj [])
  | Content text =>
      match loads text with
      | Parsed v => Ret v
      | JSONDecodeError => Ret (JObj [])
      | Unsupported => OutOfModel
      end
  end.

(** The record written for the user *)
Definition record_of (s : state) : json :=
  JObj [("pantry", json_of_set (pantry s));
        ("liked_recipes", json_of_set (liked_recipes s));
        ("disliked_recipes", json_of_set (disliked_recipes s))].

(** [_save_memory] *)
Definition _save_memory : M unit :=
  s <- get ;;
  full_memory_bank <- lift (read_bank (memory_file s)) ;;
  full_memory_bank <- lift (setitem full_memory_bank (user_id s) (record_of s)) ;;
  modify (set_memory_file (Content (dumps full_memory_bank))).

(** [__init__]: the credential check, the empty sets, then [_load_memory].
    [api_key] is the value of the environment variable, [disk] the memory
    file as it is found. *)
Definition init (api_key : option string) (uid : string) (disk : file) (now : Z)
  : state * res unit :=
  match api_key with
  | None | Some EmptyString =>
      ({| user_id := uid; pantry := ∅; liked_recipes := ∅; disliked_recipes := ∅;
          memory_file := disk; calendar_file := None; today := now |},
       Raise ValueError)
  | Some _ =>
      _load_memory
        {| user_id := uid; pantry := ∅; liked_recipes := ∅; disliked_recipes := ∅;
           memory_file := disk; calendar_file := None; today := now |}
  end.

(** *** Pantry and feedback *)

(** [view_pantry]: the sorted pantry (the empty pantry gives the empty
    list on either branch) *)
Definition sorted_pantry (s : state) : list string :=
  merge_sort String.le (elements (pantry s)).

(** [add_to_pantry] *)
Definition add_to_pantry (ingredients : json) : M unit :=
  names <- lift (res_bind (py_iter ingredients) (res_map strip_lower)) ;;
  modify (fun s => set_pantry (pantry s ∪ list_to_set names) s) ;;
  _save_memory.

Fixpoint discard_each (items : list json) : M unit :=
  match items with
  | [] => ret tt
  | item :: items' =>
      name <- lift (strip_lower item) ;;
      modify (fun s => set_pantry (pantry s ∖ {[name]}) s) ;;
      discard_each items'
  end.

(** [remove_from_pantry] *)
Definition remove_from_pantry (ingredients : json) : M unit :=
  items <- lift (py_iter ingredients) ;;
  discard_each items ;;
  _save_memory.

(** [add_feedback] *)
Definition add_feedback (recipe_name feedback : json) : M unit :=
  recipe_name <- lift (strip_lower recipe_name) ;;
  fb <- lift (py_lower feedback) ;;
  (if String.eqb fb "like" then
     modify (fun s => set_liked (liked_recipes s ∪ {[recipe_name]}) s) ;;
     modify (fun s => set_disliked (disliked_recipes s ∖ {[recipe_name]}) s)
   else if String.eqb fb "dislike" then
     modify (fun s => set_disliked (disliked_recipes s ∪ {[recipe_name]}) s) ;;
     modify (fun s => set_liked (liked_recipes s ∖ {[recipe_name]}) s)
   else ret tt) ;;
  _save_memory.

(** *** Calendar export *)

(** The digits of [int(text)]: decimal digits, single underscores between
    them *)
Fixpoint digits_value (acc : Z) (after_digit : bool) (s : string) : option Z :=
  match s with
  | EmptyString => if after_digit then Some acc else None
  | String c s' =>
      if is_digit c then digits_value (acc * 10 + digit_val c) true s'
      else if Ascii.eqb c "_" && after_digit then
        match s' with
        | String d _ => if is_digit d then digits_value acc false s' else None
        | EmptyString => None
        end
      else None
  end.

(** [int(text)] in base ten: white space around, an optional sign *)
Definition int_of_str (text : string) : option Z :=
  match strip text with
  | String "-" ds => Z.opp <$> digits_value 0 false ds
  | String "+" ds => digits_value 0 false ds
  | ds => digits_value 0 false ds
  end.

(** [int(v)]; truncating a float is outside the model *)
Definition py_int (v : json) : res Z :=
  match v with
  | JInt n => Ret n
  | JBool b => Ret (if b then 1 else 0)
  | JStr text =>
      match int_of_str text with
      | Some n => Ret n
      | None => Raise ValueError
      end
  | JFloat _ => OutOfModel
  | _ => Raise TypeError
  end.

(** [d + timedelta(days=k)] *)
Definition date_add (d k : Z) : res Z :=
  if (Z.abs k <=? 999999999) && (1 <=? d + k) && (d + k <=? MAXORDINAL)
  then Ret (d + k)
  else Raise OverflowError.

(** The date of a meal (lines 366-369): the text under ['day_str'], with
    today's date as the default, parsed as [%Y-%m-%d]; when that raises
    [ValueError] or [TypeError], today plus [int(day) - 1] days, [day]
    defaulting to 1. *)
Definition meal_date (now : Z) (meal : json) : res Z :=
  let parsed :=
    res_bind (get_default meal "day_str" (JStr (isoformat now)))
      (fun v =>
         match v with
         | JStr text =>
             match strptime_ymd text with
             | Some d => Ret d
             | None => Raise ValueError
             end
         | _ => Raise TypeError
         end) in
  match parsed with
  | Raise ValueError | Raise TypeError =>
      res_bind (get_default meal "day" (JInt 1))
        (fun v => res_bind (py_int v) (fun n => date_add now (n - 1)))
  | r => r
  end.

(** The hour of a meal (lines 372-377) *)
Definition meal_hour (meal_type_lower : string) : Z :=
  if String.eqb meal_type_lower "breakfast" then 8
  else if String.eqb meal_type_lower "lunch" then 13
  else 19.

(** The body of the loop of [create_calendar_file] (lines 362-381) *)
Definition event_of_meal (now : Z) (meal : json) : res event :=
  res_bind (getitem meal "meal_type") (fun meal_type =>
  res_bind (getitem meal "meal_name") (fun meal_name =>
  res_bind (meal_date now meal) (fun d =>
  res_bind (py_lower meal_type) (fun t =>
  Ret {| ev_meal_type := meal_type; ev_meal_name := meal_name;
         ev_begin := at_hour d (meal_hour t); ev_duration := 3600 |})))).

(** *** Results handed back to the caller *)

(** The text of a message, kept as the f-string and its argument *)
Inductive message :=
| Added (ingredients : json)
| Removed (ingredients : json)
| FeedbackReceived (recipe_name : json)
| UnknownTool (tool_code : json)
| CalendarCreated
| CalendarFailed (e : exn).

(** The dict a request answers with *)
Inductive outcome :=
| StatusMessage (status : string) (msg : message) (file_path : option string)
| PantryView (items : list string)
| Payload (obj : json)
| Response (text : string)
| Failure (e : exn) (raw_response : option string).

(** An error-kind result: [status] is ["error"], or the dict has an
    ["error"] key. *)
Definition is_error (o : outcome) : bool :=
  match o with
  | StatusMessage status _ _ => String.eqb status "error"
  | Failure _ _ => true
  | _ => false
  end.

Definition calendar_path (uid : string) : string :=
  "sous_chef_calendars/" +:+ uid +:+ "_meal_plan.ics".

(** [create_calendar_file]: any exception becomes an error result. *)
Definition create_calendar_file (meal_plan : json) : M outcome :=
  fun s =>
    match res_bind (py_iter meal_plan) (res_map (event_of_meal (today s))) with
    | Ret events =>
        (set_calendar_file (Some events) s,
         Ret (StatusMessage "success" CalendarCreated (Some (calendar_path (user_id s)))))
    | Raise e => (s, Ret (StatusMessage "error" (CalendarFailed e) None))
    | OutOfModel => (s, OutOfModel)
    end.

(** *** The response interpreter *)

Inductive classification :=
| ToolCall (tool_code tool_params : json)
| StructuredPayload (obj : json)
| ConversationalText (text : string).

(** Line 259: [raw_text.strip().replace("```json", "").replace("```", "")] *)
Definition cleaned_text (raw_text : string) : string :=
  replace "```" EmptyString (replace "```json" EmptyString (strip raw_text)).

(** Lines 241-260 of [ask], the call of [_call_tool] left to the caller *)
Definition classify (raw_text : string) : res classification :=
  match Re.search Re.brace_re raw_text with
  | Some json_string =>
      match loads json_string with
      | Parsed json_response =>
          res_bind (py_in "tool_code" json_response) (fun has_code =>
          res_bind (if has_code then py_in "tool_params" json_response else Ret false)
            (fun has_params =>
          if has_code && has_params then
            res_bind (getitem json_response "tool_code") (fun tool_code =>
            res_bind (getitem json_response "tool_params") (fun tool_params =>
            Ret (ToolCall tool_code tool_params)))
          else Ret (StructuredPayload json_response)))
      | JSONDecodeError => Ret (ConversationalText (cleaned_text raw_text))
      | Unsupported => OutOfModel
      end
  | None => Ret (ConversationalText (cleaned_text raw_text))
  end.

(** *** Dispatch and the request loop *)

(** What the external model does with a message: it answers with a text,
    or the call raises.  The replies still to come are the script. *)
Inductive reply := Reply (text : string) | NoReply (e : exn).

(** The prompts sent: the user's line, or the text built by
    [generate_meal_plan] or [generate_recipe] from their arguments *)
Inductive prompt :=
| UserPrompt (text : string)
| MealPlanPrompt (days diet preferences : json)
| RecipePrompt (pantry_items : list string)
    (extra_ingredients dietary_needs cooking_time : json)
    (liked disliked : list string).

Definition answer : Type := state * list reply * res outcome.

(** A tool that sends nothing to the model leaves the script as it is. *)
Definition local_tool (rest : list reply) (m : M outcome) : state → answer :=
  fun s => let '(s', r) := m s in (s', rest, r).

(** A call with the parameters unpacked as keyword arguments: they must be
    a dict whose keys are among the keyword arguments; absent ones take
    their defaults. *)
Definition bind_kwargs (defaults : list (string * json)) (params : json)
  : res (list json) :=
  match params with
  | JObj d =>
      if forallb (fun kv => existsb (String.eqb (fst kv)) (fst <$> defaults)) d
      then Ret ((fun kd => default (snd kd) (dict_get (fst kd) d)) <$> defaults)
      else Raise TypeError
  | _ => Raise TypeError
  end.

(** [_call_tool]; [ask_model] is [self.ask] on the replies still to come. *)
Definition _call_tool (ask_model : prompt → state → answer) (rest : list reply)
    (tool_code tool_params : json) : state → answer :=
  if str_eq tool_code "add_to_pantry" then
    local_tool rest
      (ingredients <- lift (getitem tool_params "ingredients") ;;
       add_to_pantry ingredients ;;
       ret (StatusMessage "success" (Added ingredients) None))
  else if str_eq tool_code "remove_from_pantry" then
    local_tool rest
      (ingredients <- lift (getitem tool_params "ingredients") ;;
       remove_from_pantry ingredients ;;
       ret (StatusMessage "success" (Removed ingredients) None))
  else if str_eq tool_code "add_feedback" then
    local_tool rest
      (recipe_name <- lift (getitem tool_params "recipe_name") ;;
       feedback <- lift (getitem tool_params "feedback") ;;
       add_feedback recipe_name feedback ;;
       ret (StatusMessage "success" (FeedbackReceived recipe_name) None))
  else if str_eq tool_code "view_pantry" then
    local_tool rest (s <- get ;; ret (PantryView (sorted_pantry s)))
  else if str_eq tool_code "generate_meal_plan" then
    fun s =>
      match bind_kwargs [("days", JInt 3); ("diet", JStr "any");
                         ("preferences", JStr EmptyString)] tool_params with
      | Ret [days; diet; preferences] =>
          ask_model (MealPlanPrompt days diet preferences) s
      | Ret _ | Raise _ => (s, rest, Raise TypeError)
      | OutOfModel => (s, rest, OutOfModel)
      end
  else if str_eq tool_code "generate_recipe" then
    fun s =>
      match bind_kwargs [("extra_ingredients", JStr EmptyString);
                         ("dietary_needs", JStr EmptyString);
                         ("cooking_time", JStr EmptyString)] tool_params with
      | Ret [extra; dietary; cooking] =>
          ask_model (RecipePrompt (elements (pantry s)) extra dietary cooking
                       (elements (liked_recipes s)) (elements (disliked_recipes s))) s
      | Ret _ | Raise _ => (s, rest, Raise TypeError)
      | OutOfModel => (s, rest, OutOfModel)
      end
  else if str_eq tool_code "create_calendar_file" then
    local_tool rest
      (meal_plan <- lift (getitem tool_params "meal_plan") ;;
       create_calendar_file meal_plan)
  else
    local_tool rest (ret (StatusMessage "error" (UnknownTool tool_code) None)).

(** [ask]: one message to the model, its reply interpreted; whatever is
    raised on the way becomes a [Failure] result.  With no reply left the
    call to the model fails. *)
Fixpoint ask (script : list reply) (p : prompt) (s : state) : answer :=
  match script with
  | [] => (s, [], Ret (Failure TransportError None))
  | NoReply e :: rest => (s, rest, Ret (Failure e None))
  | Reply raw_text :: rest =>
      match classify raw_text with
      | Ret (ToolCall tool_code tool_params) =>
          match _call_tool (ask rest) rest tool_code tool_params s with
          | (s', rest', Raise e) => (s', rest', Ret (Failure e (Some raw_text)))
          | a => a
          end
      | Ret (StructuredPayload obj) => (s, rest, Ret (Payload obj))
      | Ret (ConversationalText text) => (s, rest, Ret (Response text))
      | Raise e => (s, rest, Ret (Failure e (Some raw_text)))
      | OutOfModel => (s, rest, OutOfModel)
      end
  end.

End Agent.

(** ** The specification's own words, as definitions *)

Module Spec.

Import PyStr Json Calendar Agent.

(** The position of the first [c] in [s] *)
Fixpoint first_index (c : ascii) (s : string) : option nat :=
  match s with
  | EmptyString => None
  | String d s' => if Ascii.eqb c d then Some O else S <$> first_index c s'
  end.

(** The position of the last [c] in [s] *)
Fixpoint last_index (c : ascii) (s : string) : option nat :=
  match s with
  | EmptyString => None
  | String d s' =>
      match last_index c s' with
      | Some j => Some (S j)
      | None => if Ascii.eqb c d then Some O else None
      end
  end.

(** "The first substring that begins at the first opening brace and
    extends to the last closing brace in the text" *)
Definition brace_span (text : string) : option string :=
  match first_index "{" text, last_index "}" text with
  | Some i, Some j =>
      if (i <? j)%nat then Some (String.substring i (j - i + 1) text) else None
  | _, _ => None
  end.

(** "Both a tool-name field and a parameters field" *)
Definition tool_fields (d : list (string * json)) : option (json * json) :=
  match dict_get "tool_code" d, dict_get "tool_params" d with
  | Some tool_code, Some tool_params => Some (tool_code, tool_params)
  | _, _ => None
  end.

(** "Remove literal markdown code-fence markers (triple-backtick with
    optional language tag)": a marker is three backticks and the letters
    and digits that follow them directly. *)
Definition is_tag_char (c : ascii) : bool :=
  let n := N_of_ascii c in
  (((48 <=? n) && (n <=? 57)) || ((65 <=? n) && (n <=? 90))
   || ((97 <=? n) && (n <=? 122)))%N.

Fixpoint remove_fence_markers_go (skip : nat) (in_tag : bool) (s : string)
  : string :=
  match s with
  | EmptyString => EmptyString
  | String c s' =>
      match skip with
      | S k => remove_fence_markers_go k true s'
      | O =>
          if String.prefix "```" s then remove_fence_markers_go 2 true s'
          else if in_tag && is_tag_char c then remove_fence_markers_go 0 true s'
          else String c (remove_fence_markers_go 0 false s')
      end
  end.

Definition remove_fence_markers (s : string) : string :=
  remove_fence_markers_go 0 false s.

(** "Breakfast -> 08:00, Lunch -> 13:00, anything else -> 19:00" *)
Definition claimed_hour (meal_type : string) : Z :=
  if String.eqb meal_type "Breakfast" then 8
  else if String.eqb meal_type "Lunch" then 13
  else 19.

(** "Fixed enumerated tool set" *)
Definition tool_names : list string :=
  ["add_to_pantry"; "remove_from_pantry"; "add_feedback"; "view_pantry";
   "generate_meal_plan"; "generate_recipe"; "create_calendar_file"].

Definition known_tool (tool_code : json) : bool :=
  existsb (str_eq tool_code) tool_names.

(** The ["required"] lists of [self.tools] (lines 40, 54, 65 and 116) *)
Definition required (tool : string) : list string :=
  if String.eqb tool "add_to_pantry" then ["ingredients"]
  else if String.eqb tool "remove_from_pantry" then ["ingredients"]
  else if String.eqb tool "add_feedback" then ["recipe_name"; "feedback"]
  else if String.eqb tool "create_calendar_file" then ["meal_plan"]
  else [].

(** The parameters omit key [k]. *)
Definition omits (k : string) (tool_params : json) : bool :=
  match tool_params with
  | JObj d => negb (dict_has k d)
  | _ => true
  end.

(** A sequence of [add_feedback] calls; a call that raises leaves the
    session running. *)
Fixpoint run_feedback (calls : list (json * json)) (s : state) : state :=
  match calls with
  | [] => s
  | (recipe_name, feedback) :: calls' =>
      run_feedback calls' (fst (add_feedback recipe_name feedback s))
  end.

(** Every entry of the pantry is in normal form. *)
Definition normal_pantry (s : state) : Prop :=
  ∀ e, e ∈ pantry s → normalize e = e.

(** The mutations that end in a persist *)
Inductive mutation :=
| AddToPantry (ingredients : json)
| RemoveFromPantry (ingredients : json)
| AddFeedback (recipe_name feedback : json).

Definition run_mutation (m : mutation) : M unit :=
  match m with
  | AddToPantry ingredients => add_to_pantry ingredients
  | RemoveFromPantry ingredients => remove_from_pantry ingredients
  | AddFeedback recipe_name feedback => add_feedback recipe_name feedback
  end.

(** The record stored for [uid] in the memory file *)
Definition stored_record (uid : string) (f : file) : option json :=
  match f with
  | Missing => None
  | Content text =>
      match loads text with
      | Parsed (JObj bank) => dict_get uid bank
      | _ => None
      end
  end.

(** A fresh instance for [uid] on the disk another one left behind *)
Definition reopened (uid : string) (s : state) : state :=
  {| user_id := uid; pantry := ∅; liked_recipes := ∅; disliked_recipes := ∅;
     memory_file := memory_file s; calendar_file := calendar_file s;
     today := today s |}.

(** An instance with nothing in memory on the given memory file, on
    2024-04-24 *)
Definition new_agent (uid : string) (disk : file) : state :=
  {| user_id := uid; pantry := ∅; liked_recipes := ∅; disliked_recipes := ∅;
     memory_file := disk; calendar_file := None; today := 739000 |}.

(** The JSON text with single quotes in place of double quotes, to write
    examples *)
Fixpoint dq (s : string) : string :=
  match s with
  | EmptyString => EmptyString
  | String c s' => String (if Ascii.eqb c "'" then "034"%char else c) (dq s')
  end.

End Spec.

(** ** Where a scanned value ends *)

Module Scanning.

Import Json.

(** The text does not go on with a digit, a fraction or an exponent. *)
Definition ends_number (rest : string) : bool :=
  match rest with
  | EmptyString => true
  | String c _ =>
      negb (is_digit c || Ascii.eqb c "." || Ascii.eqb c "e" || Ascii.eqb c "E")
  end.

(** What follows a value inside a list or a dict: white space, a comma or
    a closing bracket *)
Definition stops (rest : string) : bool :=
  match rest with
  | EmptyString => false
  | String c _ => is_ws c || Ascii.eqb c "," || Ascii.eqb c "]" || Ascii.eqb c "}"
  end.

(** A value whose text ends with its own closing character *)
Definition closed (v : json) : bool :=
  match v with
  | JStr _ | JArr _ | JObj _ => true
  | _ => false
  end.

End Scanning.

(** ** The month and the day inside [_ord2ymd] *)

Module Dates.

Import Calendar.

(** [_days_in_month] and [_days_before_month] from the leap flag of the
    year *)
Definition month_length (leapyear : bool) (month : Z) : Z :=
  if (month =? 2) && leapyear then 29
  else nth (Z.to_nat month) [0; 31; 28; 31; 30; 31; 30; 31; 31; 30; 31; 30; 31] 0.

Definition month_start (leapyear : bool) (month : Z) : Z :=
  nth (Z.to_nat month) [0; 0; 31; 59; 90; 120; 151; 181; 212; 243; 273; 304; 334] 0
  + (if (2 <? month) && leapyear then 1 else 0).

(** The last lines of [_ord2ymd]: the month and the day from the day [n]
    of the year, counted from 0: an estimate of the month that is right or
    one too large, then the correction. *)
Definition month_day (leapyear : bool) (n : Z) : Z * Z :=
  let month := Z.shiftr (n + 50) 5 in
  let preceding := month_start leapyear month in
  if n <? preceding then
    (month - 1, n - (preceding - month_length leapyear (month - 1)) + 1)
  else (month, n - preceding + 1).

(** The day [n] of a year is the day [snd (month_day leapyear n)] of the
    month [fst (month_day leapyear n)]. *)
Definition month_day_ok (leapyear : bool) (n : Z) : bool :=
  let '(month, day) := month_day leapyear n in
  (1 <=? month) && (month <=? 12) && (1 <=? day) &&
  (day <=? month_length leapyear month) &&
  (month_start leapyear month + day =? n + 1).

End Dates.

(** ** The tools as the source has them, and the sessions of the
    command line *)

Module Tools.

Import PyStr Json Calendar Agent.
Local Open Scope monad_scope.

(** [view_pantry] (lines 193-197) *)
Definition view_pantry : M outcome :=
  s <- get ;;
  if decide (pantry s = ∅) then ret (PantryView [])
  else ret (PantryView (sorted_pantry s)).

(** The names a list of texts stands for in the pantry *)
Definition names (xs : list string) : gset string :=
  list_to_set (normalize <$> xs).

(** A JSON value that is neither a text nor a container *)
Definition scalar (v : json) : bool :=
  match v with
  | JNull | JBool _ | JInt _ | JFloat _ => true
  | _ => false
  end.

(** What a request may change: the user and the date stay, a pantry of
    normal forms stays one, and disjoint feedback sets stay disjoint. *)
Definition keeps_invariants (s s' : state) : Prop :=
  user_id s' = user_id s ∧ today s' = today s ∧
  ((∀ e, e ∈ pantry s → normalize e = e) → ∀ e, e ∈ pantry s' → normalize e = e) ∧
  (liked_recipes s ∩ disliked_recipes s = ∅ →
   liked_recipes s' ∩ disliked_recipes s' = ∅).

(** The keyword arguments of [generate_meal_plan] and [generate_recipe] *)
Definition meal_plan_kwargs : list string := ["days"; "diet"; "preferences"].

Definition recipe_kwargs : list string :=
  ["extra_ingredients"; "dietary_needs"; "cooking_time"].

Definition keys_among (names : list string) (d : list (string * json)) : bool :=
  forallb (fun kv => existsb (String.eqb (fst kv)) names) d.

End Tools.

(** ** The command line (lines 401-453)

    What is printed is kept as a list of lines, one constructor for each
    [print] of the source with the values formatted into it; writing to
    the terminal is taken not to fail. *)

Module Cli.

Import PyStr Json Calendar Agent.

(** A value in the dict a request answers with: a JSON value, or a text
    built by an f-string, kept as the argument of the f-string.  None of
    these texts is one of the literals the loop compares with. *)
Inductive field :=
| Json (v : json)
| MessageText (m : message)
| ErrorText (e : exn).

(** Line 264: the text in place of the reply when there was none *)
Definition no_response : string := "No response from model.".

(** The dict an outcome stands for; a payload that is no dict has none. *)
Definition as_dict (o : outcome) : option (list (string * field)) :=
  match o with
  | StatusMessage status msg file_path =>
      Some ([("status", Json (JStr status)); ("message", MessageText msg)] ++
            match file_path with
            | Some path => [("file_path", Json (JStr path))]
            | None => []
            end)
  | PantryView items => Some [("pantry", Json (JArr (JStr <$> items)))]
  | Payload (JObj d) => Some ((fun kv => (fst kv, Json (snd kv))) <$> d)
  | Payload _ => None
  | Response text => Some [("response", Json (JStr text))]
  | Failure e raw_response =>
      Some [("error", ErrorText e);
            ("raw_response", Json (JStr (default no_response raw_response)))]
  end.

(** What the loop prints, one constructor for each [print], with the
    values formatted into the line *)
Inductive line :=
| Welcome
| TypeExit
| Prompt
| Goodbye
| AgentError (v : field)
| RawLLMResponse (v : field)
| Agent (v : field)
| CurrentPantry (names : list string)
| CalendarSavedTo (v : field)
| MealPlanHeader
| MealLine (day meal_type meal_name : json)
| RecipeTitle (v : field)
| Description (v : field)
| Servings (v : field)
| PrepTime (v : field)
| CookTime (v : field)
| IngredientsHeader
| InstructionsHeader
| Item (v : json)
| Unhandled (response : list (string * field))
| RawResponse (v : json).

(** What has been printed, and how the printing ended *)
Definition out : Type := list line * res unit.

Definition say (l : line) : out := ([l], Ret tt).

Definition done : out := ([], Ret tt).

(** One piece of printing after another; an exception stops the rest. *)
Definition and_then (a b : out) : out :=
  match a with
  | (la, Ret _) => let '(lb, r) := b in (la ++ lb, r)
  | _ => a
  end.

(** [response[k]] *)
Fixpoint lookup (k : string) (response : list (string * field)) : option field :=
  match response with
  | [] => None
  | (k', v) :: response' => if String.eqb k k' then Some v else lookup k response'
  end.

Definition has (k : string) (response : list (string * field)) : bool :=
  match lookup k response with Some _ => true | None => false end.

(** Printing with [response[k]] in the line *)
Definition with_item (k : string) (response : list (string * field))
    (print : field → out) : out :=
  match lookup k response with
  | Some v => print v
  | None => ([], Raise (KeyError k))
  end.

(** [v == text] for a string literal of the loop *)
Definition equals (v : field) (text : string) : bool :=
  match v with
  | Json w => str_eq w text
  | _ => false
  end.

(** [for x in v]; the characters of an f-string text are outside the
    model. *)
Definition items_of (v : field) : res (list json) :=
  match v with
  | Json w => py_iter w
  | _ => OutOfModel
  end.

(** [", ".join(v)]: the texts joined *)
Definition joined (v : field) : res (list string) :=
  res_bind (items_of v)
    (res_map (fun x => match x with JStr s => Ret s | _ => Raise TypeError end)).

(** A loop that prints one line for each item *)
Fixpoint for_each (items : list json) (print : json → out) : out :=
  match items with
  | [] => done
  | x :: items' => and_then (print x) (for_each items' print)
  end.

Definition for_items (v : field) (print : json → out) : out :=
  match items_of v with
  | Ret items => for_each items print
  | Raise e => ([], Raise e)
  | OutOfModel => ([], OutOfModel)
  end.

(** Line 437: the three values of the f-string are read from left to
    right. *)
Definition meal_line (meal : json) : out :=
  match res_bind (getitem meal "day") (fun day =>
        res_bind (getitem meal "meal_type") (fun meal_type =>
        res_bind (getitem meal "meal_name") (fun meal_name =>
        Ret (MealLine day meal_type meal_name)))) with
  | Ret l => say l
  | Raise e => ([], Raise e)
  | OutOfModel => ([], OutOfModel)
  end.

(** Lines 421-451: what is printed for a dict *)
Definition display (response : list (string * field)) : out :=
  if has "error" response then
    and_then (with_item "error" response (fun v => say (AgentError v)))
      (if has "raw_response" response then
         with_item "raw_response" response (fun v =>
           if equals v no_response then done else say (RawLLMResponse v))
       else done)
  else if has "response" response then
    with_item "response" response (fun v => say (Agent v))
  else if has "status" response &&
          match lookup "status" response with
          | Some v => equals v "success"
          | None => false
          end then
    and_then (with_item "message" response (fun v => say (Agent v)))
   (and_then
      (if has "pantry" response then
         with_item "pantry" response (fun v =>
           match joined v with
           | Ret names => say (CurrentPantry names)
           | Raise e => ([], Raise e)
           | OutOfModel => ([], OutOfModel)
           end)
       else done)
      (if has "file_path" response then
         with_item "file_path" response (fun v => say (CalendarSavedTo v))
       else done))
  else if has "plan" response then
    and_then (say MealPlanHeader)
      (with_item "plan" response (fun v => for_items v meal_line))
  else if has "title" response && has "ingredients" response then
    and_then (with_item "title" response (fun v => say (RecipeTitle v)))
   (and_then (with_item "description" response (fun v => say (Description v)))
   (and_then (with_item "servings" response (fun v => say (Servings v)))
   (and_then (with_item "prep_time" response (fun v => say (PrepTime v)))
   (and_then (with_item "cook_time" response (fun v => say (CookTime v)))
   (and_then (say IngredientsHeader)
   (and_then (with_item "ingredients" response (fun v =>
                for_items v (fun x => say (Item x))))
   (and_then (say InstructionsHeader)
             (with_item "instructions" response (fun v =>
                for_items v (fun x => say (Item x)))))))))))
  else say (Unhandled response).

(** Lines 420-453: a dict is displayed, anything else is printed raw. *)
Definition show (o : outcome) : out :=
  match as_dict o with
  | Some response => display response
  | None =>
      match o with
      | Payload v => say (RawResponse v)
      | _ => done
      end
  end.

(** How a session ends: with the goodbye, with an exception that nothing
    catches, at the end of the input ([input] raises [EOFError]), or at a
    value outside the model *)
Inductive ending :=
| Ended
| Crashed (e : exn)
| EndOfInput
| Unmodelled.

Definition session : Type := state * list reply * list line * ending.

(** Lines 407-453: the loop, on the lines typed and the replies of the
    model still to come *)
Fixpoint main_loop (inputs : list string) (script : list reply) (s : state)
  : session :=
  match inputs with
  | [] => (s, script, [Prompt], EndOfInput)
  | user_input :: inputs' =>
      if String.eqb (lower user_input) "exit" || String.eqb (lower user_input) "quit" then
        match _save_memory s with
        | (s', Ret _) => (s', script, [Prompt; Goodbye], Ended)
        | (s', Raise e) => (s', script, [Prompt], Crashed e)
        | (s', OutOfModel) => (s', script, [Prompt], Unmodelled)
        end
      else
        match ask script (UserPrompt user_input) s with
        | (s', script', Ret response) =>
            match show response with
            | (printed, Ret _) =>
                let '(s'', script'', more, e) := main_loop inputs' script' s' in
                (s'', script'', Prompt :: printed ++ more, e)
            | (printed, Raise e) => (s', script', Prompt :: printed, Crashed e)
            | (printed, OutOfModel) => (s', script', Prompt :: printed, Unmodelled)
            end
        | (s', script', Raise e) => (s', script', [Prompt], Crashed e)
        | (s', script', OutOfModel) => (s', script', [Prompt], Unmodelled)
        end
  end.

(** Lines 402-453: the banner, the agent for ["cli_user"], the loop *)
Definition main (api_key : option string) (disk : file) (now : Z)
    (inputs : list string) (script : list reply) : session :=
  match init api_key "cli_user" disk now with
  | (s, Ret _) =>
      let '(s', script', printed, e) := main_loop inputs script s in
      (s', script', Welcome :: TypeExit :: printed, e)
  | (s, Raise e) => (s, script, [Welcome; TypeExit], Crashed e)
  | (s, OutOfModel) => (s, script, [Welcome; TypeExit], Unmodelled)
  end.

(** The dict of a payload *)
Definition payload_dict (d : list (string * json)) : list (string * field) :=
  (fun kv => (fst kv, Json (snd kv))) <$> d.

(** The line of a meal that has its three keys *)
Definition listed (meal : json) (l : line) : Prop :=
  ∃ m day meal_type meal_name,
    meal = JObj m ∧ dict_get "day" m = Some day ∧
    dict_get "meal_type" m = Some meal_type ∧
    dict_get "meal_name" m = Some meal_name ∧
    l = MealLine day meal_type meal_name.

(** The first of the three keys that a meal lacks *)
Definition lacks (meal : json) (k : string) : Prop :=
  ∃ m, meal = JObj m ∧
    ((k = "day" ∧ dict_get "day" m = None) ∨
     (k = "meal_type" ∧ dict_get "day" m ≠ None ∧ dict_get "meal_type" m = None) ∨
     (k = "meal_name" ∧ dict_get "day" m ≠ None ∧ dict_get "meal_type" m ≠ None ∧
      dict_get "meal_name" m = None)).

(** The reply is shown as a meal plan: no ["error"], no ["response"], no
    ["status"] that is ["success"], and a ["plan"]. *)
Definition shown_as_plan (d : list (string * json)) (plan : json) : Prop :=
  dict_has "error" d = false ∧ dict_has "response" d = false ∧
  dict_get "status" d ≠ Some (JStr "success") ∧
  dict_get "plan" d = Some plan.

End Cli.

(** * Proofs *)

Import PyStr Json Calendar Agent Spec Scanning Dates Tools Cli.
Local Open Scope monad_scope.
#[local] Arguments String.append !_ _ / : simpl nomatch.
#[local] Set Warnings "-clear-no-such-hyp".

Ltac unfold_M := unfold bind, get, lift, modify, ret in *.

(** ** Strings: normal forms and code fences *)

Lemma isspace_lower_char c : isspace (lower_char c) = isspace c.
Proof. destruct c as [[] [] [] [] [] [] [] []]; reflexivity. Qed.

Lemma lower_char_idem c : lower_char (lower_char c) = lower_char c.
Proof. destruct c as [[] [] [] [] [] [] [] []]; reflexivity. Qed.

Lemma lower_idem s : lower (lower s) = lower s.
Proof. induction s as [|c s IH]; cbn; [|rewrite lower_char_idem, IH]; reflexivity. Qed.

Lemma lower_lstrip s : lower (lstrip s) = lstrip (lower s).
Proof.
  induction s as [|c s IH]; [reflexivity|].
  cbn. rewrite isspace_lower_char. destruct (isspace c); [exact IH|reflexivity].
Qed.

Lemma lower_rstrip s : lower (rstrip s) = rstrip (lower s).
Proof.
  induction s as [|c s IH]; [reflexivity|].
  cbn. rewrite <- IH, isspace_lower_char.
  destruct (rstrip s); cbn; [destruct (isspace c)|]; reflexivity.
Qed.

Lemma rstrip_idem s : rstrip (rstrip s) = rstrip s.
Proof.
  induction s as [|c s IH]; [reflexivity|].
  cbn. destruct (rstrip s) as [|d r] eqn:E.
  - destruct (isspace c) eqn:W; cbn; [reflexivity|]. rewrite W. reflexivity.
  - cbn [rstrip] in *. rewrite IH. reflexivity.
Qed.

Lemma lstrip_rstrip_lstrip s : lstrip (rstrip (lstrip s)) = rstrip (lstrip s).
Proof.
  induction s as [|c s IH]; [reflexivity|].
  cbn [lstrip]. destruct (isspace c) eqn:W; [exact IH|].
  cbn [rstrip]. destruct (rstrip s); rewrite ?W; cbn; rewrite W; reflexivity.
Qed.

Lemma strip_idem s : strip (strip s) = strip s.
Proof. unfold strip. rewrite lstrip_rstrip_lstrip. apply rstrip_idem. Qed.

Lemma normalize_idem s : normalize (normalize s) = normalize s.
Proof.
  unfold normalize, strip.
  rewrite <- lower_lstrip, <- lower_rstrip, lower_idem.
  fold (strip s). fold (strip (strip s)). rewrite strip_idem. reflexivity.
Qed.

Lemma prefix_fence_inv s :
  String.prefix "```" s = true → ∃ r, s = String "`" (String "`" (String "`" r)).
Proof.
  destruct s as [|a [|b [|c r]]]; cbn [String.prefix]; try discriminate;
    repeat (match goal with |- context [ascii_dec ?x ?y] =>
              destruct (ascii_dec x y) as [<-|] end; cbn [String.prefix]; try discriminate).
  all: eauto.
Qed.

Lemma replace_fence_step c s :
  replace_go "```" EmptyString 0 (String c s) =
  if String.prefix "```" (String c s)
  then replace_go "```" EmptyString 2 s
  else String c (replace_go "```" EmptyString 0 s).
Proof. cbn [replace_go]. destruct (String.prefix "```" (String c s)); reflexivity. Qed.

Lemma replace_fence_skip r :
  replace_go "```" EmptyString 2 (String "`" (String "`" r)) =
  replace_go "```" EmptyString 0 r.
Proof. reflexivity. Qed.

Lemma replace_fence_head (n : nat) : ∀ s, (String.length s ≤ n)%nat →
  String.prefix "`" (replace_go "```" EmptyString 0 s) = true →
  String.prefix "`" s = true.
Proof.
  induction n as [|n IH]; intros s L.
  - destruct s; [cbn; discriminate | cbn in L; lia].
  - destruct s as [|c s]; [cbn; discriminate|].
    rewrite replace_fence_step.
    destruct (String.prefix "```" (String c s)) eqn:P.
    + destruct (prefix_fence_inv _ P) as [r E]. injection E as -> ->. reflexivity.
    + cbn [String.prefix]. destruct (ascii_dec "`" c); [|discriminate]. intros _.
      destruct s; reflexivity.
Qed.

Lemma prefix_cons a p b s :
  String.prefix (String a p) (String b s) = true ↔ a = b ∧ String.prefix p s = true.
Proof.
  cbn [String.prefix]. destruct (ascii_dec a b); split; intros H; try tauto; try discriminate.
Qed.

Lemma replace_fence_head2 s :
  String.prefix "``" (replace_go "```" EmptyString 0 s) = true →
  String.prefix "``" s = true.
Proof.
  destruct s as [|c s]; [cbn; discriminate|].
  rewrite replace_fence_step.
  destruct (String.prefix "```" (String c s)) eqn:P.
  - destruct (prefix_fence_inv _ P) as [r E]. injection E as -> ->. reflexivity.
  - intros [<- H]%prefix_cons. apply prefix_cons. split; [reflexivity|].
    apply (replace_fence_head (String.length s)); [lia | exact H].
Qed.

Lemma replace_fence_clean (n : nat) : ∀ s, (String.length s ≤ n)%nat →
  contains "```" (replace_go "```" EmptyString 0 s) = false.
Proof.
  induction n as [|n IH]; intros s L.
  - destruct s; [reflexivity | cbn in L; lia].
  - destruct s as [|c s]; [reflexivity|].
    rewrite replace_fence_step.
    destruct (String.prefix "```" (String c s)) eqn:P.
    + destruct (prefix_fence_inv _ P) as [r E]. injection E as -> ->.
      rewrite replace_fence_skip. apply IH. cbn in L. lia.
    + cbn [contains]. rewrite (IH s) by (cbn in L; lia). rewrite orb_false_r.
      destruct (String.prefix "```" (String c (replace_go "```" EmptyString 0 s))) eqn:Q;
        [|reflexivity].
      apply prefix_cons in Q as [<- Q]. apply replace_fence_head2 in Q.
      assert (String.prefix "```" (String "`" s) = true) as R
        by (apply prefix_cons; auto).
      congruence.
Qed.

Lemma cleaned_text_no_fence raw_text : contains "```" (cleaned_text raw_text) = false.
Proof. apply (replace_fence_clean _ _ (le_n _)). Qed.

Lemma append_assoc (a b c : string) : (a +:+ b) +:+ c = a +:+ (b +:+ c).
Proof. induction a as [|x a IH]; cbn; [|rewrite IH]; reflexivity. Qed.

Lemma append_nil_r (a : string) : a +:+ EmptyString = a.
Proof. induction a as [|x a IH]; cbn; [|rewrite IH]; reflexivity. Qed.

Lemma append_cons c (a b : string) : String c a +:+ b = String c (a +:+ b).
Proof. reflexivity. Qed.

Lemma length_append (a b : string) :
  String.length (a +:+ b) = (String.length a + String.length b)%nat.
Proof. induction a as [|x a IH]; cbn; [|rewrite IH]; reflexivity. Qed.


(** ** The regular expression finds the brace span *)

Lemma star_last_index (s : string) :
  Re.match_here [Re.DotStar; Re.Lit "}"] s =
  (fun j => String.substring 0 (S j) s) <$> last_index "}" s.
Proof.
  induction s as [|d s IH]; [reflexivity|].
  change (Re.match_here [Re.DotStar; Re.Lit "}"] (String d s)) with
    (match Re.match_here [Re.DotStar; Re.Lit "}"] s with
     | Some m => Some (String d m)
     | None => Re.match_here [Re.Lit "}"] (String d s)
     end).
  rewrite IH. cbn [last_index].
  destruct (last_index "}" s) as [j|]; [reflexivity|].
  change (Re.match_here [Re.Lit "}"] (String d s)) with
    (if Ascii.eqb "}" d then Some (String d EmptyString) else None).
  destruct (Ascii.eqb "}" d) eqn:E; [|reflexivity].
  cbn. destruct s; reflexivity.
Qed.

Lemma search_no_close (s : string) :
  last_index "}" s = None → Re.search Re.brace_re s = None.
Proof.
  induction s as [|d s IH]; intros H; [reflexivity|].
  cbn [last_index] in H.
  destruct (last_index "}" s) as [j|] eqn:L; [discriminate|].
  specialize (IH eq_refl).
  unfold Re.brace_re in *. cbn [Re.search].
  change (Re.match_here (Re.Lit "{" :: [Re.DotStar; Re.Lit "}"]) (String d s)) with
    (if Ascii.eqb "{" d then String d <$> Re.match_here [Re.DotStar; Re.Lit "}"] s else None).
  rewrite star_last_index, L. destruct (Ascii.eqb "{" d); exact IH.
Qed.

Lemma search_brace_span (text : string) :
  Re.search Re.brace_re text = brace_span text.
Proof.
  induction text as [|d s IH]; [reflexivity|].
  unfold Re.brace_re in *. cbn [Re.search].
  change (Re.match_here (Re.Lit "{" :: [Re.DotStar; Re.Lit "}"]) (String d s)) with
    (if Ascii.eqb "{" d then String d <$> Re.match_here [Re.DotStar; Re.Lit "}"] s else None).
  rewrite star_last_index. unfold brace_span. cbn [first_index last_index].
  destruct (Ascii.eqb "{" d) eqn:E.
  - destruct (last_index "}" s) as [j|] eqn:L.
    + cbn -[Ascii.eqb]. rewrite Nat.add_1_r. reflexivity.
    + cbn -[Ascii.eqb Re.search].
      pose proof (search_no_close s L) as H. unfold Re.brace_re in H. rewrite H.
      destruct (Ascii.eqb "}" d); reflexivity.
  - rewrite IH. unfold brace_span.
    destruct (first_index "{" s) as [i|]; cbn -[Ascii.eqb]; [|reflexivity].
    destruct (last_index "}" s) as [j|]; cbn -[Ascii.eqb].
    + destruct (i <? j)%nat eqn:C.
      * replace (Nat.ltb (S i) (S j)) with true by (symmetry; apply Nat.ltb_lt; apply Nat.ltb_lt in C; lia).
        reflexivity.
      * replace (Nat.ltb (S i) (S j)) with false by (symmetry; apply Nat.ltb_ge; apply Nat.ltb_ge in C; lia).
        reflexivity.
    + destruct (Ascii.eqb "}" d); reflexivity.
Qed.

Lemma brace_span_starts text span :
  brace_span text = Some span → ∃ s, span = String "{" s.
Proof.
  unfold brace_span.
  destruct (first_index "{" text) as [i|] eqn:F; [|discriminate].
  destruct (last_index "}" text) as [j|]; [|discriminate].
  destruct (i <? j)%nat eqn:C; [|discriminate]. intros [= <-].
  apply Nat.ltb_lt in C.
  revert i j F C. induction text as [|d s IH]; intros i j F C; [discriminate|].
  cbn [first_index] in F. destruct (Ascii.eqb "{" d) eqn:E.
  - injection F as <-. apply Ascii.eqb_eq in E. subst d.
    replace (j - 0 + 1)%nat with (S j) by lia. cbn. eauto.
  - destruct (first_index "{" s) as [i'|] eqn:F'; [|discriminate].
    injection F as <-. destruct j as [|j]; [lia|].
    cbn [String.substring]. replace (S j - S i' + 1)%nat with (j - i' + 1)%nat by lia.
    apply (IH i' j eq_refl). lia.
Qed.


(** ** The decoder: numbers *)

Lemma span_digits_app ds r :
  all_digits ds = true → no_digit_head r = true →
  span_digits (ds +:+ r) = (ds, r).
Proof.
  induction ds as [|c ds IH]; cbn; intros D N.
  - destruct r as [|c r]; [reflexivity|]. cbn in N. cbn.
    destruct (is_digit c); [discriminate | reflexivity].
  - apply andb_prop in D as [Dc D]. rewrite Dc, (IH D N). reflexivity.
Qed.

Lemma span_digits_spec s ds r :
  span_digits s = (ds, r) →
  s = ds +:+ r ∧ all_digits ds = true ∧ no_digit_head r = true.
Proof.
  revert ds r. induction s as [|c s IH]; cbn; intros ds r.
  - intros [= <- <-]. auto.
  - destruct (is_digit c) eqn:D.
    + destruct (span_digits s) as [ds' r']. intros [= <- <-].
      destruct (IH _ _ eq_refl) as (-> & A & N). cbn. rewrite D, A. auto.
    + intros [= <- <-]. cbn. rewrite D. auto.
Qed.

Lemma delimited_no_digit rest : delimited rest = true → no_digit_head rest = true.
Proof.
  destruct rest as [|c r]; [reflexivity|]. cbn.
  destruct (Ascii.eqb_spec c ","); [subst; reflexivity|].
  destruct (Ascii.eqb_spec c "010"); [subst; reflexivity|]. discriminate.
Qed.

Lemma delimited_scan_frac rest : delimited rest = true → scan_frac rest = (EmptyString, rest).
Proof.
  destruct rest as [|c r]; [reflexivity|]. cbn -[Ascii.eqb]. unfold scan_frac.
  cbn -[Ascii.eqb].
  destruct (Ascii.eqb_spec c ","); [subst; reflexivity|].
  destruct (Ascii.eqb_spec c "010"); [subst; reflexivity|]. discriminate.
Qed.

Lemma delimited_scan_exp rest : delimited rest = true → scan_exp rest = (EmptyString, rest).
Proof.
  destruct rest as [|c r]; [reflexivity|]. cbn -[Ascii.eqb]. unfold scan_exp.
  destruct (Ascii.eqb_spec c ","); [subst; reflexivity|].
  destruct (Ascii.eqb_spec c "010"); [subst; reflexivity|]. discriminate.
Qed.

Lemma uint_digits d : all_digits (NilEmpty.string_of_uint d) = true.
Proof. induction d; cbn; auto. Qed.

Lemma pos_uint_head p :
  ∃ c ds, NilEmpty.string_of_uint (Pos.to_uint p) = String c ds ∧
          is_digit c = true ∧ Ascii.eqb c "0" = false.
Proof.
  assert (N : Pos.to_uint p = Decimal.unorm (Pos.to_uint p)).
  { pose proof (DecimalPos.Unsigned.to_of (Pos.to_uint p)) as H.
    rewrite DecimalPos.Unsigned.of_to in H. exact H. }
  pose proof (DecimalPos.Unsigned.to_uint_nonzero p) as Z.
  assert (H : Pos.to_uint p = Decimal.nzhead (Pos.to_uint p)).
  { rewrite N at 1. unfold Decimal.unorm.
    destruct (Decimal.nzhead (Pos.to_uint p)) eqn:E; try reflexivity.
    exfalso. apply Z. rewrite N. unfold Decimal.unorm. rewrite E. reflexivity. }
  pose proof (DecimalFacts.nzhead_nonzero (Pos.to_uint p)) as NZ. rewrite <- H in NZ.
  pose proof (DecimalPos.Unsigned.to_uint_nonnil p) as NN.
  destruct (Pos.to_uint p) as [|d|d|d|d|d|d|d|d|d|d]; cbn; eauto.
  - contradiction.
  - exfalso. apply (NZ d). reflexivity.
Qed.

Lemma int_of_repr n : int_of_lexeme (repr_int n) = n.
Proof.
  unfold int_of_lexeme, repr_int.
  rewrite NilZero.isi.
  - apply DecimalZ.of_to.
  - destruct n; cbn; try discriminate.
    intros [= E]. apply (DecimalPos.Unsigned.to_uint_nonnil _ E).
  - destruct n; cbn; try discriminate.
    intros [= E]. apply (DecimalPos.Unsigned.to_uint_nonnil _ E).
Qed.

Lemma scan_once_atom fuel s :
  atom_head s = true → scan_once (S fuel) s = scan_atom s.
Proof.
  destruct s as [|c t]; [discriminate|]. intros H.
  cbn [scan_once]. unfold quote. cbn [after].
  destruct c as [[] [] [] [] [] [] [] []]; cbn in H; try discriminate; reflexivity.
Qed.

Lemma scan_constant_digit c t : is_digit c = true → scan_constant (String c t) = None.
Proof.
  intros H. unfold scan_constant. cbn [after].
  destruct c as [[] [] [] [] [] [] [] []]; cbn in H; try discriminate; reflexivity.
Qed.

Lemma scan_constant_minus_digit c t :
  is_digit c = true → scan_constant (String "-" (String c t)) = None.
Proof.
  intros H. unfold scan_constant. cbn [after].
  destruct c as [[] [] [] [] [] [] [] []]; cbn in H; try discriminate; reflexivity.
Qed.

Lemma after_minus_digit c t : is_digit c = true → after "-" (String c t) = None.
Proof.
  intros H. cbn [after].
  destruct c as [[] [] [] [] [] [] [] []]; cbn in H; try discriminate; reflexivity.
Qed.

Lemma match_number_canonical c ds rest :
  is_digit c = true → Ascii.eqb c "0" = false → all_digits ds = true →
  delimited rest = true →
  match_number (String c ds +:+ rest) = Scanned (JInt (int_of_lexeme (String c ds))) rest ∧
  match_number (String "-" (String c ds) +:+ rest) =
    Scanned (JInt (int_of_lexeme (String "-" (String c ds)))) rest.
Proof.
  intros D Z A L.
  assert (I : scan_int_part (String c (ds +:+ rest)) = Some (String c ds, rest)).
  { unfold scan_int_part. rewrite Z, D.
    rewrite (span_digits_app _ _ A (delimited_no_digit _ L)). reflexivity. }
  split; unfold match_number.
  - cbn [String.append]. rewrite (after_minus_digit _ _ D), I.
    rewrite (delimited_scan_frac _ L), (delimited_scan_exp _ L). reflexivity.
  - cbn [String.append after]. cbn [Ascii.eqb Bool.eqb]. cbv iota. rewrite I.
    rewrite (delimited_scan_frac _ L), (delimited_scan_exp _ L). reflexivity.
Qed.

Lemma scan_atom_repr_lexeme n rest :
  delimited rest = true →
  atom_head (repr_int n +:+ rest) = true ∧
  scan_atom (repr_int n +:+ rest) = Scanned (JInt (int_of_lexeme (repr_int n))) rest.
Proof.
  intros L. unfold repr_int.
  destruct n as [|p|p]; cbn [Z.to_int NilZero.string_of_int].
  - cbn. split; [reflexivity|]. unfold scan_atom, match_number. cbn.
    rewrite (delimited_scan_frac _ L), (delimited_scan_exp _ L). reflexivity.
  - destruct (pos_uint_head p) as (c & ds & E & D & Z).
    pose proof (uint_digits (Pos.to_uint p)) as A. rewrite E in A. cbn in A.
    apply andb_prop in A as [_ A].
    unfold NilZero.string_of_uint.
    destruct (Pos.to_uint p) eqn:U; [discriminate E|..]; rewrite E;
      (split; [cbn; rewrite D; reflexivity|]);
      unfold scan_atom; cbn [String.append]; rewrite (scan_constant_digit _ _ D);
      apply (match_number_canonical c ds rest D Z A L).
  - destruct (pos_uint_head p) as (c & ds & E & D & Z).
    pose proof (uint_digits (Pos.to_uint p)) as A. rewrite E in A. cbn in A.
    apply andb_prop in A as [_ A].
    unfold NilZero.string_of_uint.
    destruct (Pos.to_uint p) eqn:U; [discriminate E|..]; rewrite E;
      (split; [reflexivity|]);
      unfold scan_atom; cbn [String.append]; rewrite (scan_constant_minus_digit _ _ D);
      apply (match_number_canonical c ds rest D Z A L).
Qed.

Lemma scan_atom_repr n rest :
  delimited rest = true →
  atom_head (repr_int n +:+ rest) = true ∧
  scan_atom (repr_int n +:+ rest) = Scanned (JInt n) rest.
Proof.
  intros L. destruct (scan_atom_repr_lexeme n rest L) as [H1 H2].
  rewrite int_of_repr in H2. auto.
Qed.

Lemma after_length p s r : after p s = Some r → String.length s = (String.length p + String.length r)%nat.
Proof.
  revert s. induction p as [|c p IH]; cbn; intros s.
  - intros [= ->]. reflexivity.
  - destruct s as [|d s]; [discriminate|]. destruct (Ascii.eqb c d); [|discriminate].
    intros H. cbn. rewrite (IH _ H). reflexivity.
Qed.

Lemma skip_ws_length s : (String.length (skip_ws s) ≤ String.length s)%nat.
Proof. induction s as [|c s IH]; cbn; [lia|]. destruct (is_ws c); cbn; lia. Qed.

Lemma scan_int_part_spec s ip r :
  scan_int_part s = Some (ip, r) →
  s = ip +:+ r ∧ atom_head ip = true ∧
  (∀ t, no_digit_head t = true ∨ ip = "0" → scan_int_part (ip +:+ t) = Some (ip, t)) ∧
  (∀ t, after "-" (ip +:+ t) = None ∧ scan_constant (ip +:+ t) = None ∧
        scan_constant ("-" +:+ ip +:+ t) = None).
Proof.
  destruct s as [|d s']; [discriminate|]. unfold scan_int_part at 1.
  destruct (Ascii.eqb_spec d "0") as [->|N0].
  - intros [= <- <-]. repeat split; try reflexivity.
  - destruct (is_digit d) eqn:D; [|discriminate].
    destruct (span_digits s') as [ds r'] eqn:E. intros [= <- <-].
    destruct (span_digits_spec _ _ _ E) as (-> & A & N).
    split; [reflexivity|]. split; [cbn; rewrite D; reflexivity|]. split.
    + intros t [H | H].
      * unfold scan_int_part. cbn [String.append].
        destruct (Ascii.eqb_spec d "0"); [contradiction|]. rewrite D.
        rewrite (span_digits_app _ _ A H). reflexivity.
      * injection H as -> _. contradiction.
    + intros t. cbn [String.append].
      rewrite (after_minus_digit _ _ D), (scan_constant_digit _ _ D),
        (scan_constant_minus_digit _ _ D). auto.
Qed.

Lemma scan_frac_spec s frac r :
  scan_frac s = (frac, r) →
  s = frac +:+ r ∧ frac_ok frac ∧ (frac ≠ EmptyString → no_digit_head r = true).
Proof.
  unfold scan_frac. destruct (after "." s) as [s'|] eqn:A.
  - destruct s as [|c s'']; [cbn in A; discriminate|]. cbn -[Ascii.eqb] in A.
    destruct (Ascii.eqb_spec "." c) as [<-|]; [|discriminate]. injection A as <-.
    destruct (span_digits s'') as [ds r'] eqn:E.
    destruct (span_digits_spec _ _ _ E) as (-> & D & N).
    destruct ds as [|d ds].
    + intros [= <- <-]. split; [reflexivity|]. split; [left; reflexivity | congruence].
    + intros [= <- <-]. cbn in D. apply andb_prop in D as [D1 D2].
      split; [reflexivity|]. split; [right; eauto | auto].
  - intros [= <- <-]. split; [reflexivity|]. split; [left; reflexivity | congruence].
Qed.

Lemma scan_frac_app d ds t :
  is_digit d = true → all_digits ds = true → no_digit_head t = true →
  scan_frac (String "." (String d ds) +:+ t) = (String "." (String d ds), t).
Proof.
  intros D A N. unfold scan_frac. cbn [String.append after]. cbn [Ascii.eqb Bool.eqb].
  cbv iota. change (String d (ds +:+ t)) with (String d ds +:+ t).
  rewrite span_digits_app; [reflexivity | cbn; rewrite D, A; reflexivity | exact N].
Qed.

Lemma scan_sign_spec s sg r :
  scan_sign s = (sg, r) →
  s = sg +:+ r ∧ (sg = EmptyString ∨ sg = "-" ∨ sg = "+").
Proof.
  destruct s as [|g t]; cbn -[Ascii.eqb].
  - intros [= <- <-]. auto.
  - destruct (Ascii.eqb_spec g "-") as [->|]; [intros [= <- <-]; auto|].
    destruct (Ascii.eqb_spec g "+") as [->|]; intros [= <- <-]; auto.
Qed.

Lemma scan_exp_spec s ex r :
  scan_exp s = (ex, r) →
  s = ex +:+ r ∧ exp_ok ex ∧ (ex ≠ EmptyString → no_digit_head r = true).
Proof.
  destruct s as [|e s']; [intros [= <- <-]; split; [|split]; [reflexivity|left; reflexivity|congruence]|].
  unfold scan_exp.
  destruct (Ascii.eqb e "e" || Ascii.eqb e "E") eqn:He;
    [|intros [= <- <-]; split; [|split]; [reflexivity|left; reflexivity|congruence]].
  destruct (scan_sign s') as [sg s''] eqn:Sg.
  destruct (scan_sign_spec _ _ _ Sg) as (-> & Hsg).
  destruct (span_digits s'') as [ds r'] eqn:E.
  destruct (span_digits_spec _ _ _ E) as (-> & D & N).
  destruct ds as [|d ds].
  - intros [= <- <-]. split; [|split]; [reflexivity|left; reflexivity|congruence].
  - intros [= <- <-]. cbn in D. apply andb_prop in D as [D1 D2].
    split; [cbn; rewrite append_assoc; reflexivity|]. split; [|auto].
    right. exists e, sg, d, ds. repeat split; auto.
    apply orb_prop in He as [H|H]; apply Ascii.eqb_eq in H; auto.
Qed.

Lemma scan_exp_app e sg d ds t :
  (e = "e" ∨ e = "E")%char → (sg = EmptyString ∨ sg = "-" ∨ sg = "+") →
  is_digit d = true → all_digits ds = true → no_digit_head t = true →
  scan_exp (String e (sg +:+ String d ds) +:+ t) = (String e (sg +:+ String d ds), t).
Proof.
  intros He Hsg D A N. unfold scan_exp. cbn [String.append].
  assert (Ascii.eqb e "e" || Ascii.eqb e "E" = true) as ->
    by (destruct He as [-> | ->]; reflexivity).
  assert (S : scan_sign ((sg +:+ String d ds) +:+ t) = (sg, String d ds +:+ t)).
  { destruct Hsg as [-> | [-> | ->]]; try reflexivity.
    cbn -[Ascii.eqb]. 
    destruct d as [[] [] [] [] [] [] [] []]; cbn in D; try discriminate; reflexivity. }
  rewrite S, span_digits_app; [reflexivity | cbn; rewrite D, A; reflexivity | exact N].
Qed.

Lemma no_digit_head_tail frac ex rest :
  frac_ok frac → exp_ok ex → delimited rest = true →
  no_digit_head (frac +:+ ex +:+ rest) = true ∧
  no_digit_head (ex +:+ rest) = true ∧
  scan_frac (frac +:+ ex +:+ rest) = (frac, ex +:+ rest) ∧
  scan_exp (ex +:+ rest) = (ex, rest).
Proof.
  intros Hf He L.
  assert (Nr : no_digit_head rest = true) by (apply delimited_no_digit, L).
  assert (Ne : no_digit_head (ex +:+ rest) = true).
  { destruct He as [-> | (e & sg & d & ds & -> & [-> | ->] & _)]; auto. }
  assert (Se : scan_exp (ex +:+ rest) = (ex, rest)).
  { destruct He as [-> | (e & sg & d & ds & -> & H1 & H2 & H3 & H4)].
    - apply delimited_scan_exp, L.
    - apply scan_exp_app; auto. }
  destruct Hf as [-> | (d & ds & -> & D & A)].
  - repeat split; auto. cbn [String.append].
    destruct He as [-> | (e & sg & d & ds & -> & [-> | ->] & _)];
      [apply delimited_scan_frac, L | reflexivity..].
  - repeat split; auto. apply scan_frac_app; auto.
Qed.

Lemma match_number_rescan (negative : bool) ip frac ex rest :
  (∀ t, no_digit_head t = true ∨ ip = "0" → scan_int_part (ip +:+ t) = Some (ip, t)) →
  (∀ t, after "-" (ip +:+ t) = None) →
  frac_ok frac → exp_ok ex → delimited rest = true →
  let sign := if negative then "-" else EmptyString in
  match_number (sign +:+ ip +:+ frac +:+ ex +:+ rest) =
  Scanned (match frac, ex with
           | EmptyString, EmptyString => JInt (int_of_lexeme (sign +:+ ip))
           | _, _ => JFloat (sign +:+ ip +:+ frac +:+ ex)
           end) rest.
Proof.
  intros Hip Hm Hf He L sign.
  destruct (no_digit_head_tail frac ex rest Hf He L) as (N1 & N2 & Sf & Se).
  unfold match_number.
  assert (A : (let '(sg, s1) :=
                 match after "-" (sign +:+ ip +:+ frac +:+ ex +:+ rest) with
                 | Some s' => ("-", s')
                 | None => (EmptyString, sign +:+ ip +:+ frac +:+ ex +:+ rest)
                 end in (sg, s1)) = (sign, ip +:+ frac +:+ ex +:+ rest)).
  { subst sign. destruct negative; [reflexivity|]. cbn [String.append]. rewrite Hm. reflexivity. }
  destruct (match after "-" (sign +:+ ip +:+ frac +:+ ex +:+ rest) with
            | Some s' => ("-", s')
            | None => (EmptyString, sign +:+ ip +:+ frac +:+ ex +:+ rest)
            end) as [sg s1].
  injection A as -> ->.
  rewrite (Hip _ (or_introl N1)), Sf, Se.
  destruct frac, ex; reflexivity.
Qed.

Lemma match_number_spec s v r :
  match_number s = Scanned v r →
  (String.length r < String.length s)%nat ∧ ∀ lexeme, v = JFloat lexeme → float_lexeme lexeme.
Proof.
  unfold match_number.
  assert (S : ∃ (negative : bool) s1,
             (match after "-" s with
              | Some s' => ("-", s')
              | None => (EmptyString, s)
              end) = ((if negative then "-" else EmptyString), s1) ∧
             s = (if negative then "-" else EmptyString) +:+ s1).
  { destruct (after "-" s) as [s'|] eqn:A.
    - exists true, s'. split; [reflexivity|].
      destruct s as [|c t]; [discriminate|]. cbn -[Ascii.eqb] in A.
      destruct (Ascii.eqb_spec "-" c) as [<-|]; [|discriminate]. injection A as <-. reflexivity.
    - exists false, s. auto. }
  destruct S as (negative & s1 & -> & ->).
  destruct (scan_int_part s1) as [[ip r0]|] eqn:I; [|discriminate].
  destruct (scan_int_part_spec _ _ _ I) as (-> & Hh & Hip & Hc).
  destruct (scan_frac r0) as [frac r1] eqn:F.
  destruct (scan_frac_spec _ _ _ F) as (-> & Hf & _).
  destruct (scan_exp r1) as [ex r2] eqn:E.
  destruct (scan_exp_spec _ _ _ E) as (-> & He & _).
  intros H.
  assert (R : r2 = r) by (destruct frac, ex; injection H; auto). subst r2.
  split.
  { rewrite !length_append. destruct ip; [discriminate|]. cbn. lia. }
  intros lexeme ->.
  assert (Hl : lexeme = (if negative then "-" else EmptyString) +:+ ip +:+ frac +:+ ex ∧
               (frac ≠ EmptyString ∨ ex ≠ EmptyString)).
  { destruct frac, ex; try discriminate; injection H as <-; split; auto; try (left; discriminate);
      right; discriminate. }
  destruct Hl as [-> Hne]. split.
  - destruct negative; [reflexivity|]. destruct ip; [discriminate|]. exact Hh.
  - intros rest L. unfold scan_atom. rewrite !append_assoc.
    assert (C : scan_constant ((if negative then "-" else EmptyString) +:+ ip +:+
                               frac +:+ ex +:+ rest) = None).
    { destruct negative; [apply Hc | apply (proj1 (proj2 (Hc _)))]. }
    rewrite C.
    rewrite (match_number_rescan negative ip frac ex rest Hip (λ t, proj1 (Hc t)) Hf He L).
    destruct frac, ex; try reflexivity. destruct Hne; contradiction.
Qed.

Lemma scan_constant_spec s v r :
  scan_constant s = Some (v, r) →
  (String.length r < String.length s)%nat ∧ ∀ lexeme, v = JFloat lexeme → float_lexeme lexeme.
Proof.
  unfold scan_constant.
  destruct (after "null" s) eqn:A1.
  { apply after_length in A1. intros [= <- <-]. split; [cbn in A1; lia|]. discriminate. }
  destruct (after "true" s) eqn:A2.
  { apply after_length in A2. intros [= <- <-]. split; [cbn in A2; lia|]. discriminate. }
  destruct (after "false" s) eqn:A3.
  { apply after_length in A3. intros [= <- <-]. split; [cbn in A3; lia|]. discriminate. }
  destruct (after "NaN" s) eqn:A4.
  { apply after_length in A4. intros [= <- <-]. split; [cbn in A4; lia|].
    intros lexeme [= <-]. split; [reflexivity|]. intros rest L. reflexivity. }
  destruct (after "Infinity" s) eqn:A5.
  { apply after_length in A5. intros [= <- <-]. split; [cbn in A5; lia|].
    intros lexeme [= <-]. split; [reflexivity|]. intros rest L. reflexivity. }
  destruct (after "-Infinity" s) eqn:A6; [|discriminate].
  apply after_length in A6. intros [= <- <-]. split; [cbn in A6; lia|].
  intros lexeme [= <-]. split; [reflexivity|]. intros rest L. reflexivity.
Qed.

Lemma scan_atom_spec s v r :
  scan_atom s = Scanned v r →
  (String.length r < String.length s)%nat ∧ ∀ lexeme, v = JFloat lexeme → float_lexeme lexeme.
Proof.
  unfold scan_atom. destruct (scan_constant s) as [[v' r']|] eqn:C.
  - intros [= <- <-]. eapply scan_constant_spec, C.
  - apply match_number_spec.
Qed.

Lemma scan_atom_never_exhausted s : scan_atom s ≠ Exhausted ∧ scan_atom s ≠ Beyond.
Proof.
  unfold scan_atom. destruct (scan_constant s) as [[v' r']|]; [split; discriminate|].
  unfold match_number.
  destruct (match after "-" s with Some s' => ("-", s') | None => (EmptyString, s) end) as [sg s1].
  destruct (scan_int_part s1) as [[ip r0]|]; [|split; discriminate].
  destruct (scan_frac r0) as [frac r1]. destruct (scan_exp r1) as [ex r2].
  destruct frac, ex; split; discriminate.
Qed.


(** ** The decoder: strings *)

Lemma scanstring_escape c t :
  scanstring (escape_char c +:+ t) = scan_cons c (scanstring t).
Proof. destruct c as [[] [] [] [] [] [] [] []]; reflexivity. Qed.

Lemma scanstring_body s rest :
  scanstring (escape_body s +:+ String "034" rest) = Scanned s rest.
Proof.
  induction s as [|c s IH]; [reflexivity|].
  cbn [escape_body]. rewrite append_assoc, scanstring_escape, IH. reflexivity.
Qed.

Lemma scan_string s rest :
  after quote (encode_string s +:+ rest) = Some (escape_body s +:+ String "034" rest) ∧
  scanstring (escape_body s +:+ String "034" rest) = Scanned s rest.
Proof.
  split; [|apply scanstring_body].
  unfold encode_string, quote. cbn. rewrite append_assoc. reflexivity.
Qed.

Lemma scan_cons_length c r x rest n :
  (∀ x rest, r = Scanned x rest → (String.length rest < n)%nat) →
  scan_cons c r = Scanned x rest → (String.length rest < n)%nat.
Proof. destruct r; cbn; try discriminate. intros H [= <- <-]. eauto. Qed.

Lemma scanstring_length_bounded n : ∀ s x rest,
  (String.length s ≤ n)%nat → scanstring s = Scanned x rest → (String.length rest < String.length s)%nat.
Proof.
  induction n as [|n IHn]; intros s x rest B.
  { destruct s; [discriminate | cbn in B; lia]. }
  assert (IH : ∀ y, (String.length y < String.length s)%nat →
                ∀ x rest, scanstring y = Scanned x rest → (String.length rest < String.length y)%nat)
    by (intros y Hy x' r'; apply IHn; lia).
  clear IHn B.
  destruct s as [|c s1]; [discriminate|]. cbn [scanstring].
  destruct (Ascii.eqb c "034"); [intros [= <- <-]; cbn; lia|].
  destruct (Ascii.eqb c "\").
  - destruct s1 as [|e s2]; [discriminate|].
    destruct (Ascii.eqb e "u").
    + destruct s2 as [|h1 [|h2 [|h3 [|h4 s6]]]]; try discriminate.
      destruct (decode_uXXXX h1 h2 h3 h4) as [cp|]; [|discriminate].
      destruct (cp <? 256)%N; [|discriminate].
      intros H. eapply scan_cons_length in H; [exact H|].
      intros x' r' E. apply IH in E; cbn in *; lia.
    + destruct (backslash e); [|discriminate].
      intros H. eapply scan_cons_length in H; [exact H|].
      intros x' r' E. apply IH in E; cbn in *; lia.
  - destruct (is_control c); [discriminate|].
    intros H. eapply scan_cons_length in H; [exact H|].
    intros x' r' E. apply IH in E; cbn in *; lia.
Qed.

Lemma scanstring_length s x rest :
  scanstring s = Scanned x rest → (String.length rest < String.length s)%nat.
Proof. apply (scanstring_length_bounded (String.length s)). lia. Qed.

Lemma scanstring_total_bounded n : ∀ s, (String.length s ≤ n)%nat → scanstring s ≠ Exhausted.
Proof.
  induction n as [|n IHn]; intros s B.
  { destruct s; [discriminate | cbn in B; lia]. }
  assert (IH : ∀ y c, (String.length y < String.length s)%nat → scan_cons c (scanstring y) ≠ Exhausted).
  { intros y c Hy. specialize (IHn y ltac:(lia)). destruct (scanstring y); cbn; congruence. }
  clear IHn B.
  destruct s as [|c s1]; [discriminate|]. cbn [scanstring].
  destruct (Ascii.eqb c "034"); [discriminate|].
  destruct (Ascii.eqb c "\").
  - destruct s1 as [|e s2]; [discriminate|].
    destruct (Ascii.eqb e "u").
    + destruct s2 as [|h1 [|h2 [|h3 [|h4 s6]]]]; try discriminate.
      destruct (decode_uXXXX h1 h2 h3 h4) as [cp|]; [|discriminate].
      destruct (cp <? 256)%N; [|discriminate]. apply IH. cbn. lia.
    + destruct (backslash e); [|discriminate]. apply IH. cbn. lia.
  - destruct (is_control c); [discriminate|]. apply IH. cbn. lia.
Qed.

Lemma scanstring_total s : scanstring s ≠ Exhausted.
Proof. apply (scanstring_total_bounded (String.length s)). lia. Qed.


(** ** The decoder reads back what the encoder writes *)

Lemma skip_ws_spaces n s : skip_ws (spaces n +:+ s) = skip_ws s.
Proof. induction n as [|n IH]; [reflexivity|]. cbn. exact IH. Qed.

Lemma skip_ws_newline_indent level s :
  skip_ws (newline_indent level +:+ s) = skip_ws s.
Proof. unfold newline_indent. cbn. apply skip_ws_spaces. Qed.

Lemma encode_arr level x xs :
  encode level (JArr (x :: xs)) =
  "[" +:+ newline_indent (S level) +:+ encode (S level) x +:+ encode_items level xs.
Proof.
  cbn [encode]. do 3 f_equal.
  induction xs as [|y ys IH]; [reflexivity|]. cbn [encode_items]. rewrite <- IH. reflexivity.
Qed.

Lemma encode_obj level k x ms :
  encode level (JObj ((k, x) :: ms)) =
  "{" +:+ newline_indent (S level) +:+ encode_string k +:+ ": " +:+
  encode (S level) x +:+ encode_members level ms.
Proof.
  cbn [encode]. do 5 f_equal.
  induction ms as [|[k' y] ys IH]; [reflexivity|]. cbn [encode_members]. rewrite <- IH.
  reflexivity.
Qed.

Lemma json_induction (P : json → Prop) :
  P JNull → (∀ b, P (JBool b)) → (∀ n, P (JInt n)) → (∀ l, P (JFloat l)) →
  (∀ s, P (JStr s)) →
  (∀ items, Forall P items → P (JArr items)) →
  (∀ members, Forall (λ kv, P (snd kv)) members → P (JObj members)) →
  ∀ v, P v.
Proof.
  intros Hnull Hbool Hint Hfloat Hstr Harr Hobj.
  fix IH 1. intros [ | b | n | l | s | items | members].
  - exact Hnull.
  - apply Hbool.
  - apply Hint.
  - apply Hfloat.
  - apply Hstr.
  - apply Harr. induction items as [|x xs IHxs]; constructor; [apply IH | exact IHxs].
  - apply Hobj. induction members as [|[k x] ms IHms]; constructor; [apply IH | exact IHms].
Qed.

Lemma atom_value_head s : atom_head s = true → value_head s = true.
Proof.
  destruct s as [|c t]; [discriminate|]. cbn -[Ascii.eqb]. intros H.
  destruct c as [[] [] [] [] [] [] [] []]; cbn in H; try discriminate; reflexivity.
Qed.

Lemma atom_head_app s r : atom_head s = true → atom_head (s +:+ r) = true.
Proof. destruct s; [discriminate|]. auto. Qed.

Lemma value_head_skip_ws s : value_head s = true → skip_ws s = s.
Proof.
  destruct s as [|c t]; [discriminate|]. cbn -[Ascii.eqb]. intros H.
  destruct (is_ws c); [discriminate | reflexivity].
Qed.

Lemma value_head_not_closed s :
  value_head s = true → after "]" s = None ∧ after "}" s = None.
Proof.
  destruct s as [|c t]; [discriminate|]. cbn -[Ascii.eqb]. intros H.
  rewrite (Ascii.eqb_sym "]"), (Ascii.eqb_sym "}").
  destruct (is_ws c), (Ascii.eqb c "]"), (Ascii.eqb c "}"); try discriminate; auto.
Qed.

Lemma atom_head_repr n : atom_head (repr_int n) = true.
Proof.
  pose proof (proj1 (scan_atom_repr n EmptyString eq_refl)) as H.
  rewrite append_nil_r in H. exact H.
Qed.

Lemma encode_head level v rest : wf v → value_head (encode level v +:+ rest) = true.
Proof.
  destruct 1 as [ | [] | n | l [H _] | s | items _ | members _ _]; try reflexivity.
  - apply atom_value_head, atom_head_app, atom_head_repr.
  - apply atom_value_head, atom_head_app, H.
  - destruct items; reflexivity.
  - destruct members as [|[k x] ms]; reflexivity.
Qed.

Lemma delimited_items level xs rest : delimited (encode_items level xs +:+ rest) = true.
Proof. destruct xs; reflexivity. Qed.

Lemma delimited_members level ms rest : delimited (encode_members level ms +:+ rest) = true.
Proof. destruct ms as [|[k x] ms]; reflexivity. Qed.

Lemma array_loop_reads_back xs : ∀ x acc fuel level rest,
  wf x → reads_back x → Forall wf xs → Forall reads_back xs →
  delimited rest = true →
  array_loop fuel acc (encode (S level) x +:+ encode_items level xs +:+ rest) =
    Scanned (JArr (acc ++ x :: xs)) rest ∨
  array_loop fuel acc (encode (S level) x +:+ encode_items level xs +:+ rest) = Exhausted.
Proof.
  induction xs as [|y ys IH]; intros x acc fuel level rest Wx Rx Wxs Rxs L;
    (destruct fuel as [|fuel]; [right; reflexivity|]); cbn [array_loop].
  - destruct (Rx fuel (S level) (encode_items level [] +:+ rest)
                (delimited_items _ _ _)) as [-> | ->]; auto.
    left. cbn [encode_items]. rewrite append_assoc, skip_ws_newline_indent. reflexivity.
  - destruct (Rx fuel (S level) (encode_items level (y :: ys) +:+ rest)
                (delimited_items _ _ _)) as [-> | ->]; auto.
    cbn [encode_items]. rewrite !append_assoc.
    change (skip_ws ("," +:+ ?t)) with ("," +:+ t).
    change (after "]" ("," +:+ ?t)) with (@None string).
    change (after "," ("," +:+ ?t)) with (Some t). cbv iota.
    rewrite skip_ws_newline_indent.
    inversion Wxs as [|? ? Wy Wys]; subst. inversion Rxs as [|? ? Ry Rys]; subst.
    rewrite (value_head_skip_ws _ (encode_head _ _ _ Wy)).
    destruct (IH y (acc ++ [x]) fuel level rest Wy Ry Wys Rys L) as [E | E];
      rewrite E; [left | right; reflexivity].
    rewrite <- app_assoc. reflexivity.
Qed.

Lemma dict_set_fresh k v acc :
  k ∉ (fst <$> acc) → dict_set k v acc = acc ++ [(k, v)].
Proof.
  induction acc as [|[k' v'] acc IH]; [reflexivity|]. cbn. intros H.
  destruct (String.eqb_spec k k') as [->|].
  - exfalso. apply H. left.
  - rewrite IH; [reflexivity|]. intros ?. apply H. right. assumption.
Qed.

Lemma object_loop_step fuel acc k t :
  value_head t = true →
  object_loop (S fuel) acc (encode_string k +:+ ": " +:+ t) =
  match scan_once fuel t with
  | Scanned v s4 =>
      match after "}" (skip_ws s4) with
      | Some r => Scanned (JObj (dict_set k v acc)) r
      | None =>
          match after "," (skip_ws s4) with
          | Some s5 => object_loop fuel (dict_set k v acc) (skip_ws s5)
          | None => Malformed
          end
      end
  | Malformed => Malformed
  | Beyond => Beyond
  | Exhausted => Exhausted
  end.
Proof.
  intros H. cbn [object_loop].
  destruct (scan_string k (": " +:+ t)) as [-> ->].
  change (skip_ws (": " +:+ t)) with (": " +:+ t).
  change (after ":" (": " +:+ t)) with (Some (" " +:+ t)). cbv iota.
  change (skip_ws (" " +:+ t)) with (skip_ws t).
  rewrite (value_head_skip_ws _ H). reflexivity.
Qed.

Lemma object_loop_reads_back ms : ∀ k x acc fuel level rest,
  wf x → reads_back x →
  Forall (λ kv, wf (snd kv)) ms → Forall (λ kv, reads_back (snd kv)) ms →
  NoDup (fst <$> (acc ++ (k, x) :: ms)) →
  delimited rest = true →
  object_loop fuel acc
    (encode_string k +:+ ": " +:+ encode (S level) x +:+ encode_members level ms +:+ rest) =
    Scanned (JObj (acc ++ (k, x) :: ms)) rest ∨
  object_loop fuel acc
    (encode_string k +:+ ": " +:+ encode (S level) x +:+ encode_members level ms +:+ rest) =
    Exhausted.
Proof.
  induction ms as [|[k' y] ys IH]; intros k x acc fuel level rest Wx Rx Wxs Rxs ND L;
    (destruct fuel as [|fuel]; [right; reflexivity|]);
    rewrite (object_loop_step _ _ _ _ (encode_head _ _ _ Wx));
    assert (F : dict_set k x acc = acc ++ [(k, x)])
      by (apply dict_set_fresh; rewrite fmap_app in ND;
          apply NoDup_app in ND as (_ & ND & _); intros ?; apply (ND k); [assumption | left]).
  - destruct (Rx fuel (S level) (encode_members level [] +:+ rest)
                (delimited_members _ _ _)) as [-> | ->]; auto.
    left. cbn [encode_members]. rewrite append_assoc, skip_ws_newline_indent.
    rewrite F. reflexivity.
  - destruct (Rx fuel (S level) (encode_members level ((k', y) :: ys) +:+ rest)
                (delimited_members _ _ _)) as [-> | ->]; auto.
    cbn [encode_members]. rewrite !append_assoc.
    change (skip_ws ("," +:+ ?t)) with ("," +:+ t).
    change (after "}" ("," +:+ ?t)) with (@None string).
    change (after "," ("," +:+ ?t)) with (Some t). cbv iota.
    rewrite skip_ws_newline_indent.
    inversion Wxs as [|? ? Wy Wys]; subst. inversion Rxs as [|? ? Ry Rys]; subst.
    cbn [snd] in *.
    assert (H : skip_ws (encode_string k' +:+ ": " +:+ encode (S level) y +:+
                         encode_members level ys +:+ rest) =
                encode_string k' +:+ ": " +:+ encode (S level) y +:+
                encode_members level ys +:+ rest) by reflexivity.
    rewrite H, F.
    destruct (IH k' y (acc ++ [(k, x)]) fuel level rest Wy Ry Wys Rys) as [E | E];
      [rewrite <- app_assoc; exact ND | exact L | ..];
      rewrite E; [left | right; reflexivity].
    rewrite <- app_assoc. reflexivity.
Qed.

Lemma Forall_imp_wf (P : json → Prop) items :
  Forall (λ v, wf v → P v) items → Forall wf items → Forall P items.
Proof.
  induction 1; intros W; inversion W; subst; constructor; auto.
Qed.

Lemma Forall_imp_wf_members (P : json → Prop) (members : list (string * json)) :
  Forall (λ kv, wf (snd kv) → P (snd kv)) members →
  Forall (λ kv, wf (snd kv)) members → Forall (λ kv, P (snd kv)) members.
Proof.
  induction 1; intros W; inversion W; subst; constructor; auto.
Qed.

Lemma scan_once_open_bracket fuel level t :
  value_head t = true →
  scan_once (S fuel) ("[" +:+ newline_indent level +:+ t) = array_loop fuel [] t.
Proof.
  intros H. cbn [scan_once].
  change (after quote ("[" +:+ ?u)) with (@None string).
  change (after "{" ("[" +:+ ?u)) with (@None string).
  change (after "[" ("[" +:+ ?u)) with (Some u). cbv iota.
  rewrite skip_ws_newline_indent, (value_head_skip_ws _ H).
  rewrite (proj1 (value_head_not_closed _ H)). reflexivity.
Qed.

Lemma scan_once_open_brace fuel level t :
  value_head t = true →
  scan_once (S fuel) ("{" +:+ newline_indent level +:+ t) = object_loop fuel [] t.
Proof.
  intros H. cbn [scan_once].
  change (after quote ("{" +:+ ?u)) with (@None string).
  change (after "{" ("{" +:+ ?u)) with (Some u). cbv iota.
  rewrite skip_ws_newline_indent, (value_head_skip_ws _ H).
  rewrite (proj2 (value_head_not_closed _ H)). reflexivity.
Qed.

Lemma wf_reads_back v : wf v → reads_back v.
Proof.
  induction v as [ | b | n | l | s | items IH | members IH] using json_induction;
    intros W fuel level rest L; (destruct fuel as [|fuel]; [right; reflexivity|]).
  - left. reflexivity.
  - left. destruct b; reflexivity.
  - left. destruct (scan_atom_repr n rest L) as [H E].
    cbn [encode]. rewrite (scan_once_atom _ _ H). exact E.
  - left. inversion W as [ | | | ? [H E] | | | ]; subst.
    cbn [encode]. rewrite (scan_once_atom _ _ (atom_head_app _ _ H)). apply E, L.
  - left. cbn [encode scan_once]. destruct (scan_string s rest) as [-> ->]. reflexivity.
  - inversion W as [ | | | | | ? Wi | ]; subst.
    pose proof (Forall_imp_wf _ _ IH Wi) as Ri.
    destruct items as [|x xs]; [left; reflexivity|].
    inversion Wi as [|? ? Wx Wxs]; subst. inversion Ri as [|? ? Rx Rxs]; subst.
    rewrite encode_arr, !append_assoc.
    rewrite scan_once_open_bracket by apply encode_head, Wx.
    apply (array_loop_reads_back xs x [] fuel level rest); assumption.
  - inversion W as [ | | | | | | ? ND Wi]; subst.
    pose proof (Forall_imp_wf_members _ _ IH Wi) as Ri.
    destruct members as [|[k x] ms]; [left; reflexivity|].
    inversion Wi as [|? ? Wx Wxs]; subst. inversion Ri as [|? ? Rx Rxs]; subst.
    rewrite encode_obj, !append_assoc.
    rewrite scan_once_open_brace by reflexivity.
    apply (object_loop_reads_back ms k x [] fuel level rest); assumption.
Qed.


(** ** The decoder builds well-formed values and never runs out of budget *)

Lemma dict_set_keys k v acc :
  NoDup (fst <$> acc) → NoDup (fst <$> dict_set k v acc) ∧
  ∀ k', k' ∈ (fst <$> dict_set k v acc) ↔ k' = k ∨ k' ∈ (fst <$> acc).
Proof.
  induction acc as [|[k0 v0] acc IH]; cbn [dict_set fmap list_fmap fst].
  - intros _. split.
    + apply NoDup_singleton.
    + intros k'. rewrite list_elem_of_singleton, elem_of_nil. tauto.
  - intros ND. apply NoDup_cons in ND as [Hn ND]. destruct (IH ND) as [IH1 IH2].
    destruct (String.eqb_spec k k0) as [->|Hne]; cbn [fmap list_fmap fst].
    + split; [apply NoDup_cons; auto|].
      intros k'. rewrite !elem_of_cons. tauto.
    + split.
      * apply NoDup_cons. split; [|exact IH1]. rewrite IH2.
        intros [E|E]; [apply Hne; symmetry; exact E | exact (Hn E)].
      * intros k'. rewrite !elem_of_cons, IH2. tauto.
Qed.

Lemma dict_set_wf k v acc :
  wf v → Forall (λ kv, wf (snd kv)) acc → Forall (λ kv, wf (snd kv)) (dict_set k v acc).
Proof.
  intros W. induction 1 as [|[k0 v0] acc H0 H IH]; cbn [dict_set].
  - repeat constructor. exact W.
  - destruct (String.eqb k k0); constructor; auto.
Qed.

Lemma scan_sound fuel :
  (∀ s v r, scan_once fuel s = Scanned v r → (String.length r < String.length s)%nat ∧ wf v) ∧
  (∀ acc s v r, NoDup (fst <$> acc) → Forall (λ kv, wf (snd kv)) acc →
     object_loop fuel acc s = Scanned v r → (String.length r < String.length s)%nat ∧ wf v) ∧
  (∀ acc s v r, Forall wf acc →
     array_loop fuel acc s = Scanned v r → (String.length r < String.length s)%nat ∧ wf v).
Proof.
  induction fuel as [|fuel (IHo & IHd & IHa)];
    [repeat split; intros; discriminate|].
  split; [|split].
  - intros s v r. cbn [scan_once].
    destruct (after quote s) as [s1|] eqn:Q.
    { apply after_length in Q. destruct (scanstring s1) as [x r'| | |] eqn:E; try discriminate.
      intros [= <- <-]. apply scanstring_length in E. split; [cbn in Q; lia | constructor]. }
    destruct (after "{" s) as [s1|] eqn:B.
    { apply after_length in B. pose proof (skip_ws_length s1) as K.
      destruct (after "}" (skip_ws s1)) as [r'|] eqn:C.
      - apply after_length in C. intros [= <- <-].
        split; [cbn in B, C; lia | constructor; constructor].
      - intros H. apply IHd in H as [H1 H2]; [|constructor|constructor].
        split; [cbn in B; lia | exact H2]. }
    destruct (after "[" s) as [s1|] eqn:A.
    { apply after_length in A. pose proof (skip_ws_length s1) as K.
      destruct (after "]" (skip_ws s1)) as [r'|] eqn:C.
      - apply after_length in C. intros [= <- <-].
        split; [cbn in A, C; lia | constructor; constructor].
      - intros H. apply IHa in H as [H1 H2]; [|constructor].
        split; [cbn in A; lia | exact H2]. }
    intros H. destruct (scan_atom_spec _ _ _ H) as [H1 H2]. split; [exact H1|].
    clear Q B A. unfold scan_atom in H.
    destruct (scan_constant s) as [[v' r']|] eqn:C.
    + injection H as <- <-. unfold scan_constant in C.
      repeat match type of C with
      | match ?a with Some _ => _ | None => _ end = _ =>
          destruct a; [injection C as <- _; try constructor; apply H2; reflexivity|]
      end. discriminate.
    + unfold match_number in H.
      destruct (match after "-" s with Some s' => ("-", s') | None => (EmptyString, s) end)
        as [sg s1].
      destruct (scan_int_part s1) as [[ip r0]|]; [|discriminate].
      destruct (scan_frac r0) as [frac r1]. destruct (scan_exp r1) as [ex r2].
      destruct frac, ex; injection H as <- _; try constructor; apply H2; reflexivity.
  - intros acc s v r ND W. cbn [object_loop].
    destruct (after quote s) as [s1|] eqn:Q; [|discriminate].
    apply after_length in Q.
    destruct (scanstring s1) as [key s2| | |] eqn:E; try discriminate.
    apply scanstring_length in E. pose proof (skip_ws_length s2) as K2.
    destruct (after ":" (skip_ws s2)) as [s3|] eqn:C; [|discriminate].
    apply after_length in C. pose proof (skip_ws_length s3) as K3.
    destruct (scan_once fuel (skip_ws s3)) as [x s4| | |] eqn:V; try discriminate.
    apply IHo in V as [V1 V2]. pose proof (skip_ws_length s4) as K4.
    destruct (dict_set_keys key x acc ND) as [ND' _].
    pose proof (dict_set_wf key x acc V2 W) as W'.
    destruct (after "}" (skip_ws s4)) as [r'|] eqn:C1.
    + apply after_length in C1. intros [= <- <-].
      split; [cbn in Q, C, C1; lia | constructor; assumption].
    + destruct (after "," (skip_ws s4)) as [s5|] eqn:C2; [|discriminate].
      apply after_length in C2. pose proof (skip_ws_length s5) as K5.
      intros H. apply IHd in H as [H1 H2]; [|assumption..].
      split; [cbn in Q, C, C2; lia | exact H2].
  - intros acc s v r W. cbn [array_loop].
    destruct (scan_once fuel s) as [x s1| | |] eqn:V; try discriminate.
    apply IHo in V as [V1 V2]. pose proof (skip_ws_length s1) as K1.
    assert (W' : Forall wf (acc ++ [x])) by (apply Forall_app; split; [assumption | repeat constructor; assumption]).
    destruct (after "]" (skip_ws s1)) as [r'|] eqn:C1.
    + apply after_length in C1. intros [= <- <-].
      split; [cbn in C1; lia | constructor; assumption].
    + destruct (after "," (skip_ws s1)) as [s2|] eqn:C2; [|discriminate].
      apply after_length in C2. pose proof (skip_ws_length s2) as K2.
      intros H. apply IHa in H as [H1 H2]; [|assumption].
      split; [cbn in C2; lia | exact H2].
Qed.

Lemma enough_fuel fuel :
  (∀ s, (2 * String.length s + 1 ≤ fuel)%nat → scan_once fuel s ≠ Exhausted) ∧
  (∀ acc s, (2 * String.length s + 2 ≤ fuel)%nat → object_loop fuel acc s ≠ Exhausted) ∧
  (∀ acc s, (2 * String.length s + 2 ≤ fuel)%nat → array_loop fuel acc s ≠ Exhausted).
Proof.
  induction fuel as [|fuel (IHo & IHd & IHa)]; [repeat split; intros; lia|].
  split; [|split].
  - intros s B. cbn [scan_once].
    destruct (after quote s) as [s1|] eqn:Q.
    { pose proof (scanstring_total s1). destruct (scanstring s1); cbn; congruence. }
    destruct (after "{" s) as [s1|] eqn:O.
    { apply after_length in O. pose proof (skip_ws_length s1) as K.
      destruct (after "}" (skip_ws s1)); [discriminate|].
      apply IHd. cbn in O. lia. }
    destruct (after "[" s) as [s1|] eqn:A.
    { apply after_length in A. pose proof (skip_ws_length s1) as K.
      destruct (after "]" (skip_ws s1)); [discriminate|].
      apply IHa. cbn in A. lia. }
    apply scan_atom_never_exhausted.
  - intros acc s B. cbn [object_loop].
    destruct (after quote s) as [s1|] eqn:Q; [|discriminate].
    apply after_length in Q.
    pose proof (scanstring_total s1) as T.
    destruct (scanstring s1) as [key s2| | |] eqn:E; try discriminate; [|contradiction].
    apply scanstring_length in E. pose proof (skip_ws_length s2) as K2.
    destruct (after ":" (skip_ws s2)) as [s3|] eqn:C; [|discriminate].
    apply after_length in C. pose proof (skip_ws_length s3) as K3.
    assert (V0 : scan_once fuel (skip_ws s3) ≠ Exhausted)
      by (apply IHo; cbn in Q, C; lia).
    destruct (scan_once fuel (skip_ws s3)) as [x s4| | |] eqn:V; try discriminate;
      [|contradiction].
    apply scan_sound in V as [V1 _]. pose proof (skip_ws_length s4) as K4.
    destruct (after "}" (skip_ws s4)); [discriminate|].
    destruct (after "," (skip_ws s4)) as [s5|] eqn:C2; [|discriminate].
    apply after_length in C2. pose proof (skip_ws_length s5) as K5.
    apply IHd. cbn in Q, C, C2. lia.
  - intros acc s B. cbn [array_loop].
    assert (V0 : scan_once fuel s ≠ Exhausted) by (apply IHo; lia).
    destruct (scan_once fuel s) as [x s1| | |] eqn:V; try discriminate; [|contradiction].
    apply scan_sound in V as [V1 _]. pose proof (skip_ws_length s1) as K1.
    destruct (after "]" (skip_ws s1)); [discriminate|].
    destruct (after "," (skip_ws s1)) as [s2|] eqn:C2; [|discriminate].
    apply after_length in C2. pose proof (skip_ws_length s2) as K2.
    apply IHa. cbn in C2. lia.
Qed.

Lemma loads_never_exhausted s :
  scan_once (2 * String.length s + 2) (skip_ws s) ≠ Exhausted.
Proof. apply enough_fuel. pose proof (skip_ws_length s). lia. Qed.

Lemma loads_wf s v : loads s = Parsed v → wf v.
Proof.
  unfold loads. destruct (scan_once _ _) as [x r| | |] eqn:E; try discriminate.
  destruct (skip_ws r); [|discriminate]. intros [= <-].
  eapply (proj1 (scan_sound _)), E.
Qed.

Lemma loads_dumps v : wf v → loads (dumps v) = Parsed v.
Proof.
  intros W. unfold loads, dumps.
  pose proof (encode_head 0 v EmptyString W) as H. rewrite append_nil_r in H.
  rewrite (value_head_skip_ws _ H).
  pose proof (loads_never_exhausted (encode 0 v)) as N.
  rewrite (value_head_skip_ws _ H) in N.
  pose proof (wf_reads_back v W (2 * String.length (encode 0 v) + 2)%nat 0%nat EmptyString eq_refl) as R.
  rewrite append_nil_r in R. destruct R as [R | R]; [|contradiction].
  rewrite R. reflexivity.
Qed.

Lemma object_loop_object fuel : ∀ acc s v r,
  object_loop fuel acc s = Scanned v r → ∃ d, v = JObj d.
Proof.
  induction fuel as [|fuel IH]; intros acc s v r H; [discriminate|].
  cbn [object_loop] in H.
  destruct (after quote s) as [s1|]; [|discriminate].
  destruct (scanstring s1) as [key s2| | |]; try discriminate.
  destruct (after ":" (skip_ws s2)) as [s3|]; [|discriminate].
  destruct (scan_once fuel (skip_ws s3)) as [x s4| | |]; try discriminate.
  destruct (after "}" (skip_ws s4)) as [r'|].
  - inversion H; subst; eauto.
  - destruct (after "," (skip_ws s4)) as [s5|]; [|discriminate]. eauto.
Qed.

Lemma scan_once_brace fuel s v r :
  scan_once fuel (String "{" s) = Scanned v r → ∃ d, v = JObj d.
Proof.
  destruct fuel as [|fuel]; [discriminate|].
  cbn [scan_once]. change (after quote (String "{" s)) with (@None string).
  change (after "{" (String "{" s)) with (Some s). cbv beta iota.
  destruct (after "}" (skip_ws s)) as [r'|].
  - intros H; inversion H; subst; eauto.
  - apply object_loop_object.
Qed.

Lemma loads_brace s v :
  loads (String "{" s) = Parsed v → ∃ d, v = JObj d.
Proof.
  unfold loads. change (skip_ws (String "{" s)) with (String "{" s).
  destruct (scan_once _ _) as [x r| | |] eqn:E; try discriminate.
  destruct (skip_ws r); [|discriminate]. intros [= <-].
  eapply scan_once_brace, E.
Qed.

Lemma dict_get_set_eq k v d : dict_get k (dict_set k v d) = Some v.
Proof.
  induction d as [|[k' v'] d IH]; cbn.
  - rewrite String.eqb_refl. reflexivity.
  - destruct (String.eqb k k') eqn:E; cbn; rewrite ?String.eqb_refl, ?E; auto.
Qed.

Lemma dict_get_set_ne k k' v d : k ≠ k' → dict_get k' (dict_set k v d) = dict_get k' d.
Proof.
  intros N. induction d as [|[k0 v0] d IH]; cbn.
  - destruct (String.eqb_spec k' k); [congruence | reflexivity].
  - destruct (String.eqb_spec k k0) as [->|]; cbn.
    + destruct (String.eqb_spec k' k0); [congruence | reflexivity].
    + rewrite IH. reflexivity.
Qed.


(** ** Memory: saving and loading *)

Lemma save_memory_cases (s : state) :
  _save_memory s =
  match read_bank (memory_file s) with
  | Ret (JObj bank) =>
      (set_memory_file (Content (dumps (JObj (dict_set (user_id s) (record_of s) bank)))) s,
       Ret tt)
  | Ret _ => (s, Raise TypeError)
  | Raise e => (s, Raise e)
  | OutOfModel => (s, OutOfModel)
  end.
Proof.
  unfold _save_memory. unfold_M.
  destruct (read_bank (memory_file s)) as [[]| |]; reflexivity.
Qed.

Lemma save_memory_frame (s : state) :
  let s' := fst (_save_memory s) in
  user_id s' = user_id s ∧ pantry s' = pantry s ∧
  liked_recipes s' = liked_recipes s ∧ disliked_recipes s' = disliked_recipes s ∧
  calendar_file s' = calendar_file s ∧ today s' = today s.
Proof.
  rewrite save_memory_cases.
  destruct (read_bank (memory_file s)) as [[]| |]; cbn; auto 10.
Qed.

Lemma wf_json_of_set X : wf (json_of_set X).
Proof.
  unfold json_of_set. constructor. induction (elements X); constructor; auto. constructor.
Qed.

Lemma wf_record_of s : wf (record_of s).
Proof.
  unfold record_of. constructor.
  - cbn. repeat (apply NoDup_cons; split; [rewrite ?elem_of_cons, ?elem_of_nil; intuition discriminate|]).
    apply NoDup_nil_2.
  - repeat (apply Forall_cons; split; [apply wf_json_of_set|]). apply Forall_nil_2.
Qed.

Lemma wf_dict_set k v d : wf v → wf (JObj d) → wf (JObj (dict_set k v d)).
Proof.
  intros Wv W. inversion W as [ | | | | | | ? ND F]; subst. constructor.
  - apply dict_set_keys, ND.
  - apply dict_set_wf; assumption.
Qed.

Lemma read_bank_wf f v : read_bank f = Ret v → wf v.
Proof.
  destruct f as [|text]; cbn.
  - intros [= <-]. constructor; constructor.
  - destruct (loads text) eqn:L; try discriminate; intros [= <-].
    + eapply loads_wf, L.
    + constructor; constructor.
Qed.

Lemma strings_of_JStr l : strings_of (JStr <$> l) = l.
Proof.
  unfold strings_of. induction l as [|x l IH]; cbn; [reflexivity|]. f_equal. exact IH.
Qed.

Lemma py_set_json_of_set X : py_set (json_of_set X) = Ret X.
Proof.
  unfold json_of_set, py_set.
  assert (existsb unhashable (JStr <$> elements X) = false) as ->
    by (induction (elements X); cbn; auto).
  assert (forallb is_str (JStr <$> elements X) = true) as ->
    by (induction (elements X); cbn; auto).
  rewrite strings_of_JStr. f_equal. apply list_to_set_elements_L.
Qed.

Lemma save_keeps_others (s : state) (other : string) (rec : json) :
  other ≠ user_id s →
  stored_record other (memory_file s) = Some rec →
  stored_record other (memory_file (fst (_save_memory s))) = Some rec.
Proof.
  intros N H. unfold stored_record in H.
  destruct (memory_file s) as [|text] eqn:F; [discriminate|].
  destruct (loads text) as [[ | | | | | |bank]| |] eqn:L; try discriminate.
  assert (R : read_bank (memory_file s) = Ret (JObj bank)) by (rewrite F; cbn; rewrite L; reflexivity).
  rewrite save_memory_cases, R. cbn [fst memory_file set_memory_file stored_record].
  rewrite loads_dumps
    by (apply wf_dict_set; [apply wf_record_of | eapply loads_wf, L]).
  rewrite dict_get_set_ne by congruence. exact H.
Qed.

Lemma discard_each_frame items : ∀ s,
  user_id (fst (discard_each items s)) = user_id s ∧
  memory_file (fst (discard_each items s)) = memory_file s.
Proof.
  induction items as [|item items IH]; intros s; [auto|].
  cbn [discard_each]. unfold_M. destruct (strip_lower item); cbn [fst]; auto.
  destruct (IH (set_pantry (pantry s ∖ {[a]}) s)) as [H1 H2].
  destruct (discard_each items _) as [s' [| |]]; cbn [fst] in *; auto.
Qed.

Lemma mutation_file (m : mutation) (s : state) :
  memory_file (fst (run_mutation m s)) = memory_file s ∨
  ∃ s', user_id s' = user_id s ∧ memory_file s' = memory_file s ∧
        memory_file (fst (run_mutation m s)) = memory_file (fst (_save_memory s')).
Proof.
  destruct m as [ingredients | ingredients | recipe_name feedback]; cbn [run_mutation].
  - unfold add_to_pantry. unfold_M.
    destruct (res_bind (py_iter ingredients) (res_map strip_lower)) as [names| |];
      cbn [fst]; auto.
    right. exists (set_pantry (pantry s ∪ list_to_set names) s).
    split; [reflexivity|]. split; [reflexivity|].
    destruct (_save_memory _) as [s' [| |]]; reflexivity.
  - unfold remove_from_pantry. unfold_M.
    destruct (py_iter ingredients) as [items| |]; cbn [fst]; auto.
    destruct (discard_each_frame items s) as [H1 H2].
    destruct (discard_each items s) as [s1 [| |]]; cbn [fst] in *; auto.
    right. exists s1. split; [exact H1|]. split; [exact H2|].
    destruct (_save_memory s1) as [s' [| |]]; reflexivity.
  - unfold add_feedback. unfold_M.
    destruct (strip_lower recipe_name) as [name| |]; cbn [fst]; auto.
    destruct (py_lower feedback) as [fb| |]; cbn [fst]; auto.
    right.
    destruct (String.eqb fb "like"); [|destruct (String.eqb fb "dislike")].
    + exists (set_disliked (disliked_recipes s ∖ {[name]})
                (set_liked (liked_recipes s ∪ {[name]}) s)).
      split; [reflexivity|]. split; [reflexivity|].
      cbn -[_save_memory]. destruct (_save_memory _) as [s' [| |]]; reflexivity.
    + exists (set_liked (liked_recipes s ∖ {[name]})
                (set_disliked (disliked_recipes s ∪ {[name]}) s)).
      split; [reflexivity|]. split; [reflexivity|].
      cbn -[_save_memory]. destruct (_save_memory _) as [s' [| |]]; reflexivity.
    + exists s. split; [reflexivity|]. split; [reflexivity|].
      destruct (_save_memory s) as [s' [| |]]; reflexivity.
Qed.

Lemma add_feedback_sets (recipe_name feedback : json) (s : state) :
  let s' := fst (add_feedback recipe_name feedback s) in
  match strip_lower recipe_name, py_lower feedback with
  | Ret name, Ret fb =>
      if String.eqb fb "like" then
        liked_recipes s' = liked_recipes s ∪ {[name]} ∧
        disliked_recipes s' = disliked_recipes s ∖ {[name]}
      else if String.eqb fb "dislike" then
        liked_recipes s' = liked_recipes s ∖ {[name]} ∧
        disliked_recipes s' = disliked_recipes s ∪ {[name]}
      else liked_recipes s' = liked_recipes s ∧ disliked_recipes s' = disliked_recipes s
  | _, _ => liked_recipes s' = liked_recipes s ∧ disliked_recipes s' = disliked_recipes s
  end.
Proof.
  unfold add_feedback. unfold_M.
  destruct (strip_lower recipe_name) as [name| |]; [|cbn; auto..].
  destruct (py_lower feedback) as [fb| |]; [|cbn; auto..].
  destruct (String.eqb fb "like"); [|destruct (String.eqb fb "dislike")]; cbn -[_save_memory].
  all: match goal with |- context [_save_memory ?t] =>
         pose proof (save_memory_frame t) as F; cbn zeta in F;
         destruct (_save_memory t) as [s' [| |]]; cbn in *; intuition congruence end.
Qed.

Lemma add_to_pantry_one (x : string) (s : state) :
  pantry (fst (add_to_pantry (JArr [JStr x]) s)) = pantry s ∪ {[normalize x]}.
Proof.
  unfold add_to_pantry. unfold_M. cbn -[_save_memory].
  match goal with |- context [_save_memory ?t] =>
    pose proof (save_memory_frame t) as F; cbn zeta in F;
    destruct (_save_memory t) as [s' [| |]]; cbn in *; destruct F as (_ & -> & _) end.
  all: set_solver.
Qed.

Lemma call_unknown_tool ask_model rest tool_code tool_params s :
  known_tool tool_code = false →
  _call_tool ask_model rest tool_code tool_params s =
    (s, rest, Ret (StatusMessage "error" (UnknownTool tool_code) None)).
Proof.
  unfold known_tool, tool_names. cbn [existsb]. intros H.
  repeat (apply orb_false_elim in H; destruct H as [? H]).
  unfold _call_tool.
  repeat match goal with E : str_eq _ _ = false |- _ => rewrite E; clear E end.
  reflexivity.
Qed.

Lemma omits_getitem k tool_params :
  omits k tool_params = true →
  getitem tool_params k = Raise (KeyError k) ∨ getitem tool_params k = Raise TypeError.
Proof.
  destruct tool_params; cbn; auto. unfold dict_has.
  destruct (dict_get k members); [discriminate|auto].
Qed.

Lemma str_eq_JStr (a b : string) : str_eq (JStr a) b = String.eqb a b.
Proof. reflexivity. Qed.

Lemma call_missing_parameter ask_model rest tool k tool_params s :
  In k (required tool) → omits k tool_params = true →
  ∃ e, _call_tool ask_model rest (JStr tool) tool_params s = (s, rest, Raise e).
Proof.
  unfold required, _call_tool. rewrite !str_eq_JStr.
  destruct (String.eqb_spec tool "add_to_pantry") as [->|].
  { intros [<-|[]] O. cbn. unfold local_tool, bind, lift.
    destruct (omits_getitem _ _ O) as [-> | ->]; eauto. }
  destruct (String.eqb_spec tool "remove_from_pantry") as [->|].
  { intros [<-|[]] O. cbn. unfold local_tool, bind, lift.
    destruct (omits_getitem _ _ O) as [-> | ->]; eauto. }
  destruct (String.eqb_spec tool "add_feedback") as [->|].
  { intros [<-|[<-|[]]] O; cbn; unfold local_tool, bind, lift.
    - destruct (omits_getitem _ _ O) as [-> | ->]; eauto.
    - destruct (getitem tool_params "recipe_name") as [x| |] eqn:G.
      + destruct (omits_getitem _ _ O) as [-> | ->]; eauto.
      + eauto.
      + destruct tool_params; try discriminate. cbn in G.
        destruct (dict_get "recipe_name" members); discriminate. }
  destruct (String.eqb_spec tool "create_calendar_file") as [->|].
  { intros [<-|[]] O. cbn. unfold local_tool, bind, lift.
    destruct (omits_getitem _ _ O) as [-> | ->]; eauto. }
  intros [].
Qed.

Lemma at_hour_meal d t :
  at_hour d (meal_hour t) = {| dt_date := d; dt_seconds := meal_hour t * 3600 |}.
Proof.
  unfold at_hour, meal_hour.
  destruct (String.eqb t "breakfast"); [|destruct (String.eqb t "lunch")];
    f_equal; try reflexivity; rewrite Z.div_small by lia; lia.
Qed.


(** ** The claims *)

(** *** The response interpreter *)

Example classify_tool_call :
  classify (dq "{'tool_code':'view_pantry','tool_params':{}}") =
    Ret (ToolCall (JStr "view_pantry") (JObj [])).
Proof. vm_compute. reflexivity. Qed.

Example classify_payload_in_prose :
  classify (dq "Here's your recipe: {'title':'X','servings':2}") =
    Ret (StructuredPayload (JObj [("title", JStr "X"); ("servings", JInt 2)])).
Proof. vm_compute. reflexivity. Qed.

Example classify_conversation :
  classify "Sure, I can help with that!" =
    Ret (ConversationalText "Sure, I can help with that!").
Proof. vm_compute. reflexivity. Qed.

Example classify_two_objects :
  classify (dq "{'a':1} and {'b':2}") =
    Ret (ConversationalText (dq "{'a':1} and {'b':2}")).
Proof. vm_compute. reflexivity. Qed.

Lemma ask_never_raises (script : list reply) (p : prompt) (s : state) (e : exn) :
  snd (ask script p s) ≠ Raise e.
Proof.
  destruct script as [|[raw_text|e'] rest]; cbn [ask snd]; try discriminate.
  destruct (classify raw_text) as [[tool_code tool_params|obj|text]| |];
    cbn [snd]; try discriminate.
  destruct (_call_tool (ask rest) rest tool_code tool_params s) as [[s' rest'] [o|e'|]];
    discriminate.
Qed.

(** C1: every raw model text is classified as exactly one of the three
    outcomes, and nothing is raised.  When the span from the first opening
    brace to the last closing brace exists and decodes, the decoded value
    is an object; with both ["tool_code"] and ["tool_params"] in it the
    outcome is the tool call on those two values, otherwise the object
    itself.  When there is no such span, or it does not decode, the outcome
    is the cleaned text.  Whatever the reply, [ask] answers with a result
    and raises nothing.  (A span with an escape above U+00FF is outside
    the alphabet of the model.) *)
Theorem interpreter_classifies (raw_text : string) :
  (∀ e, classify raw_text ≠ Raise e) ∧
  (∀ rest p s e, snd (ask (Reply raw_text :: rest) p s) ≠ Raise e) ∧
  match brace_span raw_text with
  | None => classify raw_text = Ret (ConversationalText (cleaned_text raw_text))
  | Some span =>
      match loads span with
      | Parsed obj =>
          ∃ d, obj = JObj d ∧
          classify raw_text =
            Ret (match tool_fields d with
                 | Some (tool_code, tool_params) => ToolCall tool_code tool_params
                 | None => StructuredPayload obj
                 end)
      | JSONDecodeError =>
          classify raw_text = Ret (ConversationalText (cleaned_text raw_text))
      | Unsupported => classify raw_text = OutOfModel
      end
  end.
Proof.
  split; [|split; [intros rest p s e; apply ask_never_raises|]];
    unfold classify; rewrite search_brace_span.
  - destruct (brace_span raw_text) as [span|] eqn:B; [|discriminate].
    destruct (brace_span_starts _ _ B) as [t ->].
    destruct (loads (String "{" t)) as [obj| |] eqn:L; [|discriminate..].
    destruct (loads_brace _ _ L) as [d ->]. cbn [py_in res_bind]. unfold dict_has.
    destruct (dict_get "tool_code" d) eqn:C; cbn [res_bind andb]; [|discriminate].
    destruct (dict_get "tool_params" d) eqn:P; cbn [res_bind andb]; [|discriminate].
    unfold getitem. rewrite C, P. discriminate.
  - destruct (brace_span raw_text) as [span|] eqn:B; [|reflexivity].
    destruct (brace_span_starts _ _ B) as [t ->].
    destruct (loads (String "{" t)) as [obj| |] eqn:L; [|reflexivity..].
    destruct (loads_brace _ _ L) as [d ->]. exists d. split; [reflexivity|].
    unfold tool_fields, py_in, getitem, dict_has. cbn [res_bind].
    destruct (dict_get "tool_code" d); cbn [res_bind andb]; [|reflexivity].
    destruct (dict_get "tool_params" d); reflexivity.
Qed.

(** *** Calendar export *)

Lemma date_add_in_range (d k : Z) :
  Z.abs k ≤ 999999999 → 1 ≤ d + k ≤ MAXORDINAL → date_add d k = Ret (d + k).
Proof.
  intros Hk [H1 H2]. unfold date_add.
  destruct (Z.leb_spec (Z.abs k) 999999999); [|lia].
  destruct (Z.leb_spec 1 (d + k)); [|lia].
  destruct (Z.leb_spec (d + k) MAXORDINAL); [|lia]. reflexivity.
Qed.

(** The entry of the specification's example, on 2024-04-24: without a
    ["day_str"] the default text is today's date, which parses, so the
    event is today and ["day"] is not read. *)
Example day_ignored_without_day_str :
  event_of_meal 739000
    (JObj [("day", JInt 2); ("meal_type", JStr "Lunch"); ("meal_name", JStr "Soup")]) =
    Ret {| ev_meal_type := JStr "Lunch"; ev_meal_name := JStr "Soup";
           ev_begin := {| dt_date := 739000; dt_seconds := 13 * 3600 |};
           ev_duration := 3600 |}.
Proof. vm_compute. reflexivity. Qed.

(** C2, as stated, fails: the time of day is not decided by the meal type
    as it is written.  The entry with meal type ["breakfast"] is not
    ["Breakfast"], so the statement puts it at 19:00; the code compares the
    lower-cased text and puts it at 08:00. *)
Lemma calendar_counterexample :
  ¬ (∀ (now : Z) (meal : list (string * json)) (meal_type : string) (ev : event),
       dict_get "meal_type" meal = Some (JStr meal_type) →
       event_of_meal now (JObj meal) = Ret ev →
       dt_seconds (ev_begin ev) = claimed_hour meal_type * 3600).
Proof.
  intros H.
  specialize (H 739000 [("day", JInt 1); ("meal_type", JStr "breakfast"); ("meal_name", JStr "Toast")]
                "breakfast" _ eq_refl eq_refl).
  vm_compute in H. discriminate H.
Qed.

(** C2, amended: for a meal entry with a text as meal type and a meal
    name, the event starts at 08:00 when the lower-cased meal type is
    ["breakfast"], at 13:00 when it is ["lunch"], at 19:00 otherwise, and
    lasts one hour.  A ["day_str"] that parses as a date is the date of the
    event; with a ["day_str"] that does not parse, or is not a text, the
    date is today plus [int(day) - 1] days, [day] defaulting to 1. *)
Theorem calendar_event (now : Z) (meal : list (string * json))
    (meal_type : string) (meal_name : json) :
  dict_get "meal_type" meal = Some (JStr meal_type) →
  dict_get "meal_name" meal = Some meal_name →
  let event_on (d : Z) :=
    {| ev_meal_type := JStr meal_type; ev_meal_name := meal_name;
       ev_begin := {| dt_date := d; dt_seconds := meal_hour (lower meal_type) * 3600 |};
       ev_duration := 3600 |} in
  (∀ text d, dict_get "day_str" meal = Some (JStr text) → strptime_ymd text = Some d →
     event_of_meal now (JObj meal) = Ret (event_on d)) ∧
  (∀ v day, dict_get "day_str" meal = Some v →
     match v with JStr text => strptime_ymd text = None | _ => True end →
     py_int (default (JInt 1) (dict_get "day" meal)) = Ret day →
     Z.abs (day - 1) ≤ 999999999 → 1 ≤ now + (day - 1) ≤ MAXORDINAL →
     event_of_meal now (JObj meal) = Ret (event_on (now + (day - 1)))) ∧
  (∀ ev, event_of_meal now (JObj meal) = Ret ev →
     ev_duration ev = 3600 ∧
     dt_seconds (ev_begin ev) = meal_hour (lower meal_type) * 3600) ∧
  meal_hour "breakfast" = 8 ∧ meal_hour "lunch" = 13 ∧
  (∀ t, t ≠ "breakfast" → t ≠ "lunch" → meal_hour t = 19).
Proof.
  intros Ht Hn event_on.
  assert (E : event_of_meal now (JObj meal) =
              res_bind (meal_date now (JObj meal)) (λ d, Ret (event_on d))).
  { unfold event_of_meal, getitem. rewrite Ht, Hn. cbn [res_bind py_lower].
    destruct (meal_date now (JObj meal)); cbn [res_bind]; [|reflexivity..].
    rewrite at_hour_meal. reflexivity. }
  split; [|split; [|split]].
  - intros text d Hs Hp. rewrite E. unfold meal_date, get_default.
    rewrite Hs. cbn [res_bind]. rewrite Hp. reflexivity.
  - intros v day Hs Hv Hd Hk Hr. pose proof (date_add_in_range now (day - 1) Hk Hr) as Ha.
    rewrite E. unfold meal_date, get_default.
    rewrite Hs. cbn [res_bind].
    assert (F : match v with
                | JStr text => match strptime_ymd text with
                               | Some d => Ret d | None => Raise ValueError end
                | _ => Raise TypeError
                end = Raise ValueError ∨
                match v with
                | JStr text => match strptime_ymd text with
                               | Some d => Ret d | None => Raise ValueError end
                | _ => @Raise Z TypeError
                end = Raise TypeError).
    { destruct v; auto. rewrite Hv. auto. }
    destruct (dict_get "day" meal) as [x|];
      [change (py_int x = Ret day) in Hd | change (py_int (JInt 1) = Ret day) in Hd];
      destruct F as [-> | ->]; cbn [res_bind]; rewrite Hd; cbn [res_bind];
      rewrite Ha; reflexivity.
  - intros ev. rewrite E. destruct (meal_date now (JObj meal)); cbn [res_bind]; try discriminate.
    intros [= <-]. split; reflexivity.
  - split; [reflexivity|]. split; [reflexivity|].
    intros t H1 H2. unfold meal_hour.
    destruct (String.eqb_spec t "breakfast"); [contradiction|].
    destruct (String.eqb_spec t "lunch"); [contradiction|]. reflexivity.
Qed.

Lemma calendar_event_witness :
  event_of_meal 739000
    (JObj [("day", JInt 2); ("meal_type", JStr "Lunch"); ("meal_name", JStr "Soup");
           ("day_str", JStr "tomorrow")]) =
    Ret {| ev_meal_type := JStr "Lunch"; ev_meal_name := JStr "Soup";
           ev_begin := {| dt_date := 739001; dt_seconds := 13 * 3600 |};
           ev_duration := 3600 |}.
Proof.
  destruct (calendar_event 739000
              [("day", JInt 2); ("meal_type", JStr "Lunch"); ("meal_name", JStr "Soup");
               ("day_str", JStr "tomorrow")] "Lunch" (JStr "Soup") eq_refl eq_refl)
    as (_ & H & _).
  apply (H (JStr "tomorrow") 2); [reflexivity | reflexivity | reflexivity | simpl; lia |].
  unfold MAXORDINAL. lia.
Defined.

(** *** Feedback *)

(** C3: from a state whose liked and disliked sets are disjoint, the two
    sets are disjoint after any sequence of [add_feedback] calls; and a
    call with ["like"] leaves the name liked and not disliked, a call with
    ["dislike"] leaves it disliked and not liked. *)
Theorem feedback_disjoint :
  (∀ (calls : list (json * json)) (s : state),
     liked_recipes s ∩ disliked_recipes s = ∅ →
     liked_recipes (run_feedback calls s) ∩ disliked_recipes (run_feedback calls s) = ∅) ∧
  (∀ (recipe_name feedback : json) (name : string) (s : state),
     strip_lower recipe_name = Ret name →
     let s' := fst (add_feedback recipe_name feedback s) in
     (py_lower feedback = Ret "like" → name ∈ liked_recipes s' ∧ name ∉ disliked_recipes s') ∧
     (py_lower feedback = Ret "dislike" → name ∈ disliked_recipes s' ∧ name ∉ liked_recipes s')).
Proof.
  split.
  - induction calls as [|[recipe_name feedback] calls IH]; intros s H; [exact H|].
    cbn [run_feedback]. apply IH.
    pose proof (add_feedback_sets recipe_name feedback s) as F. cbn zeta in F.
    destruct (strip_lower recipe_name) as [name| |], (py_lower feedback) as [fb| |];
      try (destruct F as [-> ->]; exact H).
    destruct (String.eqb fb "like"); [|destruct (String.eqb fb "dislike")];
      destruct F as [-> ->]; set_solver.
  - intros recipe_name feedback name s Hn s'.
    pose proof (add_feedback_sets recipe_name feedback s) as F. cbn zeta in F.
    rewrite Hn in F. fold s' in F.
    split; intros Hf; rewrite Hf in F; cbn in F; destruct F as [-> ->]; set_solver.
Qed.

Lemma feedback_disjoint_witness :
  let s := run_feedback [(JStr "Pad Thai", JStr "like"); (JStr " pad thai ", JStr "Dislike")]
             (new_agent "cli_user" Missing) in
  liked_recipes s ∩ disliked_recipes s = ∅.
Proof.
  apply (proj1 feedback_disjoint). reflexivity.
Defined.

(** C10: with a feedback text whose lower-cased form is neither ["like"]
    nor ["dislike"], [add_feedback] leaves the liked and the disliked set as
    they are and still writes the memory file, and the tool call answers
    with status ["success"]. *)
Theorem neutral_feedback (recipe_name feedback : string) (params bank : list (string * json))
    (ask_model : prompt → state → answer) (rest : list reply) (s : state) :
  lower feedback ≠ "like" → lower feedback ≠ "dislike" →
  read_bank (memory_file s) = Ret (JObj bank) →
  dict_get "recipe_name" params = Some (JStr recipe_name) →
  dict_get "feedback" params = Some (JStr feedback) →
  let s' := set_memory_file
              (Content (dumps (JObj (dict_set (user_id s) (record_of s) bank)))) s in
  add_feedback (JStr recipe_name) (JStr feedback) s = (s', Ret tt) ∧
  liked_recipes s' = liked_recipes s ∧ disliked_recipes s' = disliked_recipes s ∧
  _call_tool ask_model rest (JStr "add_feedback") (JObj params) s =
    (s', rest, Ret (StatusMessage "success" (FeedbackReceived (JStr recipe_name)) None)) ∧
  is_error (StatusMessage "success" (FeedbackReceived (JStr recipe_name)) None) = false.
Proof.
  intros Hl Hd Hb Hr Hf s'.
  assert (A : add_feedback (JStr recipe_name) (JStr feedback) s = (s', Ret tt)).
  { unfold add_feedback. unfold_M. cbn [strip_lower py_lower].
    destruct (String.eqb_spec (lower feedback) "like"); [contradiction|].
    destruct (String.eqb_spec (lower feedback) "dislike"); [contradiction|].
    rewrite save_memory_cases, Hb. reflexivity. }
  split; [exact A|]. split; [reflexivity|]. split; [reflexivity|]. split; [|reflexivity].
  unfold _call_tool. cbn [str_eq].
  change (String.eqb "add_feedback" "add_to_pantry") with false.
  change (String.eqb "add_feedback" "remove_from_pantry") with false.
  change (String.eqb "add_feedback" "add_feedback") with true.
  cbv iota. unfold local_tool, bind, lift, getitem. rewrite Hr, Hf, A. reflexivity.
Qed.

Lemma neutral_feedback_witness :
  let s := new_agent "cli_user" Missing in
  snd (add_feedback (JStr "Pad Thai") (JStr "Meh") s) = Ret tt ∧
  memory_file (fst (add_feedback (JStr "Pad Thai") (JStr "Meh") s)) =
    Content (dumps (JObj [("cli_user", record_of s)])).
Proof.
  intros s.
  destruct (neutral_feedback "Pad Thai" "Meh"
              [("recipe_name", JStr "Pad Thai"); ("feedback", JStr "Meh")] []
              (ask []) [] s) as (A & _); try reflexivity; try discriminate.
  rewrite A. split; reflexivity.
Defined.

(** *** Memory *)

(** C4: a mutation by one user that persists leaves the record stored for
    every other user in the shared file as it was. *)
Theorem other_users_untouched (m : mutation) (s : state) (other : string) (rec : json) :
  other ≠ user_id s →
  stored_record other (memory_file s) = Some rec →
  stored_record other (memory_file (fst (run_mutation m s))) = Some rec.
Proof.
  intros N H. destruct (mutation_file m s) as [-> | (s' & U & F & ->)]; [exact H|].
  apply save_keeps_others; [rewrite U | rewrite F]; assumption.
Qed.

Lemma other_users_untouched_witness :
  let disk := Content (dq "{'bob': {'pantry': ['salt'], 'liked_recipes': [], 'disliked_recipes': ['stew']}}") in
  stored_record "bob"
    (memory_file (fst (run_mutation (AddToPantry (JArr [JStr " Rice "])) (new_agent "alice" disk)))) =
  Some (JObj [("pantry", JArr [JStr "salt"]); ("liked_recipes", JArr []);
              ("disliked_recipes", JArr [JStr "stew"])]).
Proof.
  intros disk. apply other_users_untouched; [discriminate | vm_compute; reflexivity].
Defined.

(** C5: a record saved with [_save_memory] and loaded again with
    [_load_memory] by a new instance of the same user gives the same
    pantry, liked set and disliked set.  The save succeeds whenever the
    file is missing, does not decode, or holds an object. *)
Theorem save_then_load (s : state) (bank : list (string * json)) :
  read_bank (memory_file s) = Ret (JObj bank) →
  let saved := _save_memory s in
  let loaded := _load_memory (reopened (user_id s) (fst saved)) in
  snd saved = Ret tt ∧ snd loaded = Ret tt ∧
  pantry (fst loaded) = pantry s ∧
  liked_recipes (fst loaded) = liked_recipes s ∧
  disliked_recipes (fst loaded) = disliked_recipes s.
Proof.
  intros R saved loaded. subst loaded saved.
  rewrite save_memory_cases, R. cbn [fst snd].
  unfold _load_memory. unfold_M. cbn [memory_file reopened set_memory_file user_id].
  rewrite loads_dumps
    by (apply wf_dict_set; [apply wf_record_of | eapply read_bank_wf, R]).
  cbn [get_default]. rewrite dict_get_set_eq. cbn [res_bind record_of get_default dict_get].
  cbn [String.eqb Ascii.eqb Bool.eqb]. cbv iota. cbn [res_bind].
  rewrite !py_set_json_of_set. cbn. auto.
Qed.

Lemma save_then_load_witness :
  let s := set_pantry {["rice"; "egg"]} (set_liked {["pad thai"]} (new_agent "cli_user" Missing)) in
  let loaded := fst (_load_memory (reopened "cli_user" (fst (_save_memory s)))) in
  pantry loaded = {["rice"; "egg"]} ∧ liked_recipes loaded = {["pad thai"]} ∧
  disliked_recipes loaded = ∅.
Proof.
  intros s loaded.
  destruct (save_then_load s [] eq_refl) as (_ & _ & P & L & D).
  split; [exact P | split; [exact L | exact D]].
Defined.

(** C6, as stated, fails: a memory file that decodes to something other
    than an object makes the construction raise.  The file holding an empty
    array decodes to a list, [full_memory_bank.get] raises
    [AttributeError], and only [JSONDecodeError] is caught. *)
Lemma load_counterexample :
  ¬ (∀ (text : string) (e : exn),
       snd (init (Some "key") "cli_user" (Content text) 739000) ≠ Raise e).
Proof.
  intros H. apply (H "[]" AttributeError). vm_compute. reflexivity.
Qed.

(** C6, amended: with the credential present, a memory file that is
    missing or does not decode as JSON makes the construction end without
    an exception, with an empty pantry and empty liked and disliked sets;
    so does a file that holds an object with no entry for the user. *)
Theorem load_missing_or_corrupt (api_key uid : string) (disk : file) (now : Z) :
  api_key ≠ EmptyString →
  disk = Missing ∨
  (∃ text, disk = Content text ∧
     (loads text = JSONDecodeError ∨
      ∃ bank, loads text = Parsed (JObj bank) ∧ dict_get uid bank = None)) →
  init (Some api_key) uid disk now =
    ({| user_id := uid; pantry := ∅; liked_recipes := ∅; disliked_recipes := ∅;
        memory_file := disk; calendar_file := None; today := now |}, Ret tt).
Proof.
  intros K H. unfold init. destruct api_key; [contradiction|].
  unfold _load_memory. unfold_M. cbn [memory_file].
  destruct H as [-> | (text & -> & [L | (bank & L & G)])]; [reflexivity| |];
    rewrite L; [reflexivity|].
  cbn [get_default user_id]. rewrite G. reflexivity.
Qed.

Lemma load_missing_or_corrupt_witness :
  init (Some "key") "cli_user" (Content "{oops") 739000 =
    ({| user_id := "cli_user"; pantry := ∅; liked_recipes := ∅; disliked_recipes := ∅;
        memory_file := Content "{oops"; calendar_file := None; today := 739000 |}, Ret tt).
Proof.
  apply load_missing_or_corrupt; [discriminate|].
  right. exists "{oops". split; [reflexivity | left; vm_compute; reflexivity].
Defined.

(** *** Dispatch *)

(** C7: a tool call on a name outside the fixed set makes [_call_tool]
    answer with an error result; a tool call on a known tool without one of
    its required parameters makes [_call_tool] raise, and [ask] turns that
    into an error result.  Either way the request answers with an
    error-kind result, raises nothing, and leaves the state as it was. *)
Theorem tool_errors (raw_text : string) (tool_code tool_params : json)
    (rest : list reply) (p : prompt) (s : state) :
  classify raw_text = Ret (ToolCall tool_code tool_params) →
  (known_tool tool_code = false →
     let o := StatusMessage "error" (UnknownTool tool_code) None in
     _call_tool (ask rest) rest tool_code tool_params s = (s, rest, Ret o) ∧
     ask (Reply raw_text :: rest) p s = (s, rest, Ret o) ∧ is_error o = true) ∧
  (∀ tool k, tool_code = JStr tool → In k (required tool) → omits k tool_params = true →
     ∃ e, let o := Failure e (Some raw_text) in
       _call_tool (ask rest) rest tool_code tool_params s = (s, rest, Raise e) ∧
       ask (Reply raw_text :: rest) p s = (s, rest, Ret o) ∧ is_error o = true).
Proof.
  intros C. cbn [ask]. rewrite C. split.
  - intros U. rewrite (call_unknown_tool _ _ _ _ _ U). repeat split.
  - intros tool k -> R O.
    destruct (call_missing_parameter (ask rest) rest tool k tool_params s R O) as [e E].
    exists e. rewrite E. repeat split.
Qed.

Lemma tool_errors_witness :
  ask [Reply (dq "{'tool_code':'bake_cake','tool_params':{}}")] (UserPrompt "bake a cake")
      (new_agent "cli_user" Missing) =
    (new_agent "cli_user" Missing, [],
     Ret (StatusMessage "error" (UnknownTool (JStr "bake_cake")) None)).
Proof.
  destruct (tool_errors (dq "{'tool_code':'bake_cake','tool_params':{}}")
              (JStr "bake_cake") (JObj []) [] (UserPrompt "bake a cake")
              (new_agent "cli_user" Missing)) as [U _]; [vm_compute; reflexivity|].
  destruct (U eq_refl) as (_ & A & _). exact A.
Defined.

Example missing_parameter :
  ask [Reply (dq "{'tool_code':'add_to_pantry','tool_params':{}}")] (UserPrompt "add rice")
      (new_agent "cli_user" Missing) =
    (new_agent "cli_user" Missing, [],
     Ret (Failure (KeyError "ingredients")
            (Some (dq "{'tool_code':'add_to_pantry','tool_params':{}}")))).
Proof. vm_compute. reflexivity. Qed.

(** *** Pantry *)

(** C8: adding an ingredient and then adding it again, in any casing and
    with any white space around, leaves the pantry as after the first add:
    the pantry before plus the trimmed lower-case form.  In a pantry of
    normal forms that form is the only entry for the ingredient. *)
Theorem add_to_pantry_idempotent (s : state) (x y : string) :
  normalize x = normalize y →
  let s1 := fst (add_to_pantry (JArr [JStr x]) s) in
  let s2 := fst (add_to_pantry (JArr [JStr y]) s1) in
  pantry s2 = pantry s ∪ {[normalize x]} ∧
  pantry s2 = pantry s1 ∧
  (normal_pantry s →
     normal_pantry s2 ∧
     filter (λ e, normalize e = normalize x) (pantry s2) = {[normalize x]}).
Proof.
  intros E s1 s2.
  assert (P1 : pantry s1 = pantry s ∪ {[normalize x]}) by apply add_to_pantry_one.
  assert (P2 : pantry s2 = pantry s1 ∪ {[normalize y]}) by apply add_to_pantry_one.
  rewrite <- E in P2. rewrite P2, P1.
  split; [set_solver|]. split; [set_solver|].
  intros N. split.
  - intros e He. unfold normal_pantry in N.
    assert (e ∈ pantry s ∨ e = normalize x) as [H | ->] by set_solver.
    + auto.
    + apply normalize_idem.
  - apply set_eq. intros e. rewrite elem_of_filter.
    pose proof (normalize_idem x). unfold normal_pantry in N.
    split.
    + intros [Hn He]. assert (e ∈ pantry s ∨ e = normalize x) as [H' | ->] by set_solver.
      * rewrite (N e H') in Hn. set_solver.
      * set_solver.
    + intros ->%elem_of_singleton. split; [done | set_solver].
Qed.

Lemma add_to_pantry_idempotent_witness :
  let s := new_agent "cli_user" Missing in
  let s1 := fst (add_to_pantry (JArr [JStr "  Rice "]) s) in
  let s2 := fst (add_to_pantry (JArr [JStr "RICE"]) s1) in
  pantry s2 = pantry s ∪ {[normalize "  Rice "]} ∧ pantry s2 = pantry s1.
Proof.
  intros s s1 s2.
  destruct (add_to_pantry_idempotent s "  Rice " "RICE" eq_refl) as (A & B & _).
  split; [exact A | exact B].
Defined.

(** *** The text of a conversation *)

(** C9, as stated, fails: only the tag ["json"] is removed with the
    backticks.  In a text with the fence of another language the three
    backticks go and the tag stays. *)
Lemma plain_text_counterexample :
  ¬ (∀ raw_text, brace_span raw_text = None →
       classify raw_text =
         Ret (ConversationalText (remove_fence_markers (strip raw_text)))).
Proof.
  intros H. specialize (H "```python x = 1 ```" eq_refl).
  vm_compute in H. discriminate H.
Qed.

(** C9, amended: when there is no brace span, or the span does not decode,
    the outcome is the conversational text made from the input by
    stripping the white space around it, then removing every ["```json"],
    then removing every three backticks that remain; no three backticks in
    a row are left in it. *)
Theorem plain_text_fallback (raw_text : string) :
  brace_span raw_text = None ∨
  (∃ span, brace_span raw_text = Some span ∧ loads span = JSONDecodeError) →
  classify raw_text =
    Ret (ConversationalText
           (replace "```" EmptyString (replace "```json" EmptyString (strip raw_text)))) ∧
  contains "```" (cleaned_text raw_text) = false.
Proof.
  intros H. split; [|apply cleaned_text_no_fence].
  unfold classify. rewrite search_brace_span.
  destruct H as [-> | (span & -> & ->)]; reflexivity.
Qed.

Lemma plain_text_fallback_witness :
  classify " ```json {oops} ``` " = Ret (ConversationalText " {oops} ").
Proof.
  destruct (plain_text_fallback " ```json {oops} ``` ") as [H _]; [|exact H].
  right. exists "{oops}". split; vm_compute; reflexivity.
Defined.

(** ** Further properties of the code *)

(** *** The pantry *)

Lemma res_map_strings (xs : list string) :
  res_map strip_lower (JStr <$> xs) = Ret (normalize <$> xs).
Proof.
  induction xs as [|x xs IH]; [reflexivity|].
  cbn [fmap list_fmap res_map strip_lower res_bind].
  change (list_fmap string json JStr xs) with (JStr <$> xs). rewrite IH. reflexivity.
Qed.

Lemma res_map_not_str (items : list json) :
  forallb is_str items = false → res_map strip_lower items = Raise AttributeError.
Proof.
  induction items as [|item items IH]; [discriminate|].
  cbn [forallb res_map]. destruct item; cbn [is_str strip_lower res_bind andb]; try reflexivity.
  intros H. rewrite (IH H). reflexivity.
Qed.

Lemma add_to_pantry_strings (xs : list string) (s : state) :
  add_to_pantry (JArr (JStr <$> xs)) s =
  _save_memory (set_pantry (pantry s ∪ names xs) s).
Proof.
  unfold add_to_pantry. unfold_M. cbn [py_iter res_bind]. rewrite res_map_strings.
  unfold names. destruct (_save_memory _) as [s' [| |]]; reflexivity.
Qed.

Lemma save_memory_stored (s : state) (bank : list (string * json)) :
  read_bank (memory_file s) = Ret (JObj bank) →
  _save_memory s =
    (set_memory_file (Content (dumps (JObj (dict_set (user_id s) (record_of s) bank)))) s,
     Ret tt) ∧
  loads (dumps (JObj (dict_set (user_id s) (record_of s) bank))) =
    Parsed (JObj (dict_set (user_id s) (record_of s) bank)).
Proof.
  intros R. rewrite save_memory_cases, R. split; [reflexivity|].
  apply loads_dumps, wf_dict_set; [apply wf_record_of | eapply read_bank_wf, R].
Qed.

(** X1: [add_to_pantry] with a list in which some item is not a text
    raises [AttributeError] and changes nothing, neither the pantry nor
    the memory file: the names are all computed before the pantry is
    updated. *)
Theorem add_to_pantry_all_or_nothing (items : list json) (s : state) :
  forallb is_str items = false →
  add_to_pantry (JArr items) s = (s, Raise AttributeError).
Proof.
  intros H. unfold add_to_pantry. unfold_M. cbn [py_iter res_bind].
  rewrite (res_map_not_str _ H). reflexivity.
Qed.

Lemma add_to_pantry_all_or_nothing_witness :
  let s := new_agent "cli_user" Missing in
  add_to_pantry (JArr [JStr "rice"; JInt 2; JStr "egg"]) s = (s, Raise AttributeError).
Proof.
  intros s. apply add_to_pantry_all_or_nothing. reflexivity.
Defined.

(** X2: [add_to_pantry] with a list of texts, on a memory file that is
    missing, does not decode or holds an object, ends without an exception;
    the pantry is the pantry before plus the normal forms of the texts, the
    feedback sets stay, and the record stored for the user in the file is
    the record of the sets in memory. *)
Theorem add_to_pantry_persists (xs : list string) (s : state) (bank : list (string * json)) :
  read_bank (memory_file s) = Ret (JObj bank) →
  let r := add_to_pantry (JArr (JStr <$> xs)) s in
  snd r = Ret tt ∧
  pantry (fst r) = pantry s ∪ names xs ∧
  liked_recipes (fst r) = liked_recipes s ∧
  disliked_recipes (fst r) = disliked_recipes s ∧
  stored_record (user_id s) (memory_file (fst r)) = Some (record_of (fst r)).
Proof.
  intros R r. subst r. rewrite add_to_pantry_strings.
  destruct (save_memory_stored (set_pantry (pantry s ∪ names xs) s) bank R) as [-> L].
  cbn [fst snd pantry liked_recipes disliked_recipes set_memory_file set_pantry memory_file
       user_id stored_record] in *.
  rewrite L, dict_get_set_eq. auto.
Qed.

Lemma add_to_pantry_persists_witness :
  let r := add_to_pantry (JArr [JStr " Rice"; JStr "EGG"; JStr "rice "])
             (new_agent "cli_user" Missing) in
  snd r = Ret tt ∧ pantry (fst r) = {["rice"; "egg"]}.
Proof.
  intros r.
  destruct (add_to_pantry_persists [" Rice"; "EGG"; "rice "] (new_agent "cli_user" Missing) []
              eq_refl) as (A & B & _).
  split; [exact A|]. exact B.
Defined.

Lemma set_pantry_same (s : state) (X : gset string) :
  X = pantry s → set_pantry X s = s.
Proof. intros ->. destruct s; reflexivity. Qed.

Lemma discard_each_strings (xs : list string) : ∀ s,
  discard_each (JStr <$> xs) s = (set_pantry (pantry s ∖ names xs) s, Ret tt).
Proof.
  induction xs as [|x xs IH]; intros s.
  - cbn. unfold ret. rewrite set_pantry_same; [reflexivity|]. unfold names. cbn. set_solver.
  - cbn [fmap list_fmap discard_each]. unfold_M. cbn [strip_lower].
    change (list_fmap string json JStr xs) with (JStr <$> xs). rewrite IH.
    unfold set_pantry at 1 2. cbn [user_id pantry liked_recipes disliked_recipes memory_file
      calendar_file today]. unfold set_pantry. do 2 f_equal.
    unfold names. cbn [fmap list_fmap list_to_set]. set_solver.
Qed.

Lemma discard_each_stops (xs : list string) (bad : json) (rest : list json) : ∀ s,
  is_str bad = false →
  discard_each ((JStr <$> xs) ++ bad :: rest) s =
    (set_pantry (pantry s ∖ names xs) s, Raise AttributeError).
Proof.
  induction xs as [|x xs IH]; intros s B.
  - cbn [fmap list_fmap app discard_each]. unfold_M.
    assert (strip_lower bad = Raise AttributeError) as -> by (destruct bad; try reflexivity; discriminate).
    rewrite set_pantry_same; [reflexivity|]. unfold names. cbn. set_solver.
  - cbn [fmap list_fmap app discard_each]. unfold_M. cbn [strip_lower].
    change (list_fmap string json JStr xs) with (JStr <$> xs). rewrite (IH _ B).
    unfold set_pantry. cbn [user_id pantry liked_recipes disliked_recipes memory_file
      calendar_file today]. do 2 f_equal.
    unfold names. cbn [fmap list_fmap list_to_set]. set_solver.
Qed.

Lemma remove_from_pantry_strings (xs : list string) (s : state) :
  remove_from_pantry (JArr (JStr <$> xs)) s =
  _save_memory (set_pantry (pantry s ∖ names xs) s).
Proof.
  unfold remove_from_pantry. unfold_M. cbn [py_iter]. rewrite discard_each_strings.
  destruct (_save_memory _) as [s' [| |]]; reflexivity.
Qed.

(** X3: [remove_from_pantry] with a list of texts takes the normal forms
    of the texts out of the pantry, whether they were in it or not, without
    an exception, and the record stored for the user in the file is the
    record of the sets in memory. *)
Theorem remove_from_pantry_persists (xs : list string) (s : state) (bank : list (string * json)) :
  read_bank (memory_file s) = Ret (JObj bank) →
  let r := remove_from_pantry (JArr (JStr <$> xs)) s in
  snd r = Ret tt ∧
  pantry (fst r) = pantry s ∖ names xs ∧
  liked_recipes (fst r) = liked_recipes s ∧
  disliked_recipes (fst r) = disliked_recipes s ∧
  stored_record (user_id s) (memory_file (fst r)) = Some (record_of (fst r)).
Proof.
  intros R r. subst r. rewrite remove_from_pantry_strings.
  destruct (save_memory_stored (set_pantry (pantry s ∖ names xs) s) bank R) as [-> L].
  cbn [fst snd pantry liked_recipes disliked_recipes set_memory_file set_pantry memory_file
       user_id stored_record] in *.
  rewrite L, dict_get_set_eq. auto.
Qed.

Lemma remove_from_pantry_persists_witness :
  let s := set_pantry {["rice"; "egg"]} (new_agent "cli_user" Missing) in
  let r := remove_from_pantry (JArr [JStr "Egg "; JStr "salt"]) s in
  snd r = Ret tt ∧ pantry (fst r) = {["rice"]}.
Proof.
  intros s r.
  destruct (remove_from_pantry_persists ["Egg "; "salt"] s [] eq_refl) as (A & B & _).
  split; [exact A|]. exact B.
Defined.

(** X4: [remove_from_pantry] with a list whose first item that is not a
    text comes after some texts raises [AttributeError] at that item: the
    texts before it are gone from the pantry in memory, and the memory file
    is not written. *)
Theorem remove_from_pantry_stops_midway (xs : list string) (bad : json) (rest : list json)
    (s : state) :
  is_str bad = false →
  let r := remove_from_pantry (JArr ((JStr <$> xs) ++ bad :: rest)) s in
  snd r = Raise AttributeError ∧
  pantry (fst r) = pantry s ∖ names xs ∧
  memory_file (fst r) = memory_file s.
Proof.
  intros B r. subst r. unfold remove_from_pantry. unfold_M. cbn [py_iter].
  rewrite (discard_each_stops _ _ _ _ B). auto.
Qed.

Lemma remove_from_pantry_stops_midway_witness :
  let s := set_pantry {["rice"; "egg"]} (new_agent "cli_user" Missing) in
  let r := remove_from_pantry (JArr [JStr "egg"; JNull; JStr "rice"]) s in
  snd r = Raise AttributeError ∧ memory_file (fst r) = Missing.
Proof.
  intros s r.
  destruct (remove_from_pantry_stops_midway ["egg"] JNull [JStr "rice"] s eq_refl)
    as (A & _ & C).
  split; [exact A | exact C].
Defined.

(** X5: adding a list of texts whose normal forms are not in the pantry
    and then removing the same list gives the pantry back as it was. *)
Theorem remove_undoes_add (xs : list string) (s : state) :
  names xs ## pantry s →
  let added := fst (add_to_pantry (JArr (JStr <$> xs)) s) in
  let removed := fst (remove_from_pantry (JArr (JStr <$> xs)) added) in
  pantry added = pantry s ∪ names xs ∧ pantry removed = pantry s.
Proof.
  intros D added removed. subst removed added.
  rewrite remove_from_pantry_strings, add_to_pantry_strings.
  pose proof (save_memory_frame (set_pantry (pantry s ∪ names xs) s)) as F. cbn zeta in F.
  destruct F as (_ & P & _). cbn [pantry set_pantry] in P.
  match goal with |- context [_save_memory (set_pantry (pantry ?a ∖ _) ?a)] =>
    pose proof (save_memory_frame (set_pantry (pantry a ∖ names xs) a)) as G end.
  cbn zeta in G. destruct G as (_ & Q & _). cbn [pantry set_pantry] in Q.
  rewrite Q, P. split; [reflexivity|]. set_solver.
Qed.

Lemma remove_undoes_add_witness :
  let s := set_pantry {["salt"]} (new_agent "cli_user" Missing) in
  let added := fst (add_to_pantry (JArr [JStr "Rice"; JStr "egg"]) s) in
  pantry (fst (remove_from_pantry (JArr [JStr "Rice"; JStr "egg"]) added)) = pantry s.
Proof.
  intros s added. refine (proj2 (remove_undoes_add ["Rice"; "egg"] s _)).
  apply (bool_decide_unpack _). vm_compute. exact I.
Defined.

Lemma sorted_pantry_spec (s : state) :
  StronglySorted String.le (sorted_pantry s) ∧ NoDup (sorted_pantry s) ∧
  ∀ x, x ∈ sorted_pantry s ↔ x ∈ pantry s.
Proof.
  unfold sorted_pantry. split; [apply StronglySorted_merge_sort; apply _|]. split.
  - rewrite merge_sort_Permutation. apply NoDup_elements.
  - intros x. rewrite merge_sort_Permutation. apply elem_of_elements.
Qed.

Lemma view_pantry_sorted (s : state) :
  view_pantry s = (s, Ret (PantryView (sorted_pantry s))).
Proof.
  unfold view_pantry. unfold_M. destruct (decide (pantry s = ∅)) as [E|]; [|reflexivity].
  unfold sorted_pantry. rewrite E, elements_empty. reflexivity.
Qed.

(** X6: the tool [view_pantry] ignores its parameters, leaves the state
    as it is and answers with the names of the pantry in strictly
    ascending order: sorted, without duplicates, with the same members as
    the pantry; the empty pantry gives the empty list. *)
Theorem view_pantry_tool (ask_model : prompt → state → answer) (rest : list reply)
    (tool_params : json) (s : state) :
  ∃ items,
    _call_tool ask_model rest (JStr "view_pantry") tool_params s = (s, rest, Ret (PantryView items)) ∧
    view_pantry s = (s, Ret (PantryView items)) ∧
    StronglySorted String.le items ∧ NoDup items ∧
    (∀ x, x ∈ items ↔ x ∈ pantry s) ∧
    (pantry s = ∅ → items = []).
Proof.
  exists (sorted_pantry s). split; [reflexivity|]. split; [apply view_pantry_sorted|].
  destruct (sorted_pantry_spec s) as (S & N & E). repeat split; try assumption; try apply E.
  intros E'. unfold sorted_pantry. rewrite E', elements_empty. reflexivity.
Qed.

Lemma dict_set_twice k v w d : dict_set k w (dict_set k v d) = dict_set k w d.
Proof.
  induction d as [|[k' v'] d IH]; cbn.
  - rewrite String.eqb_refl. reflexivity.
  - destruct (String.eqb k k') eqn:E; cbn; rewrite ?String.eqb_refl, ?E; [reflexivity|].
    rewrite IH. reflexivity.
Qed.

(** X7: when the memory file decodes to a value that is not an object,
    [_save_memory] raises [TypeError] and writes nothing; [add_to_pantry]
    then raises after the pantry in memory has been updated, so memory and
    file differ. *)
Theorem save_memory_needs_object (xs : list string) (s : state) (text : string) (v : json) :
  memory_file s = Content text → loads text = Parsed v → (∀ d, v ≠ JObj d) →
  _save_memory s = (s, Raise TypeError) ∧
  let r := add_to_pantry (JArr (JStr <$> xs)) s in
  snd r = Raise TypeError ∧ pantry (fst r) = pantry s ∪ names xs ∧
  memory_file (fst r) = Content text.
Proof.
  intros F L N.
  assert (S : ∀ s', memory_file s' = Content text → _save_memory s' = (s', Raise TypeError)).
  { intros s' F'. rewrite save_memory_cases, F'. cbn [read_bank]. rewrite L.
    destruct v; try reflexivity. destruct (N members eq_refl). }
  split; [apply S, F|]. intros r. subst r. rewrite add_to_pantry_strings, S by exact F.
  cbn. auto.
Qed.

Lemma save_memory_needs_object_witness :
  let s := new_agent "cli_user" (Content "[]") in
  _save_memory s = (s, Raise TypeError).
Proof.
  intros s. refine (proj1 (save_memory_needs_object [] s "[]" (JArr []) eq_refl eq_refl _)).
  discriminate.
Defined.

(** *** Mutations, the memory file and loading *)

Lemma save_memory_twice (s : state) :
  snd (_save_memory s) = Ret tt →
  _save_memory (fst (_save_memory s)) = (fst (_save_memory s), Ret tt).
Proof.
  rewrite save_memory_cases.
  destruct (read_bank (memory_file s)) as [[| | | | | |bank]| |] eqn:R; try discriminate.
  intros _. destruct (save_memory_stored s bank R) as [_ L]. cbn [fst].
  rewrite save_memory_cases. cbn [memory_file set_memory_file read_bank]. rewrite L.
  cbn [user_id set_memory_file].
  change (record_of (set_memory_file _ s)) with (record_of s).
  rewrite dict_set_twice. reflexivity.
Qed.

Lemma save_memory_file (s : state) :
  snd (_save_memory s) = Ret tt →
  ∃ f, fst (_save_memory s) = set_memory_file f s.
Proof.
  rewrite save_memory_cases.
  destruct (read_bank (memory_file s)) as [[| | | | | |bank]| |]; try discriminate.
  eauto.
Qed.

Lemma discard_each_names (items : list json) : ∀ names s,
  res_map strip_lower items = Ret names →
  discard_each items s = (set_pantry (pantry s ∖ list_to_set names) s, Ret tt).
Proof.
  induction items as [|item items IH]; intros names s.
  - intros [= <-]. cbn. unfold ret. rewrite set_pantry_same; [reflexivity|]. set_solver.
  - cbn [res_map discard_each]. unfold_M.
    destruct (strip_lower item) as [name| |]; cbn [res_bind]; try discriminate.
    destruct (res_map strip_lower items) as [names'| |]; cbn [res_bind]; try discriminate.
    intros [= <-]. rewrite (IH names') by reflexivity.
    unfold set_pantry. cbn [user_id pantry liked_recipes disliked_recipes memory_file
      calendar_file today]. do 2 f_equal. cbn [list_to_set]. set_solver.
Qed.

Lemma discard_each_result (items : list json) : ∀ s,
  snd (discard_each items s) = Ret tt → ∃ names, res_map strip_lower items = Ret names.
Proof.
  induction items as [|item items IH]; intros s; [eauto|].
  cbn [res_map discard_each]. unfold_M.
  destruct (strip_lower item) as [name| |]; cbn [res_bind snd]; try discriminate.
  intros H. destruct (IH _ H) as [names ->]. cbn [res_bind]. eauto.
Qed.

Lemma mutation_shape (m : mutation) (s : state) :
  snd (run_mutation m s) = Ret tt →
  ∃ u : state → state,
    (∀ t, run_mutation m t = _save_memory (u t)) ∧
    (∀ t, u (u t) = u t) ∧
    (∀ t f, u (set_memory_file f t) = set_memory_file f (u t)).
Proof.
  destruct m as [ingredients | ingredients | recipe_name feedback]; cbn [run_mutation].
  - unfold add_to_pantry. unfold_M.
    destruct (res_bind (py_iter ingredients) (res_map strip_lower)) as [names| |];
      cbn [snd]; try discriminate.
    intros _. exists (λ t, set_pantry (pantry t ∪ list_to_set names) t).
    split; [|split].
    + intros t. destruct (_save_memory _) as [s' [| |]]; reflexivity.
    + intros t. unfold set_pantry. cbn. f_equal. set_solver.
    + reflexivity.
  - unfold remove_from_pantry. unfold_M.
    destruct (py_iter ingredients) as [items| |]; cbn [snd]; try discriminate.
    destruct (discard_each items s) as [s1 [[]| |]] eqn:D; cbn [snd]; try discriminate.
    intros _. destruct (discard_each_result items s) as [names N]; [rewrite D; reflexivity|].
    exists (λ t, set_pantry (pantry t ∖ list_to_set names) t).
    split; [|split].
    + intros t. rewrite (discard_each_names _ _ _ N).
      destruct (_save_memory _) as [s' [| |]]; reflexivity.
    + intros t. unfold set_pantry. cbn. f_equal. set_solver.
    + reflexivity.
  - unfold add_feedback. unfold_M.
    destruct (strip_lower recipe_name) as [name| |]; cbn [snd]; try discriminate.
    destruct (py_lower feedback) as [fb| |]; cbn [snd]; try discriminate.
    intros _. destruct (String.eqb fb "like"); [|destruct (String.eqb fb "dislike")].
    + exists (λ t, set_disliked (disliked_recipes (set_liked (liked_recipes t ∪ {[name]}) t) ∖ {[name]})
                     (set_liked (liked_recipes t ∪ {[name]}) t)).
      split; [|split].
      * intros t. destruct (_save_memory _) as [s' [| |]]; reflexivity.
      * intros t. unfold set_disliked, set_liked. cbn. f_equal; set_solver.
      * reflexivity.
    + exists (λ t, set_liked (liked_recipes (set_disliked (disliked_recipes t ∪ {[name]}) t) ∖ {[name]})
                     (set_disliked (disliked_recipes t ∪ {[name]}) t)).
      split; [|split].
      * intros t. destruct (_save_memory _) as [s' [| |]]; reflexivity.
      * intros t. unfold set_disliked, set_liked. cbn. f_equal; set_solver.
      * reflexivity.
    + exists (λ t, t). split; [|split]; reflexivity.
Qed.

(** X8: a mutation ([add_to_pantry], [remove_from_pantry] or
    [add_feedback]) that ended without an exception, run once more with the
    same arguments, ends without an exception and changes nothing: the
    sets and the text of the memory file are the same. *)
Theorem mutation_idempotent (m : mutation) (s : state) :
  snd (run_mutation m s) = Ret tt →
  run_mutation m (fst (run_mutation m s)) = (fst (run_mutation m s), Ret tt).
Proof.
  intros H. destruct (mutation_shape m s H) as (u & R & I & C).
  rewrite R in H |- *. destruct (save_memory_file _ H) as [f F].
  rewrite R, F, C, I, <- F. apply save_memory_twice, H.
Qed.

Lemma mutation_idempotent_witness :
  let m := AddFeedback (JStr " Pad Thai") (JStr "LIKE") in
  let s := new_agent "cli_user" Missing in
  run_mutation m (fst (run_mutation m s)) = (fst (run_mutation m s), Ret tt).
Proof.
  intros m s. apply mutation_idempotent. reflexivity.
Defined.

Lemma py_set_strings (xs : list string) :
  py_set (JArr (JStr <$> xs)) = Ret (list_to_set xs).
Proof.
  unfold py_set.
  assert (existsb unhashable (JStr <$> xs) = false) as ->
    by (induction xs; cbn; auto).
  assert (forallb is_str (JStr <$> xs) = true) as ->
    by (induction xs; cbn; auto).
  rewrite strings_of_JStr. reflexivity.
Qed.

Lemma load_memory_file (s : state) : memory_file (fst (_load_memory s)) = memory_file s.
Proof.
  unfold _load_memory. unfold_M. destruct (memory_file s) as [|text] eqn:F; [exact F|].
  destruct (loads text) as [bank| |]; cbn [fst]; try exact F.
  repeat match goal with
  | |- context [match ?r with Ret _ => _ | Raise _ => _ | OutOfModel => _ end] =>
      destruct r; cbn [fst set_pantry set_liked set_disliked memory_file]
  end; exact F.
Qed.

(** X9: at construction, with the credential present and a memory file
    that holds an object with an object for the user, the three sets are
    the sets of the texts listed under ["pantry"], ["liked_recipes"] and
    ["disliked_recipes"], a missing key giving the empty set; the texts are
    taken as they are stored, and the file is not written. *)
Theorem load_memory_record (api_key uid text : string) (now : Z)
    (bank rec : list (string * json)) (p l d : list string) :
  api_key ≠ EmptyString →
  loads text = Parsed (JObj bank) →
  dict_get uid bank = Some (JObj rec) →
  get_default (JObj rec) "pantry" (JArr []) = Ret (JArr (JStr <$> p)) →
  get_default (JObj rec) "liked_recipes" (JArr []) = Ret (JArr (JStr <$> l)) →
  get_default (JObj rec) "disliked_recipes" (JArr []) = Ret (JArr (JStr <$> d)) →
  init (Some api_key) uid (Content text) now =
    ({| user_id := uid; pantry := list_to_set p; liked_recipes := list_to_set l;
        disliked_recipes := list_to_set d; memory_file := Content text;
        calendar_file := None; today := now |}, Ret tt).
Proof.
  intros K L G P Li D. unfold init. destruct api_key; [contradiction|].
  assert (U : get_default (JObj bank) uid (JObj []) = Ret (JObj rec))
    by (cbn [get_default]; rewrite G; reflexivity).
  unfold _load_memory. unfold_M. cbn [memory_file]. rewrite L. cbn [user_id].
  rewrite U. cbn [set_pantry set_liked set_disliked user_id pantry liked_recipes
    disliked_recipes memory_file calendar_file today].
  rewrite P, Li, D. cbn [res_bind]. rewrite !py_set_strings. reflexivity.
Qed.

Lemma load_memory_record_witness :
  init (Some "key") "ann"
       (Content (dq "{'ann': {'pantry': ['Rice ', 'egg', 'egg'], 'liked_recipes': ['Stew']}}"))
       739000 =
    ({| user_id := "ann"; pantry := {["Rice "; "egg"]}; liked_recipes := {["Stew"]};
        disliked_recipes := ∅;
        memory_file := Content (dq "{'ann': {'pantry': ['Rice ', 'egg', 'egg'], 'liked_recipes': ['Stew']}}");
        calendar_file := None; today := 739000 |}, Ret tt).
Proof.
  refine (eq_trans (load_memory_record "key" "ann" _ 739000
            [("ann", JObj [("pantry", JArr [JStr "Rice "; JStr "egg"; JStr "egg"]);
                           ("liked_recipes", JArr [JStr "Stew"])])]
            [("pantry", JArr [JStr "Rice "; JStr "egg"; JStr "egg"]);
             ("liked_recipes", JArr [JStr "Stew"])]
            ["Rice "; "egg"; "egg"] ["Stew"] [] _ _ _ _ _ _) _);
    try reflexivity; discriminate.
Defined.

(** *** Dispatch to the tools that ask the model again *)

Lemma ask_not_raise (script : list reply) (p : prompt) (s : state) :
  ∃ s' rest', (∃ o, ask script p s = (s', rest', Ret o)) ∨ ask script p s = (s', rest', OutOfModel).
Proof.
  destruct script as [|[raw_text|e'] rest]; cbn [ask]; eauto.
  destruct (classify raw_text) as [[tool_code tool_params|obj|text]| |]; eauto.
  destruct (_call_tool (ask rest) rest tool_code tool_params s) as [[s' rest'] [o|e'|]]; eauto.
Qed.

Lemma ask_passes_through (ask_model : prompt → state → answer) (raw_text : string)
    (q : prompt) (s : state) :
  (∀ e, snd (ask_model q s) ≠ Raise e) →
  match ask_model q s with
  | (s', rest', Raise e) => (s', rest', Ret (Failure e (Some raw_text)))
  | a => a
  end = ask_model q s.
Proof.
  intros H. destruct (ask_model q s) as [[s' rest'] [o|e|]]; try reflexivity.
  destruct (H e eq_refl).
Qed.

Lemma bind_kwargs_among (defaults : list (string * json)) (d : list (string * json)) :
  keys_among (fst <$> defaults) d = true →
  bind_kwargs defaults (JObj d) =
    Ret ((λ kd, default (snd kd) (dict_get (fst kd) d)) <$> defaults).
Proof. unfold bind_kwargs, keys_among. intros ->. reflexivity. Qed.

Lemma bind_kwargs_unexpected (defaults : list (string * json)) (tool_params : json) :
  match tool_params with
  | JObj d => keys_among (fst <$> defaults) d = false
  | _ => True
  end →
  bind_kwargs defaults tool_params = Raise TypeError.
Proof.
  destruct tool_params; try reflexivity. unfold bind_kwargs, keys_among. intros ->. reflexivity.
Qed.

(** X10: a tool call of [generate_meal_plan] whose parameters are a dict
    with keys among [days], [diet] and [preferences] answers with whatever
    [ask] answers on the next reply, the prompt built from the parameters
    with the defaults 3, ["any"] and the empty text; any other key, or
    parameters that are no dict, give the error result of [ask] for a
    [TypeError], and the state and the replies to come stay. *)
Theorem generate_meal_plan_call (raw_text : string) (tool_params : json)
    (rest : list reply) (p : prompt) (s : state) :
  classify raw_text = Ret (ToolCall (JStr "generate_meal_plan") tool_params) →
  match tool_params with
  | JObj d =>
      if keys_among meal_plan_kwargs d then
        ask (Reply raw_text :: rest) p s =
          ask rest (MealPlanPrompt (default (JInt 3) (dict_get "days" d))
                                   (default (JStr "any") (dict_get "diet" d))
                                   (default (JStr EmptyString) (dict_get "preferences" d))) s
      else
        ask (Reply raw_text :: rest) p s = (s, rest, Ret (Failure TypeError (Some raw_text)))
  | _ => ask (Reply raw_text :: rest) p s = (s, rest, Ret (Failure TypeError (Some raw_text)))
  end.
Proof.
  intros C. cbn [ask]. rewrite C. unfold _call_tool. cbn [str_eq].
  change (String.eqb "generate_meal_plan" "add_to_pantry") with false.
  change (String.eqb "generate_meal_plan" "remove_from_pantry") with false.
  change (String.eqb "generate_meal_plan" "add_feedback") with false.
  change (String.eqb "generate_meal_plan" "view_pantry") with false.
  change (String.eqb "generate_meal_plan" "generate_meal_plan") with true.
  cbv iota.
  destruct tool_params as [ | | | | | |d]; try reflexivity.
  destruct (keys_among meal_plan_kwargs d) eqn:K.
  - rewrite bind_kwargs_among by exact K. cbn [fmap list_fmap fst snd].
    apply ask_passes_through. intros e. apply ask_never_raises.
  - rewrite bind_kwargs_unexpected by exact K. reflexivity.
Qed.

Lemma generate_meal_plan_call_witness :
  ask [Reply (dq "{'tool_code':'generate_meal_plan','tool_params':{'days':5}}");
       Reply (dq "{'plan': []}")] (UserPrompt "plan my week") (new_agent "cli_user" Missing) =
    (new_agent "cli_user" Missing, [], Ret (Payload (JObj [("plan", JArr [])]))).
Proof.
  exact (generate_meal_plan_call
           (dq "{'tool_code':'generate_meal_plan','tool_params':{'days':5}}")
           (JObj [("days", JInt 5)]) [Reply (dq "{'plan': []}")] (UserPrompt "plan my week")
           (new_agent "cli_user" Missing) eq_refl).
Defined.

(** X11: a tool call of [generate_recipe] whose parameters are a dict
    with keys among [extra_ingredients], [dietary_needs] and
    [cooking_time] answers with whatever [ask] answers on the next reply,
    the prompt built from the pantry, the parameters (the empty text by
    default) and the liked and disliked recipes; any other key, or
    parameters that are no dict, give the error result of [ask] for a
    [TypeError]. *)
Theorem generate_recipe_call (raw_text : string) (tool_params : json)
    (rest : list reply) (p : prompt) (s : state) :
  classify raw_text = Ret (ToolCall (JStr "generate_recipe") tool_params) →
  match tool_params with
  | JObj d =>
      if keys_among recipe_kwargs d then
        ask (Reply raw_text :: rest) p s =
          ask rest (RecipePrompt (elements (pantry s))
                      (default (JStr EmptyString) (dict_get "extra_ingredients" d))
                      (default (JStr EmptyString) (dict_get "dietary_needs" d))
                      (default (JStr EmptyString) (dict_get "cooking_time" d))
                      (elements (liked_recipes s)) (elements (disliked_recipes s))) s
      else
        ask (Reply raw_text :: rest) p s = (s, rest, Ret (Failure TypeError (Some raw_text)))
  | _ => ask (Reply raw_text :: rest) p s = (s, rest, Ret (Failure TypeError (Some raw_text)))
  end.
Proof.
  intros C. cbn [ask]. rewrite C. unfold _call_tool. cbn [str_eq].
  change (String.eqb "generate_recipe" "add_to_pantry") with false.
  change (String.eqb "generate_recipe" "remove_from_pantry") with false.
  change (String.eqb "generate_recipe" "add_feedback") with false.
  change (String.eqb "generate_recipe" "view_pantry") with false.
  change (String.eqb "generate_recipe" "generate_meal_plan") with false.
  change (String.eqb "generate_recipe" "generate_recipe") with true.
  cbv iota.
  destruct tool_params as [ | | | | | |d]; try reflexivity.
  destruct (keys_among recipe_kwargs d) eqn:K.
  - rewrite bind_kwargs_among by exact K. cbn [fmap list_fmap fst snd].
    apply (ask_passes_through (ask rest)). intros e. apply ask_never_raises.
  - rewrite bind_kwargs_unexpected by exact K. reflexivity.
Qed.

Lemma generate_recipe_call_witness :
  ask [Reply (dq "{'tool_code':'generate_recipe','tool_params':{'cuisine':'thai'}}")]
      (UserPrompt "something thai") (new_agent "cli_user" Missing) =
    (new_agent "cli_user" Missing, [],
     Ret (Failure TypeError
            (Some (dq "{'tool_code':'generate_recipe','tool_params':{'cuisine':'thai'}}")))).
Proof.
  exact (generate_recipe_call
           (dq "{'tool_code':'generate_recipe','tool_params':{'cuisine':'thai'}}")
           (JObj [("cuisine", JStr "thai")]) [] (UserPrompt "something thai")
           (new_agent "cli_user" Missing) eq_refl).
Defined.

(** *** What every request keeps *)

Lemma keeps_refl (s : state) : keeps_invariants s s.
Proof. unfold keeps_invariants. auto. Qed.

Lemma keeps_trans (s1 s2 s3 : state) :
  keeps_invariants s1 s2 → keeps_invariants s2 s3 → keeps_invariants s1 s3.
Proof.
  unfold keeps_invariants. intros (U1 & T1 & P1 & F1) (U2 & T2 & P2 & F2).
  repeat split; [congruence | congruence | auto | auto].
Qed.

Lemma keeps_fields (s s' : state) :
  user_id s' = user_id s → today s' = today s →
  (∀ e, e ∈ pantry s' → e ∈ pantry s ∨ normalize e = e) →
  (liked_recipes s ∩ disliked_recipes s = ∅ →
   liked_recipes s' ∩ disliked_recipes s' = ∅) →
  keeps_invariants s s'.
Proof.
  intros U T P F. unfold keeps_invariants. repeat split; auto.
  intros N e He. destruct (P e He); auto.
Qed.

Lemma keeps_save (s : state) : keeps_invariants s (fst (_save_memory s)).
Proof.
  pose proof (save_memory_frame s) as F. cbn zeta in F.
  destruct F as (U & P & L & D & _ & T).
  apply keeps_fields; auto; rewrite ?P, ?L, ?D; auto.
Qed.

Lemma res_map_normal (items : list json) : ∀ names,
  res_map strip_lower items = Ret names → ∀ e, e ∈ names → normalize e = e.
Proof.
  induction items as [|item items IH]; intros names.
  - intros [= <-] e He. inversion He.
  - cbn [res_map]. destruct item; cbn [strip_lower res_bind]; try discriminate.
    destruct (res_map strip_lower items) as [names'| |]; cbn [res_bind]; try discriminate.
    intros [= <-] e He. apply elem_of_cons in He as [-> | He].
    + apply normalize_idem.
    + eapply IH; [reflexivity | exact He].
Qed.

Lemma keeps_add_to_pantry (ingredients : json) (s : state) :
  keeps_invariants s (fst (add_to_pantry ingredients s)).
Proof.
  unfold add_to_pantry. unfold_M.
  destruct (res_bind (py_iter ingredients) (res_map strip_lower)) as [names| |] eqn:N;
    cbn [fst]; try apply keeps_refl.
  assert (K : keeps_invariants s (set_pantry (pantry s ∪ list_to_set names) s)).
  { apply keeps_fields; try reflexivity; [|auto].
    cbn [pantry set_pantry]. intros e [He | He]%elem_of_union; [auto|]. right.
    apply elem_of_list_to_set in He.
    destruct (py_iter ingredients) as [items| |]; cbn [res_bind] in N; try discriminate.
    eapply res_map_normal; eauto. }
  eapply keeps_trans; [exact K|].
  pose proof (keeps_save (set_pantry (pantry s ∪ list_to_set names) s)) as S.
  destruct (_save_memory _) as [s' [| |]]; exact S.
Qed.

Lemma discard_each_fields (items : list json) : ∀ s,
  let s' := fst (discard_each items s) in
  user_id s' = user_id s ∧ today s' = today s ∧ pantry s' ⊆ pantry s ∧
  liked_recipes s' = liked_recipes s ∧ disliked_recipes s' = disliked_recipes s.
Proof.
  induction items as [|item items IH]; intros s; cbn zeta.
  - cbn. auto.
  - cbn [discard_each]. unfold_M.
    destruct (strip_lower item) as [name| |]; cbn [fst]; auto.
    specialize (IH (set_pantry (pantry s ∖ {[name]}) s)). cbn zeta in IH.
    destruct (discard_each items _) as [s' [| |]]; cbn [fst] in *;
      destruct IH as (U & T & P & L & D); cbn [user_id today pantry liked_recipes
        disliked_recipes set_pantry] in *; repeat split; auto; set_solver.
Qed.

Lemma keeps_remove_from_pantry (ingredients : json) (s : state) :
  keeps_invariants s (fst (remove_from_pantry ingredients s)).
Proof.
  unfold remove_from_pantry. unfold_M.
  destruct (py_iter ingredients) as [items| |]; cbn [fst]; try apply keeps_refl.
  pose proof (discard_each_fields items s) as F. cbn zeta in F.
  destruct F as (U & T & P & L & D).
  assert (K : keeps_invariants s (fst (discard_each items s))).
  { apply keeps_fields; auto. rewrite L, D. auto. }
  destruct (discard_each items s) as [s1 [| |]]; cbn [fst] in *; try exact K.
  eapply keeps_trans; [exact K|].
  pose proof (keeps_save s1) as S. destruct (_save_memory s1) as [s' [| |]]; exact S.
Qed.

Lemma add_feedback_frame (recipe_name feedback : json) (s : state) :
  let s' := fst (add_feedback recipe_name feedback s) in
  user_id s' = user_id s ∧ today s' = today s ∧ pantry s' = pantry s.
Proof.
  unfold add_feedback. unfold_M.
  destruct (strip_lower recipe_name) as [name| |]; [|cbn; auto..].
  destruct (py_lower feedback) as [fb| |]; [|cbn; auto..].
  destruct (String.eqb fb "like"); [|destruct (String.eqb fb "dislike")]; cbn -[_save_memory].
  all: match goal with |- context [_save_memory ?t] =>
         pose proof (save_memory_frame t) as F; cbn zeta in F;
         destruct (_save_memory t) as [s' [| |]]; cbn in *; intuition congruence end.
Qed.

Lemma keeps_add_feedback (recipe_name feedback : json) (s : state) :
  keeps_invariants s (fst (add_feedback recipe_name feedback s)).
Proof.
  pose proof (add_feedback_frame recipe_name feedback s) as F. cbn zeta in F.
  destruct F as (U & T & P).
  apply keeps_fields; auto; [rewrite P; auto|].
  intros H. pose proof (add_feedback_sets recipe_name feedback s) as S. cbn zeta in S.
  destruct (strip_lower recipe_name) as [name| |], (py_lower feedback) as [fb| |];
    try (destruct S as [-> ->]; exact H).
  destruct (String.eqb fb "like"); [|destruct (String.eqb fb "dislike")];
    destruct S as [-> ->]; set_solver.
Qed.

Lemma keeps_create_calendar_file (meal_plan : json) (s : state) :
  keeps_invariants s (fst (create_calendar_file meal_plan s)).
Proof.
  unfold create_calendar_file.
  destruct (res_bind (py_iter meal_plan) (res_map (event_of_meal (today s)))) as [events| |];
    cbn [fst]; apply keeps_fields; auto.
Qed.

Lemma keeps_local (m : M outcome) (rest : list reply) (s : state) :
  keeps_invariants s (fst (m s)) →
  keeps_invariants s (fst (fst (local_tool rest m s))).
Proof. unfold local_tool. destruct (m s) as [s' r]. auto. Qed.

Lemma keeps_call_tool (ask_model : prompt → state → answer) (rest : list reply)
    (tool_code tool_params : json) (s : state) :
  (∀ q t, keeps_invariants t (fst (fst (ask_model q t)))) →
  keeps_invariants s (fst (fst (_call_tool ask_model rest tool_code tool_params s))).
Proof.
  intros A. unfold _call_tool.
  repeat match goal with
  | |- context [if str_eq tool_code ?n then _ else _] => destruct (str_eq tool_code n)
  end.
  - apply keeps_local. unfold_M.
    destruct (getitem tool_params "ingredients") as [x| |]; cbn [fst]; try apply keeps_refl.
    pose proof (keeps_add_to_pantry x s) as K.
    destruct (add_to_pantry x s) as [s' [| |]]; exact K.
  - apply keeps_local. unfold_M.
    destruct (getitem tool_params "ingredients") as [x| |]; cbn [fst]; try apply keeps_refl.
    pose proof (keeps_remove_from_pantry x s) as K.
    destruct (remove_from_pantry x s) as [s' [| |]]; exact K.
  - apply keeps_local. unfold_M.
    destruct (getitem tool_params "recipe_name") as [x| |]; cbn [fst]; try apply keeps_refl.
    destruct (getitem tool_params "feedback") as [y| |]; cbn [fst]; try apply keeps_refl.
    pose proof (keeps_add_feedback x y s) as K.
    destruct (add_feedback x y s) as [s' [| |]]; exact K.
  - apply keeps_refl.
  - destruct (bind_kwargs _ tool_params) as [[|a [|b [|c [|? ?]]]]| |];
      try apply keeps_refl. apply A.
  - destruct (bind_kwargs _ tool_params) as [[|a [|b [|c [|? ?]]]]| |];
      try apply keeps_refl. apply A.
  - apply keeps_local. unfold_M.
    destruct (getitem tool_params "meal_plan") as [x| |]; cbn [fst]; try apply keeps_refl.
    apply keeps_create_calendar_file.
  - apply keeps_refl.
Qed.

Lemma keeps_ask (script : list reply) : ∀ (p : prompt) (s : state),
  keeps_invariants s (fst (fst (ask script p s))).
Proof.
  induction script as [|[raw_text|e] rest IH]; intros p s; cbn [ask fst];
    try apply keeps_refl.
  destruct (classify raw_text) as [[tool_code tool_params|obj|text]| |];
    cbn [fst]; try apply keeps_refl.
  pose proof (keeps_call_tool (ask rest) rest tool_code tool_params s IH) as K.
  destruct (_call_tool (ask rest) rest tool_code tool_params s) as [[s' rest'] [o|e|]];
    exact K.
Qed.

(** X12: whatever the replies of the model, a request keeps the user and
    the date, keeps a pantry of normal forms a pantry of normal forms, and
    keeps disjoint liked and disliked sets disjoint, through every tool
    call and every request made by a tool. *)
Theorem ask_keeps_invariants (script : list reply) (p : prompt) (s : state) :
  keeps_invariants s (fst (fst (ask script p s))).
Proof. apply keeps_ask. Qed.

(** *** Dates: a printed date parses back *)

Lemma month_day_year :
  forallb (λ n, month_day_ok true n && month_day_ok false n) (seqZ 0 365) = true.
Proof. vm_compute. reflexivity. Qed.

Lemma month_day_spec (leapyear : bool) (n : Z) :
  0 ≤ n < 365 → month_day_ok leapyear n = true.
Proof.
  intros H. pose proof month_day_year as A. rewrite forallb_forall in A.
  assert (I : In n (seqZ 0 365)) by (apply list_elem_of_In, elem_of_seqZ; lia).
  specialize (A n I). apply andb_prop in A as [A B]. destruct leapyear; assumption.
Qed.

Lemma month_length_nth (leapyear : bool) (month : Z) :
  month_length leapyear month =
  nth (Z.to_nat month) [0; 31; 28; 31; 30; 31; 30; 31; 31; 30; 31; 30; 31] 0
  + (if (month =? 2) && leapyear then 1 else 0).
Proof.
  unfold month_length. destruct (Z.eqb_spec month 2) as [->|]; [|cbn; lia].
  destruct leapyear; reflexivity.
Qed.

Lemma ord2ymd_parts (n : Z) :
  ord2ymd n =
  let n400 := (n - 1) / 146097 in
  let r400 := (n - 1) mod 146097 in
  let n100 := r400 / 36524 in
  let r100 := r400 mod 36524 in
  let n4 := r100 / 1461 in
  let r4 := r100 mod 1461 in
  let n1 := r4 / 365 in
  let r1 := r4 mod 365 in
  let year := n400 * 400 + 1 + n100 * 100 + n4 * 4 + n1 in
  if (n1 =? 4) || (n100 =? 4) then (year - 1, 12, 31)
  else
    let '(month, day) := month_day ((n1 =? 3) && (negb (n4 =? 24) || (n100 =? 3))) r1 in
    (year, month, day).
Proof.
  unfold ord2ymd, month_day. cbv zeta.
  destruct (_ || _); [reflexivity|].
  rewrite month_length_nth. unfold month_start.
  destruct (_ <? _); reflexivity.
Qed.

Lemma is_leap_parts (n400 n100 n4 n1 : Z) :
  0 ≤ n100 ≤ 3 → 0 ≤ n4 ≤ 24 → 0 ≤ n1 ≤ 3 →
  is_leap (n400 * 400 + 1 + n100 * 100 + n4 * 4 + n1) =
  (n1 =? 3) && (negb (n4 =? 24) || (n100 =? 3)).
Proof.
  intros H100 H4 H1. unfold is_leap.
  repeat match goal with
  | |- context [?a =? ?b] => destruct (Z.eqb_spec a b)
  end; cbn; try reflexivity; exfalso; Z.div_mod_to_equations; lia.
Qed.

Lemma days_before_year_parts (n400 n100 n4 n1 : Z) :
  0 ≤ n100 ≤ 3 → 0 ≤ n4 ≤ 24 → 0 ≤ n1 ≤ 3 →
  days_before_year (n400 * 400 + 1 + n100 * 100 + n4 * 4 + n1) =
  146097 * n400 + 36524 * n100 + 1461 * n4 + 365 * n1.
Proof.
  intros H100 H4 H1. unfold days_before_year. cbv zeta.
  Z.div_mod_to_equations. lia.
Qed.

Lemma ord2ymd_spec (n : Z) :
  1 ≤ n ≤ MAXORDINAL →
  ∃ y m d, ord2ymd n = (y, m, d) ∧
    1 ≤ y ≤ 9999 ∧ 1 ≤ m ≤ 12 ∧ 1 ≤ d ≤ days_in_month y m ∧ ymd2ord y m d = n.
Proof.
  unfold MAXORDINAL. intros Hn. rewrite ord2ymd_parts. cbv zeta.
  pose proof (Z.div_mod (n - 1) 146097 ltac:(lia)) as E400.
  pose proof (Z.mod_pos_bound (n - 1) 146097 ltac:(lia)) as B400.
  set (n400 := (n - 1) / 146097) in *. set (r400 := (n - 1) mod 146097) in *.
  pose proof (Z.div_mod r400 36524 ltac:(lia)) as E100.
  pose proof (Z.mod_pos_bound r400 36524 ltac:(lia)) as B100.
  set (n100 := r400 / 36524) in *. set (r100 := r400 mod 36524) in *.
  pose proof (Z.div_mod r100 1461 ltac:(lia)) as E4.
  pose proof (Z.mod_pos_bound r100 1461 ltac:(lia)) as B4.
  set (n4 := r100 / 1461) in *. set (r4 := r100 mod 1461) in *.
  pose proof (Z.div_mod r4 365 ltac:(lia)) as E1.
  pose proof (Z.mod_pos_bound r4 365 ltac:(lia)) as B1.
  set (n1 := r4 / 365) in *. set (r1 := r4 mod 365) in *.
  clearbody n400 r400 n100 r100 n4 r4 n1 r1.
  assert (0 ≤ n400 ≤ 24 ∧ 0 ≤ n100 ≤ 4 ∧ 0 ≤ n4 ≤ 24 ∧ 0 ≤ n1 ≤ 4) as (R400 & R100 & R4 & R1)
    by lia.
  destruct (Z.eqb_spec n1 4) as [N1|N1]; [|destruct (Z.eqb_spec n100 4) as [N100|N100]];
    cbn [orb].
  - (* the last day of a leap year *)
    assert (n4 ≤ 23 ∧ n100 ≤ 3 ∧ r1 = 0) as (? & ? & ?) by lia. subst n1.
    eexists _, _, _. split; [reflexivity|].
    replace (n400 * 400 + 1 + n100 * 100 + n4 * 4 + 4 - 1)
      with (n400 * 400 + 1 + n100 * 100 + (n4 + 1) * 4 + -1) by lia.
    assert (L : is_leap (n400 * 400 + 1 + n100 * 100 + (n4 + 1) * 4 + -1) = true).
    { unfold is_leap.
      repeat match goal with
      | |- context [?a =? ?b] => destruct (Z.eqb_spec a b)
      end; cbn; try reflexivity; exfalso; Z.div_mod_to_equations; lia. }
    unfold ymd2ord, days_in_month, days_before_month. rewrite L.
    change (Z.to_nat 12) with 12%nat. change (12 =? 2) with false.
    change (2 <? 12) with true. cbn [andb nth]. unfold days_before_year. cbv zeta.
    repeat split; try lia; Z.div_mod_to_equations; lia.
  - (* the last day of a cycle of 400 years *)
    assert (r100 = 0 ∧ n4 = 0 ∧ n1 = 0 ∧ r1 = 0) as (? & ? & ? & ?) by lia. subst.
    eexists _, _, _. split; [reflexivity|].
    assert (L : is_leap (n400 * 400 + 1 + 4 * 100 + 0 * 4 + 0 - 1) = true).
    { unfold is_leap.
      repeat match goal with
      | |- context [?a =? ?b] => destruct (Z.eqb_spec a b)
      end; cbn; try reflexivity; exfalso; Z.div_mod_to_equations; lia. }
    unfold ymd2ord, days_in_month, days_before_month. rewrite L.
    change (Z.to_nat 12) with 12%nat. change (12 =? 2) with false.
    change (2 <? 12) with true. cbn [andb nth]. unfold days_before_year. cbv zeta.
    repeat split; try lia; Z.div_mod_to_equations; lia.
  - assert (n100 ≤ 3 ∧ n1 ≤ 3) as [? ?] by lia.
    rewrite <- (is_leap_parts n400) by lia.
    set (year := n400 * 400 + 1 + n100 * 100 + n4 * 4 + n1).
    pose proof (month_day_spec (is_leap year) r1 B1) as M. unfold month_day_ok in M.
    destruct (month_day (is_leap year) r1) as [m d].
    repeat (apply andb_prop in M as [M ?]).
    exists year, m, d. split; [reflexivity|].
    change (days_in_month year m) with (month_length (is_leap year) m).
    unfold ymd2ord. change (days_before_month year m) with (month_start (is_leap year) m).
    subst year. rewrite days_before_year_parts by lia.
    repeat split; try lia.
Qed.

Lemma digit_char_digit (k : Z) :
  is_digit (digit_char k) = true ∧ digit_val (digit_char k) = k mod 10.
Proof.
  unfold digit_char. pose proof (Z.mod_pos_bound k 10 ltac:(lia)) as B.
  set (r := k mod 10) in *. clearbody r.
  assert (r = 0 ∨ r = 1 ∨ r = 2 ∨ r = 3 ∨ r = 4 ∨ r = 5 ∨ r = 6 ∨ r = 7 ∨ r = 8 ∨ r = 9)
    as H by lia.
  repeat (destruct H as [-> | H]; [split; reflexivity|]). subst r. split; reflexivity.
Qed.

Lemma year_digits (y : Z) :
  1 ≤ y ≤ 9999 →
  (((y / 1000) mod 10 * 10 + (y / 100) mod 10) * 10 + (y / 10) mod 10) * 10 + y mod 10 = y.
Proof. intros H. Z.div_mod_to_equations. lia. Qed.

Lemma scan_month_digits (m : Z) (rest : string) :
  1 ≤ m ≤ 12 →
  scan_month (String (digit_char (m / 10)) (String (digit_char m) (String "-" rest))) =
    Some (m, String "-" rest).
Proof.
  intros H.
  assert (m = 1 ∨ m = 2 ∨ m = 3 ∨ m = 4 ∨ m = 5 ∨ m = 6 ∨ m = 7 ∨ m = 8 ∨ m = 9 ∨
          m = 10 ∨ m = 11 ∨ m = 12) as C by lia.
  repeat (destruct C as [-> | C]; [reflexivity|]). subst m. reflexivity.
Qed.

Lemma scan_day_digits (d : Z) :
  1 ≤ d ≤ 31 →
  scan_day (String (digit_char (d / 10)) (String (digit_char d) EmptyString)) =
    Some (d, EmptyString).
Proof.
  intros H.
  assert (In d (seqZ 1 31)) as C by (apply list_elem_of_In, elem_of_seqZ; lia).
  cbn in C. repeat (destruct C as [<- | C]; [reflexivity|]). destruct C.
Qed.

Lemma days_in_month_bound (y m : Z) : days_in_month y m ≤ 31.
Proof.
  unfold days_in_month. destruct (_ && _); [lia|].
  destruct (Z.to_nat m) as [|[|[|[|[|[|[|[|[|[|[|[|[|[|]]]]]]]]]]]]]]; cbn; lia.
Qed.

Lemma strptime_isoformat (n : Z) :
  1 ≤ n ≤ MAXORDINAL → strptime_ymd (isoformat n) = Some n.
Proof.
  intros H. destruct (ord2ymd_spec n H) as (y & m & d & E & Hy & Hm & Hd & O).
  unfold isoformat. rewrite E.
  pose proof (days_in_month_bound y m) as B.
  cbn [strptime_ymd].
  destruct (digit_char_digit (y / 1000)) as [-> ->].
  destruct (digit_char_digit (y / 100)) as [-> ->].
  destruct (digit_char_digit (y / 10)) as [-> ->].
  destruct (digit_char_digit y) as [-> ->]. cbn [andb].
  rewrite year_digits by exact Hy.
  rewrite scan_month_digits by exact Hm.
  rewrite scan_day_digits by lia.
  destruct (Z.leb_spec 1 y); [|lia]. destruct (Z.leb_spec 1 d); [|lia].
  destruct (Z.leb_spec d (days_in_month y m)); [|lia]. cbn [andb]. rewrite O. reflexivity.
Qed.

(** *** Calendar export *)

(** X13: on every date, a meal entry without ["day_str"] is dated today:
    the default text is today's date, which always parses, so ["day"] is
    not read, whatever it holds. *)
Theorem entry_without_day_str (now : Z) (meal : list (string * json))
    (meal_type : string) (meal_name : json) :
  1 ≤ now ≤ MAXORDINAL →
  dict_get "day_str" meal = None →
  dict_get "meal_type" meal = Some (JStr meal_type) →
  dict_get "meal_name" meal = Some meal_name →
  meal_date now (JObj meal) = Ret now ∧
  event_of_meal now (JObj meal) =
    Ret {| ev_meal_type := JStr meal_type; ev_meal_name := meal_name;
           ev_begin := {| dt_date := now; dt_seconds := meal_hour (lower meal_type) * 3600 |};
           ev_duration := 3600 |}.
Proof.
  intros H S T N.
  assert (D : meal_date now (JObj meal) = Ret now).
  { unfold meal_date, get_default. rewrite S. cbn [res_bind].
    rewrite strptime_isoformat by exact H. reflexivity. }
  split; [exact D|]. unfold event_of_meal, getitem. rewrite T, N. cbn [res_bind].
  rewrite D. cbn [res_bind py_lower]. rewrite at_hour_meal. reflexivity.
Qed.

Lemma entry_without_day_str_witness :
  event_of_meal 739000
    (JObj [("day", JStr "the day after"); ("meal_type", JStr "Dinner");
           ("meal_name", JStr "Stew")]) =
    Ret {| ev_meal_type := JStr "Dinner"; ev_meal_name := JStr "Stew";
           ev_begin := {| dt_date := 739000; dt_seconds := 19 * 3600 |};
           ev_duration := 3600 |}.
Proof.
  refine (proj2 (entry_without_day_str 739000
            [("day", JStr "the day after"); ("meal_type", JStr "Dinner");
             ("meal_name", JStr "Stew")] "Dinner" (JStr "Stew") _ eq_refl eq_refl eq_refl)).
  unfold MAXORDINAL. lia.
Defined.

Lemma res_map_Forall2 {A B} (f : A → res B) (l : list A) : ∀ ys,
  res_map f l = Ret ys ↔ Forall2 (λ x y, f x = Ret y) l ys.
Proof.
  induction l as [|x l IH]; intros ys; cbn [res_map].
  - split; [intros [= <-]; constructor | intros H; inversion H; reflexivity].
  - split.
    + destruct (f x) as [y| |] eqn:E; cbn [res_bind]; try discriminate.
      destruct (res_map f l) as [ys'| |]; cbn [res_bind]; try discriminate.
      intros [= <-]. constructor; [exact E | apply IH; reflexivity].
    + intros H. inversion H as [|? y ? ys' E F]; subst. rewrite E. cbn [res_bind].
      apply IH in F. rewrite F. reflexivity.
Qed.

Lemma res_map_raises {A B} (f : A → res B) (l : list A) :
  (∀ x, x ∈ l → f x ≠ OutOfModel) →
  (∃ x e, x ∈ l ∧ f x = Raise e) →
  ∃ e, res_map f l = Raise e.
Proof.
  induction l as [|x l IH]; intros M (x' & e & I & E); [inversion I|].
  cbn [res_map]. destruct (f x) as [y| |] eqn:F; cbn [res_bind]; [|eauto|].
  - destruct IH as [e' ->]; [| |cbn; eauto].
    + intros z Iz. apply M. right. exact Iz.
    + apply elem_of_cons in I as [-> | I]; [congruence|]. eauto.
  - destruct (M x); [left | exact F].
Qed.

(** X14: [create_calendar_file] never raises.  When every entry gives an
    event, the calendar written holds one event for each entry and the
    result is a success with the path of the user's file; when an entry
    raises, or the plan cannot be iterated, the result is an error and
    nothing is written. *)
Theorem create_calendar_file_all_or_nothing (meal_plan : json) (s : state) :
  let r := create_calendar_file meal_plan s in
  (∀ e, snd r ≠ Raise e) ∧
  (∀ items events, py_iter meal_plan = Ret items →
     Forall2 (λ item ev, event_of_meal (today s) item = Ret ev) items events →
     length events = length items ∧
     r = (set_calendar_file (Some events) s,
          Ret (StatusMessage "success" CalendarCreated (Some (calendar_path (user_id s)))))) ∧
  (∀ items, py_iter meal_plan = Ret items →
     (∀ item, item ∈ items → event_of_meal (today s) item ≠ OutOfModel) →
     (∃ item e, item ∈ items ∧ event_of_meal (today s) item = Raise e) →
     ∃ e, r = (s, Ret (StatusMessage "error" (CalendarFailed e) None))) ∧
  (∀ e, py_iter meal_plan = Raise e →
     r = (s, Ret (StatusMessage "error" (CalendarFailed e) None))).
Proof.
  intros r. subst r. unfold create_calendar_file. repeat split.
  - intros e. destruct (res_bind _ _); discriminate.
  - symmetry. eapply Forall2_length, H0.
  - rewrite H. cbn [res_bind]. apply res_map_Forall2 in H0. rewrite H0. reflexivity.
  - intros items I M B. rewrite I. cbn [res_bind].
    destruct (res_map_raises _ _ M B) as [e ->]. eauto.
  - intros e ->. reflexivity.
Qed.

(** *** The brace span inside a reply *)

Lemma first_index_app (c : ascii) (pre s : string) :
  first_index c pre = None →
  first_index c (pre +:+ String c s) = Some (String.length pre).
Proof.
  induction pre as [|d pre IH]; cbn [String.append first_index String.length].
  - rewrite Ascii.eqb_refl. reflexivity.
  - destruct (Ascii.eqb c d); [discriminate|].
    destruct (first_index c pre); [discriminate|]. intros _. rewrite IH by reflexivity.
    reflexivity.
Qed.

Lemma last_index_end (c : ascii) (post : string) :
  last_index c post = None → last_index c (String c post) = Some O.
Proof. cbn [last_index]. intros ->. rewrite Ascii.eqb_refl. reflexivity. Qed.

Lemma last_index_app (c : ascii) (s t : string) (j : nat) :
  last_index c t = Some j → last_index c (s +:+ t) = Some (String.length s + j)%nat.
Proof.
  intros H. induction s as [|d s IH]; cbn [String.append last_index String.length]; [exact H|].
  rewrite IH. reflexivity.
Qed.

Lemma substring_app (pre s post : string) :
  String.substring (String.length pre) (String.length s) (pre +:+ s +:+ post) = s.
Proof.
  induction pre as [|d pre IH]; cbn [String.append String.length String.substring].
  - induction s as [|e s IHs]; cbn [String.append String.length String.substring].
    + destruct post; reflexivity.
    + rewrite IHs. reflexivity.
  - exact IH.
Qed.

Lemma brace_span_embedded (pre body post : string) :
  first_index "{" pre = None → last_index "}" post = None →
  brace_span (pre +:+ String "{" (body +:+ String "}" EmptyString) +:+ post) =
    Some (String "{" (body +:+ String "}" EmptyString)).
Proof.
  intros F L. unfold brace_span.
  change (String "{" (body +:+ String "}" EmptyString) +:+ post)
    with (String "{" ((body +:+ String "}" EmptyString) +:+ post)).
  rewrite (first_index_app _ _ _ F).
  change (pre +:+ String "{" ((body +:+ String "}" EmptyString) +:+ post))
    with (pre +:+ (String "{" (body +:+ String "}" EmptyString) +:+ post)).
  assert (E : pre +:+ (String "{" (body +:+ String "}" EmptyString) +:+ post) =
              (pre +:+ String "{" body) +:+ String "}" post).
  { rewrite !append_assoc. cbn [String.append]. rewrite !append_assoc. reflexivity. }
  rewrite E at 1.
  rewrite (last_index_app _ _ _ _ (last_index_end _ _ L)).
  rewrite length_append. cbn [String.length].
  destruct (Nat.ltb_spec (String.length pre) (String.length pre + S (String.length body) + 0));
    [|lia].
  replace (String.length pre + S (String.length body) + 0 - String.length pre + 1)%nat
    with (String.length (String "{" (body +:+ String "}" EmptyString)))
    by (cbn [String.length]; rewrite length_append; cbn [String.length]; lia).
  rewrite substring_app. reflexivity.
Qed.

(** X15: text before the first opening brace and after the last closing
    brace does not change the outcome of a reply whose brace span decodes:
    it is the outcome of the span alone.  When the span does not decode,
    the whole reply is the conversational text. *)
Theorem prose_around_span (pre body post : string) :
  first_index "{" pre = None → last_index "}" post = None →
  let span := String "{" (body +:+ String "}" EmptyString) in
  let raw_text := pre +:+ span +:+ post in
  match loads span with
  | Parsed obj => classify raw_text = classify span
  | JSONDecodeError => classify raw_text = Ret (ConversationalText (cleaned_text raw_text))
  | Unsupported => classify raw_text = OutOfModel
  end.
Proof.
  intros F L span raw_text. unfold classify. rewrite !search_brace_span.
  unfold raw_text, span. rewrite (brace_span_embedded pre body post F L).
  pose proof (brace_span_embedded EmptyString body EmptyString eq_refl eq_refl) as S.
  cbn [String.append] in S. rewrite append_nil_r in S. rewrite S.
  destruct (loads _); reflexivity.
Qed.

Lemma prose_around_span_witness :
  classify (dq "Sure! ```json {'tool_code': 'view_pantry', 'tool_params': {}} ``` Done.") =
    Ret (ToolCall (JStr "view_pantry") (JObj [])).
Proof.
  exact (prose_around_span "Sure! ```json "
           (dq "'tool_code': 'view_pantry', 'tool_params': {}") " ``` Done." eq_refl eq_refl).
Defined.

(** *** The decoder stops where the value ends *)

Lemma after_spec (p s r : string) : after p s = Some r → s = p +:+ r.
Proof.
  revert s. induction p as [|c p IH]; intros s; cbn [after String.append].
  - intros [= ->]. reflexivity.
  - destruct s as [|d s]; [discriminate|]. destruct (Ascii.eqb_spec c d) as [<-|]; [|discriminate].
    intros H. rewrite (IH _ H). reflexivity.
Qed.

Lemma after_app (p s r t : string) : after p s = Some r → after p (s +:+ t) = Some (r +:+ t).
Proof.
  revert s. induction p as [|c p IH]; intros s; cbn [after].
  - intros [= ->]. reflexivity.
  - destruct s as [|d s]; [discriminate|]. cbn [String.append].
    destruct (Ascii.eqb c d); [apply IH | discriminate].
Qed.

Lemma after_char_none (c : ascii) (s t : string) :
  after (String c EmptyString) s = None → s ≠ EmptyString →
  after (String c EmptyString) (s +:+ t) = None.
Proof.
  destruct s as [|d s]; [contradiction|]. cbn [after String.append].
  destruct (Ascii.eqb c d); [discriminate | reflexivity].
Qed.

Lemma skip_ws_app (s t : string) :
  skip_ws s ≠ EmptyString → skip_ws (s +:+ t) = skip_ws s +:+ t.
Proof.
  induction s as [|c s IH]; [contradiction|]. cbn [skip_ws String.append].
  destruct (is_ws c); [exact IH | reflexivity].
Qed.

Lemma skip_ws_blank (s t : string) :
  skip_ws s = EmptyString → skip_ws (s +:+ t) = skip_ws t.
Proof.
  induction s as [|c s IH]; [reflexivity|]. cbn [skip_ws String.append].
  destruct (is_ws c); [exact IH | discriminate].
Qed.

Lemma stops_app (r t : string) : stops r = true → stops (r +:+ t) = true.
Proof. destruct r; [discriminate | auto]. Qed.

Lemma stops_ends_number (r : string) : stops r = true → ends_number r = true.
Proof.
  destruct r as [|c r]; [discriminate|]. cbn -[Ascii.eqb].
  destruct c as [[] [] [] [] [] [] [] []]; cbn; congruence.
Qed.

Lemma after_stops (c : ascii) (s r : string) :
  (c = "," ∨ c = "]" ∨ c = "}")%char →
  after (String c EmptyString) (skip_ws s) = Some r → stops s = true ∧ skip_ws s ≠ EmptyString.
Proof.
  intros C H. split; [|intros E; rewrite E in H; discriminate].
  destruct s as [|d s]; [discriminate|]. cbn [skip_ws stops] in *.
  destruct (is_ws d); [reflexivity|]. cbn [after] in H.
  destruct (Ascii.eqb_spec c d) as [<-|]; [|discriminate].
  destruct C as [-> | [-> | ->]]; reflexivity.
Qed.

Lemma ends_number_spec (rest : string) :
  ends_number rest = true →
  no_digit_head rest = true ∧ scan_frac rest = (EmptyString, rest) ∧
  scan_exp rest = (EmptyString, rest).
Proof.
  destruct rest as [|c r]; [auto|]. unfold ends_number, no_digit_head, scan_frac, scan_exp.
  cbn [after]. rewrite (Ascii.eqb_sym "." c).
  destruct (is_digit c), (Ascii.eqb c "."), (Ascii.eqb c "e"), (Ascii.eqb c "E");
    cbn; try discriminate; auto.
Qed.

Lemma number_tail frac ex rest :
  frac_ok frac → exp_ok ex → ends_number rest = true →
  no_digit_head (frac +:+ ex +:+ rest) = true ∧
  scan_frac (frac +:+ ex +:+ rest) = (frac, ex +:+ rest) ∧
  scan_exp (ex +:+ rest) = (ex, rest).
Proof.
  intros Hf He L. destruct (ends_number_spec _ L) as (Nr & Fr & Er).
  assert (Ne : no_digit_head (ex +:+ rest) = true).
  { destruct He as [-> | (e & sg & d & ds & -> & [-> | ->] & _)]; auto. }
  assert (Se : scan_exp (ex +:+ rest) = (ex, rest)).
  { destruct He as [-> | (e & sg & d & ds & -> & H1 & H2 & H3 & H4)];
      [exact Er | apply scan_exp_app; auto]. }
  destruct Hf as [-> | (d & ds & -> & D & A)].
  - repeat split; auto. cbn [String.append].
    destruct He as [-> | (e & sg & d & ds & -> & [-> | ->] & _)];
      [exact Fr | reflexivity..].
  - repeat split; auto. apply scan_frac_app; auto.
Qed.

Lemma match_number_again (negative : bool) ip frac ex rest :
  (∀ t, no_digit_head t = true ∨ ip = "0" → scan_int_part (ip +:+ t) = Some (ip, t)) →
  (∀ t, after "-" (ip +:+ t) = None) →
  frac_ok frac → exp_ok ex → ends_number rest = true →
  let sign := if negative then "-" else EmptyString in
  match_number (sign +:+ ip +:+ frac +:+ ex +:+ rest) =
  Scanned (match frac, ex with
           | EmptyString, EmptyString => JInt (int_of_lexeme (sign +:+ ip))
           | _, _ => JFloat (sign +:+ ip +:+ frac +:+ ex)
           end) rest.
Proof.
  intros Hip Hm Hf He L sign.
  destruct (number_tail frac ex rest Hf He L) as (N1 & Sf & Se).
  unfold match_number.
  assert (A : (let '(sg, s1) :=
                 match after "-" (sign +:+ ip +:+ frac +:+ ex +:+ rest) with
                 | Some s' => ("-", s')
                 | None => (EmptyString, sign +:+ ip +:+ frac +:+ ex +:+ rest)
                 end in (sg, s1)) = (sign, ip +:+ frac +:+ ex +:+ rest)).
  { subst sign. destruct negative; [reflexivity|]. cbn [String.append]. rewrite Hm. reflexivity. }
  destruct (match after "-" (sign +:+ ip +:+ frac +:+ ex +:+ rest) with
            | Some s' => ("-", s')
            | None => (EmptyString, sign +:+ ip +:+ frac +:+ ex +:+ rest)
            end) as [sg s1].
  injection A as -> ->.
  rewrite (Hip _ (or_introl N1)), Sf, Se.
  destruct frac, ex; reflexivity.
Qed.

Lemma scan_atom_local (s : string) (v : json) (r t : string) :
  scan_atom s = Scanned v r → stops r = true →
  scan_atom (s +:+ t) = Scanned v (r +:+ t).
Proof.
  unfold scan_atom at 1. intros H St.
  destruct (scan_constant s) as [[v' r']|] eqn:C.
  - injection H as -> ->. unfold scan_constant in C. unfold scan_atom.
    repeat match type of C with
    | match after ?p s with Some _ => _ | None => _ end = _ =>
        let A := fresh "A" in
        destruct (after p s) eqn:A;
          [apply after_spec in A; injection C as <- <-; subst s; reflexivity|]
    end. discriminate.
  - unfold match_number in H.
    assert (S : ∃ (negative : bool) s1,
               (match after "-" s with
                | Some s' => ("-", s')
                | None => (EmptyString, s)
                end) = ((if negative then "-" else EmptyString), s1) ∧
               s = (if negative then "-" else EmptyString) +:+ s1).
    { destruct (after "-" s) as [s'|] eqn:A.
      - exists true, s'. split; [reflexivity|]. apply (after_spec "-"), A.
      - exists false, s. auto. }
    destruct S as (negative & s1 & E & ->). rewrite E in H.
    destruct (scan_int_part s1) as [[ip r0]|] eqn:I; [|discriminate].
    destruct (scan_int_part_spec _ _ _ I) as (-> & Hh & Hip & Hc).
    destruct (scan_frac r0) as [frac r1] eqn:F.
    destruct (scan_frac_spec _ _ _ F) as (-> & Hf & _).
    destruct (scan_exp r1) as [ex r2] eqn:X.
    destruct (scan_exp_spec _ _ _ X) as (-> & He & _).
    assert (R : r2 = r ∧ v = match frac, ex with
                             | EmptyString, EmptyString =>
                                 JInt (int_of_lexeme ((if negative then "-" else EmptyString) +:+ ip))
                             | _, _ => JFloat ((if negative then "-" else EmptyString) +:+ ip +:+ frac +:+ ex)
                             end)
      by (destruct frac, ex; injection H; auto).
    destruct R as [-> ->]. unfold scan_atom. rewrite !append_assoc.
    assert (C' : scan_constant ((if negative then "-" else EmptyString) +:+ ip +:+
                                frac +:+ ex +:+ r +:+ t) = None).
    { destruct negative; [apply Hc | apply (proj1 (proj2 (Hc _)))]. }
    rewrite C'.
    apply (match_number_again negative ip frac ex (r +:+ t) Hip (λ t, proj1 (Hc t)) Hf He).
    apply stops_ends_number, stops_app, St.
Qed.

Lemma scan_cons_local (c : ascii) (a : scan string) (b : scan string) (x r t : string) :
  (∀ x r, a = Scanned x r → b = Scanned x (r +:+ t)) →
  scan_cons c a = Scanned x r → scan_cons c b = Scanned x (r +:+ t).
Proof.
  intros H. destruct a as [y r'| | |]; try discriminate. cbn. intros [= <- <-].
  rewrite (H y r' eq_refl). reflexivity.
Qed.

Lemma scanstring_local_bounded (n : nat) : ∀ s x r t,
  (String.length s ≤ n)%nat → scanstring s = Scanned x r →
  scanstring (s +:+ t) = Scanned x (r +:+ t).
Proof.
  induction n as [|n IHn]; intros s x r t B.
  { destruct s; [discriminate | cbn in B; lia]. }
  assert (IH : ∀ y, (String.length y < String.length s)%nat →
                ∀ x r, scanstring y = Scanned x r → scanstring (y +:+ t) = Scanned x (r +:+ t))
    by (intros y Hy x' r'; apply IHn; lia).
  clear IHn B.
  destruct s as [|c s1]; [discriminate|]. cbn [scanstring String.append].
  destruct (Ascii.eqb c "034"); [intros [= <- <-]; reflexivity|].
  destruct (Ascii.eqb c "\").
  - destruct s1 as [|e s2]; [discriminate|]. cbn [String.append].
    destruct (Ascii.eqb e "u").
    + destruct s2 as [|h1 [|h2 [|h3 [|h4 s6]]]]; try discriminate. cbn [String.append].
      destruct (decode_uXXXX h1 h2 h3 h4) as [cp|]; [|discriminate].
      destruct (cp <? 256)%N; [|discriminate].
      apply scan_cons_local. apply IH. cbn. lia.
    + destruct (backslash e); [|discriminate].
      apply scan_cons_local. apply IH. cbn. lia.
  - destruct (is_control c); [discriminate|].
    apply scan_cons_local. apply IH. cbn. lia.
Qed.

Lemma scanstring_local (s x r t : string) :
  scanstring s = Scanned x r → scanstring (s +:+ t) = Scanned x (r +:+ t).
Proof. apply (scanstring_local_bounded (String.length s)). lia. Qed.

Lemma scan_once_empty (fuel : nat) (v : json) (r : string) :
  scan_once fuel EmptyString ≠ Scanned v r.
Proof. destruct fuel; discriminate. Qed.

Lemma object_loop_empty (fuel : nat) acc (v : json) (r : string) :
  object_loop fuel acc EmptyString ≠ Scanned v r.
Proof. destruct fuel; discriminate. Qed.

Lemma array_loop_empty (fuel : nat) acc (v : json) (r : string) :
  array_loop fuel acc EmptyString ≠ Scanned v r.
Proof.
  destruct fuel; [discriminate|]. cbn [array_loop].
  destruct (scan_once fuel EmptyString) as [x s1| | |] eqn:V; try discriminate.
  destruct (scan_once_empty _ _ _ V).
Qed.

Lemma scan_atom_open (s : string) (v : json) (r : string) :
  scan_atom s = Scanned v r → closed v = false.
Proof.
  unfold scan_atom. destruct (scan_constant s) as [[v' r']|] eqn:C.
  - intros [= <- <-]. unfold scan_constant in C.
    repeat match type of C with
    | match ?a with Some _ => _ | None => _ end = _ =>
        destruct a; [injection C as <- _; reflexivity|]
    end. discriminate.
  - unfold match_number.
    destruct (match after "-" s with Some s' => ("-", s') | None => (EmptyString, s) end)
      as [sg s1].
    destruct (scan_int_part s1) as [[ip r0]|]; [|discriminate].
    destruct (scan_frac r0) as [frac r1]. destruct (scan_exp r1) as [ex r2].
    destruct frac, ex; intros [= <- _]; reflexivity.
Qed.

Lemma scan_local (fuel : nat) :
  (∀ s v r t more, scan_once fuel s = Scanned v r → stops r = true ∨ closed v = true →
     scan_once more (s +:+ t) = Scanned v (r +:+ t) ∨ scan_once more (s +:+ t) = Exhausted) ∧
  (∀ acc s v r t more, object_loop fuel acc s = Scanned v r →
     object_loop more acc (s +:+ t) = Scanned v (r +:+ t) ∨
     object_loop more acc (s +:+ t) = Exhausted) ∧
  (∀ acc s v r t more, array_loop fuel acc s = Scanned v r →
     array_loop more acc (s +:+ t) = Scanned v (r +:+ t) ∨
     array_loop more acc (s +:+ t) = Exhausted).
Proof.
  induction fuel as [|fuel (IHo & IHd & IHa)];
    [repeat split; intros; discriminate|].
  split; [|split].
  - intros s v r t more. destruct more as [|more]; [right; reflexivity|].
    cbn [scan_once]. unfold quote. intros H St.
    assert (Ne : s ≠ EmptyString) by (intros ->; cbn in H; discriminate).
    destruct (after (String "034" EmptyString) s) as [s1|] eqn:Q.
    { rewrite (after_app _ _ _ t Q).
      destruct (scanstring s1) as [x r'| | |] eqn:E; try discriminate.
      injection H as <- <-. rewrite (scanstring_local _ _ _ t E). left. reflexivity. }
    rewrite (after_char_none _ _ t Q Ne).
    destruct (after "{" s) as [s1|] eqn:B.
    { rewrite (after_app _ _ _ t B).
      destruct (after "}" (skip_ws s1)) as [r'|] eqn:C.
      - injection H as <- <-.
        rewrite skip_ws_app by (intros E; rewrite E in C; discriminate).
        rewrite (after_app _ _ _ t C). left. reflexivity.
      - assert (N1 : skip_ws s1 ≠ EmptyString)
          by (intros E; rewrite E in H; exact (object_loop_empty _ _ _ _ H)).
        rewrite skip_ws_app by exact N1. rewrite (after_char_none _ _ t C N1).
        apply IHd, H. }
    rewrite (after_char_none _ _ t B Ne).
    destruct (after "[" s) as [s1|] eqn:A.
    { rewrite (after_app _ _ _ t A).
      destruct (after "]" (skip_ws s1)) as [r'|] eqn:C.
      - injection H as <- <-.
        rewrite skip_ws_app by (intros E; rewrite E in C; discriminate).
        rewrite (after_app _ _ _ t C). left. reflexivity.
      - assert (N1 : skip_ws s1 ≠ EmptyString)
          by (intros E; rewrite E in H; exact (array_loop_empty _ _ _ _ H)).
        rewrite skip_ws_app by exact N1. rewrite (after_char_none _ _ t C N1).
        apply IHa, H. }
    rewrite (after_char_none _ _ t A Ne). left. apply scan_atom_local; [exact H|].
    destruct St as [St | St]; [exact St|]. rewrite (scan_atom_open _ _ _ H) in St. discriminate.
  - intros acc s v r t more. destruct more as [|more]; [right; reflexivity|].
    cbn [object_loop]. unfold quote. intros H.
    destruct (after (String "034" EmptyString) s) as [s1|] eqn:Q; [|discriminate].
    rewrite (after_app _ _ _ t Q).
    destruct (scanstring s1) as [key s2| | |] eqn:E; try discriminate.
    rewrite (scanstring_local _ _ _ t E).
    destruct (after ":" (skip_ws s2)) as [s3|] eqn:C; [|discriminate].
    rewrite skip_ws_app by (intros E'; rewrite E' in C; discriminate).
    rewrite (after_app _ _ _ t C).
    destruct (scan_once fuel (skip_ws s3)) as [x s4| | |] eqn:V; try discriminate.
    assert (N3 : skip_ws s3 ≠ EmptyString)
      by (intros E'; rewrite E' in V; exact (scan_once_empty _ _ _ V)).
    rewrite skip_ws_app by exact N3.
    assert (St : stops s4 = true ∧ skip_ws s4 ≠ EmptyString).
    { destruct (after "}" (skip_ws s4)) as [r'|] eqn:C1;
        [eapply (after_stops "}"); eauto|].
      destruct (after "," (skip_ws s4)) as [s5|] eqn:C2; [|discriminate].
      eapply (after_stops ","); eauto. }
    destruct St as [St N4].
    destruct (IHo _ _ _ t more V (or_introl St)) as [-> | ->]; [|right; reflexivity].
    rewrite skip_ws_app by exact N4.
    destruct (after "}" (skip_ws s4)) as [r'|] eqn:C1.
    + injection H as <- <-. rewrite (after_app _ _ _ t C1). left. reflexivity.
    + rewrite (after_char_none _ _ t C1 N4).
      destruct (after "," (skip_ws s4)) as [s5|] eqn:C2; [|discriminate].
      rewrite (after_app _ _ _ t C2).
      assert (N5 : skip_ws s5 ≠ EmptyString)
        by (intros E'; rewrite E' in H; exact (object_loop_empty _ _ _ _ H)).
      rewrite skip_ws_app by exact N5. apply IHd, H.
  - intros acc s v r t more. destruct more as [|more]; [right; reflexivity|].
    cbn [array_loop]. intros H.
    destruct (scan_once fuel s) as [x s1| | |] eqn:V; try discriminate.
    assert (St : stops s1 = true ∧ skip_ws s1 ≠ EmptyString).
    { destruct (after "]" (skip_ws s1)) as [r'|] eqn:C1;
        [eapply (after_stops "]"); eauto|].
      destruct (after "," (skip_ws s1)) as [s2|] eqn:C2; [|discriminate].
      eapply (after_stops ","); eauto. }
    destruct St as [St N1].
    destruct (IHo _ _ _ t more V (or_introl St)) as [-> | ->]; [|right; reflexivity].
    rewrite skip_ws_app by exact N1.
    destruct (after "]" (skip_ws s1)) as [r'|] eqn:C1.
    + injection H as <- <-. rewrite (after_app _ _ _ t C1). left. reflexivity.
    + rewrite (after_char_none _ _ t C1 N1).
      destruct (after "," (skip_ws s1)) as [s2|] eqn:C2; [|discriminate].
      rewrite (after_app _ _ _ t C2).
      assert (N2 : skip_ws s2 ≠ EmptyString)
        by (intros E'; rewrite E' in H; exact (array_loop_empty _ _ _ _ H)).
      rewrite skip_ws_app by exact N2. apply IHa, H.
Qed.

Lemma loads_extra_data (s rest : string) (v : json) :
  loads s = Parsed v → closed v = true → skip_ws rest ≠ EmptyString →
  loads (s +:+ rest) = JSONDecodeError.
Proof.
  unfold loads at 1. intros H C N.
  destruct (scan_once (2 * String.length s + 2) (skip_ws s)) as [v' r| | |] eqn:V;
    try discriminate.
  destruct (skip_ws r) eqn:R; [|discriminate]. injection H as ->.
  assert (Ns : skip_ws s ≠ EmptyString)
    by (intros E; rewrite E in V; exact (scan_once_empty _ _ _ V)).
  unfold loads.
  pose proof (loads_never_exhausted (s +:+ rest)) as X.
  rewrite skip_ws_app in X |- * by exact Ns.
  destruct (proj1 (scan_local _) _ _ _ rest (2 * String.length (s +:+ rest) + 2)%nat V
              (or_intror C)) as [E | E]; [|contradiction].
  rewrite E, (skip_ws_blank _ _ R). destruct (skip_ws rest); [contradiction | reflexivity].
Qed.

Lemma skip_ws_brace (s t : string) : skip_ws (s +:+ String "}" t) ≠ EmptyString.
Proof.
  induction s as [|c s IH]; cbn [String.append skip_ws]; [discriminate|].
  destruct (is_ws c); [exact IH | discriminate].
Qed.

(** X16: when a complete JSON object is followed, before the last
    closing brace of the reply, by anything else (a second object, prose
    with a brace), the span does not decode and the reply is taken as
    conversational text: no tool is called. *)
Theorem text_after_object (pre body more post : string) (v : json) :
  first_index "{" pre = None → last_index "}" post = None →
  loads (String "{" body) = Parsed v →
  let raw_text := pre +:+ String "{" body +:+ more +:+ String "}" post in
  classify raw_text = Ret (ConversationalText (cleaned_text raw_text)).
Proof.
  intros F L P raw_text.
  assert (E : raw_text =
              pre +:+ String "{" ((body +:+ more) +:+ String "}" EmptyString) +:+ post).
  { unfold raw_text. cbn [String.append]. rewrite !append_assoc. reflexivity. }
  unfold classify. rewrite search_brace_span. rewrite E at 1.
  rewrite (brace_span_embedded pre (body +:+ more) post F L).
  assert (S : String "{" ((body +:+ more) +:+ String "}" EmptyString) =
              String "{" body +:+ (more +:+ String "}" EmptyString))
    by (cbn [String.append]; rewrite append_assoc; reflexivity).
  rewrite S. destruct (loads_brace _ _ P) as [d ->].
  rewrite (loads_extra_data _ _ _ P eq_refl (skip_ws_brace _ _)). reflexivity.
Qed.

Lemma text_after_object_witness :
  let raw_text := dq "{'tool_code':'view_pantry','tool_params':{}} and {'tool_code':'add_to_pantry','tool_params':{'ingredients':['rice']}}" in
  classify raw_text = Ret (ConversationalText raw_text).
Proof.
  exact (text_after_object EmptyString (dq "'tool_code':'view_pantry','tool_params':{}}")
           (dq " and {'tool_code':'add_to_pantry','tool_params':{'ingredients':['rice']}")
           EmptyString _ eq_refl eq_refl eq_refl).
Defined.

(** *** The command line *)

Lemma classify_payload_object (raw_text : string) (obj : json) :
  classify raw_text = Ret (StructuredPayload obj) → ∃ d, obj = JObj d.
Proof.
  unfold classify. rewrite search_brace_span.
  destruct (brace_span raw_text) as [span|] eqn:B; [|discriminate].
  destruct (brace_span_starts _ _ B) as [t ->].
  destruct (loads (String "{" t)) as [v| |] eqn:L; [|discriminate..].
  destruct (loads_brace _ _ L) as [d ->]. cbn [py_in res_bind]. unfold dict_has.
  destruct (dict_get "tool_code" d) eqn:C; cbn [res_bind andb].
  - destruct (dict_get "tool_params" d) eqn:P; cbn [res_bind andb].
    + unfold getitem. rewrite C, P. discriminate.
    + intros [= <-]. eauto.
  - intros [= <-]. eauto.
Qed.

Lemma local_tool_dict (rest : list reply) (m : M outcome) (s : state) :
  (∀ o, snd (m s) = Ret o → ∀ obj, o ≠ Payload obj) →
  ∀ o, snd (local_tool rest m s) = Ret o → ∀ obj, o ≠ Payload obj.
Proof. unfold local_tool. destruct (m s) as [s' r]. auto. Qed.

Lemma call_tool_dict (ask_model : prompt → state → answer) (rest : list reply)
    (tool_code tool_params : json) (s : state) :
  (∀ q t o, snd (ask_model q t) = Ret o → as_dict o ≠ None) →
  ∀ o, snd (_call_tool ask_model rest tool_code tool_params s) = Ret o → as_dict o ≠ None.
Proof.
  intros A o. unfold _call_tool.
  assert (N : ∀ o', (∀ obj, o' ≠ Payload obj) → as_dict o' ≠ None).
  { intros [| |obj| |] H; try discriminate. destruct (H obj eq_refl). }
  repeat match goal with
  | |- context [if str_eq tool_code ?n then _ else _] => destruct (str_eq tool_code n)
  end.
  - intros H. apply N. revert o H. apply local_tool_dict. unfold_M.
    destruct (getitem tool_params "ingredients") as [x| |]; cbn [snd]; try discriminate.
    destruct (add_to_pantry x s) as [s' [| |]]; cbn [snd]; try discriminate.
    intros o [= <-]. discriminate.
  - intros H. apply N. revert o H. apply local_tool_dict. unfold_M.
    destruct (getitem tool_params "ingredients") as [x| |]; cbn [snd]; try discriminate.
    destruct (remove_from_pantry x s) as [s' [| |]]; cbn [snd]; try discriminate.
    intros o [= <-]. discriminate.
  - intros H. apply N. revert o H. apply local_tool_dict. unfold_M.
    destruct (getitem tool_params "recipe_name") as [x| |]; cbn [snd]; try discriminate.
    destruct (getitem tool_params "feedback") as [y| |]; cbn [snd]; try discriminate.
    destruct (add_feedback x y s) as [s' [| |]]; cbn [snd]; try discriminate.
    intros o [= <-]. discriminate.
  - intros [= <-]. discriminate.
  - destruct (bind_kwargs _ tool_params) as [[|a [|b [|c [|? ?]]]]| |];
      cbn [snd]; try discriminate. apply A.
  - destruct (bind_kwargs _ tool_params) as [[|a [|b [|c [|? ?]]]]| |];
      cbn [snd]; try discriminate. apply A.
  - intros H. apply N. revert o H. apply local_tool_dict. unfold_M.
    destruct (getitem tool_params "meal_plan") as [x| |]; cbn [snd]; try discriminate.
    unfold create_calendar_file.
    destruct (res_bind (py_iter x) _); cbn [snd]; try discriminate;
      intros o [= <-]; discriminate.
  - intros [= <-]. discriminate.
Qed.

Lemma ask_dict (script : list reply) : ∀ (p : prompt) (s : state) (o : outcome),
  snd (ask script p s) = Ret o → as_dict o ≠ None.
Proof.
  induction script as [|[raw_text|e] rest IH]; intros p s o; cbn [ask snd].
  - intros [= <-]. discriminate.
  - destruct (classify raw_text) as [[tool_code tool_params|obj|text]| |] eqn:C;
      cbn [snd]; try discriminate.
    + pose proof (call_tool_dict (ask rest) rest tool_code tool_params s IH) as K.
      destruct (_call_tool (ask rest) rest tool_code tool_params s) as [[s' rest'] [o'|e|]];
        cbn [snd] in *; try discriminate.
      * intros [= <-]. apply K. reflexivity.
      * intros [= <-]. discriminate.
    + destruct (classify_payload_object _ _ C) as [d ->]. intros [= <-]. discriminate.
    + intros [= <-]. discriminate.
    + intros [= <-]. discriminate.
  - intros [= <-]. discriminate.
Qed.

(** X18: what [ask] answers with is always a dict, so the command line
    always takes the branch that displays a dict; the branch for a raw
    response is never taken. *)
Theorem ask_answers_with_a_dict (script : list reply) (p : prompt) (s : state) (o : outcome) :
  snd (ask script p s) = Ret o →
  ∃ response, as_dict o = Some response ∧ show o = display response.
Proof.
  intros H. pose proof (ask_dict script p s o H) as D. unfold show.
  destruct (as_dict o) as [response|]; [eauto | destruct (D eq_refl)].
Qed.

Lemma ask_answers_with_a_dict_witness :
  ∃ response,
    as_dict (Payload (JObj [("title", JStr "X")])) = Some response ∧
    show (Payload (JObj [("title", JStr "X")])) = display response.
Proof.
  exact (ask_answers_with_a_dict [Reply (dq "Here it is: {'title': 'X'}")]
           (UserPrompt "a recipe") (new_agent "cli_user" Missing) _ eq_refl).
Defined.

Lemma show_tool_result (o : outcome) :
  (∀ obj, o ≠ Payload obj) →
  show o =
  (match o with
   | StatusMessage status msg file_path =>
       if String.eqb status "success" then
         Agent (MessageText msg) ::
         match file_path with
         | Some path => [CalendarSavedTo (Json (JStr path))]
         | None => []
         end
       else [Unhandled (default [] (as_dict o))]
   | PantryView items => [Unhandled (default [] (as_dict o))]
   | Response text => [Agent (Json (JStr text))]
   | Failure e raw_response =>
       AgentError (ErrorText e) ::
       match raw_response with
       | Some raw_text =>
           if String.eqb raw_text no_response then []
           else [RawLLMResponse (Json (JStr raw_text))]
       | None => []
       end
   | Payload _ => []
   end, Ret tt).
Proof.
  intros N. destruct o as [status msg [path|]| items | obj | text | e [raw_text|]];
    try reflexivity.
  - unfold show. cbn [as_dict app default].
    change (String.eqb status "success") with (equals (Json (JStr status)) "success").
    generalize (Json (JStr status)) as v. intros v. unfold display. cbn.
    destruct (equals v "success"); reflexivity.
  - unfold show. cbn [as_dict app default].
    change (String.eqb status "success") with (equals (Json (JStr status)) "success").
    generalize (Json (JStr status)) as v. intros v. unfold display. cbn.
    destruct (equals v "success"); reflexivity.
  - destruct (N obj eq_refl).
  - unfold show.
    change (as_dict (Failure e (Some raw_text)))
      with (Some [("error", ErrorText e); ("raw_response", Json (JStr raw_text))]).
    change (String.eqb raw_text no_response)
      with (equals (Json (JStr raw_text)) no_response).
    generalize (Json (JStr raw_text)) as v. intros v. unfold display. cbn.
    destruct (equals v _); reflexivity.
Qed.





Lemma keeps_main_loop (inputs : list string) : ∀ (script : list reply) (s : state),
  keeps_invariants s (fst (fst (fst (main_loop inputs script s)))).
Proof.
  induction inputs as [|user_input inputs IH]; intros script s; cbn [main_loop];
    [apply keeps_refl|].
  destruct (_ || _).
  - pose proof (keeps_save s) as K. destruct (_save_memory s) as [s1 [[]|e1|]]; exact K.
  - pose proof (keeps_ask script (UserPrompt user_input) s) as K.
    destruct (ask script (UserPrompt user_input) s) as [[s1 script1] [o|e1|]];
      cbn [fst] in *; try exact K.
    destruct (show o) as [lines [[]|e1|]]; try exact K.
    specialize (IH script1 s1).
    destruct (main_loop inputs script1 s1) as [[[s2 script2] more] e2]. cbn [fst] in *.
    eapply keeps_trans; eassumption.
Qed.

(** X21: when a session ends with the goodbye, the record stored for the
    user in the memory file is the record of the sets in memory, and the
    goodbye is the last line printed. *)
Theorem session_ends_saved (inputs : list string) :
  ∀ (script : list reply) (s s' : state) (script' : list reply) (printed : list line),
  main_loop inputs script s = (s', script', printed, Ended) →
  stored_record (user_id s) (memory_file s') = Some (record_of s') ∧
  last printed = Some Goodbye.
Proof.
  induction inputs as [|user_input inputs IH]; intros script s s' script' printed;
    cbn [main_loop]; [discriminate|].
  destruct (_ || _).
  - rewrite save_memory_cases.
    destruct (read_bank (memory_file s)) as [[| | | | | |bank]| |] eqn:R; try discriminate.
    intros [= <- <- <-]. destruct (save_memory_stored s bank R) as [_ L].
    cbn [memory_file set_memory_file stored_record]. rewrite L, dict_get_set_eq.
    split; reflexivity.
  - pose proof (keeps_ask script (UserPrompt user_input) s) as K.
    destruct (ask script (UserPrompt user_input) s) as [[s1 script1] [o|e1|]];
      try discriminate.
    destruct (show o) as [lines [[]|e1|]]; try discriminate.
    destruct (main_loop inputs script1 s1) as [[[s2 script2] more] e2] eqn:M.
    intros [= <- <- <- ->]. destruct (IH _ _ _ _ _ M) as [S G].
    destruct K as (U & _). cbn [fst] in U. rewrite <- U. split; [exact S|].
    change (Prompt :: lines ++ more) with ((Prompt :: lines) ++ more).
    destruct more as [|l more]; [discriminate G|].
    rewrite last_app, G. reflexivity.
Qed.

Lemma session_ends_saved_witness :
  let s := new_agent "cli_user" Missing in
  let script := [Reply (dq "{'tool_code':'add_to_pantry','tool_params':{'ingredients':['Rice']}}")] in
  let s' := fst (fst (fst (main_loop ["add rice"; "quit"] script s))) in
  stored_record "cli_user" (memory_file s') = Some (record_of s').
Proof.
  intros s script s'.
  destruct (main_loop ["add rice"; "quit"] script s) as [[[s1 script1] printed] e] eqn:M.
  assert (E : e = Ended) by (apply (f_equal snd) in M; vm_compute in M; congruence).
  subst e. exact (proj1 (session_ends_saved _ _ _ _ _ _ M)).
Defined.

(** X22: a session started with the credential and without a memory
    file, whatever is typed and whatever the model replies, and however it
    ends, is a session of ["cli_user"] in which the pantry holds normal
    forms only and no recipe is both liked and disliked. *)
Theorem fresh_session_invariants (api_key : string) (now : Z) (inputs : list string)
    (script : list reply) :
  api_key ≠ EmptyString →
  let s' := fst (fst (fst (main (Some api_key) Missing now inputs script))) in
  user_id s' = "cli_user" ∧ today s' = now ∧
  (∀ e, e ∈ pantry s' → normalize e = e) ∧
  liked_recipes s' ∩ disliked_recipes s' = ∅.
Proof.
  intros K. unfold main, init. destruct api_key; [contradiction|].
  unfold _load_memory. unfold_M. cbn [memory_file].
  match goal with |- context [main_loop inputs script ?s0] =>
    pose proof (keeps_main_loop inputs script s0) as M;
    destruct (main_loop inputs script s0) as [[[s2 script2] more] e2] end.
  cbn [fst] in *. destruct M as (U & T & P & F). cbn in U, T, P, F.
  repeat split; auto. intros e. apply P. intros e' H. set_solver.
Qed.

Lemma fresh_session_invariants_witness :
  let s' := fst (fst (fst (main (Some "key") Missing 739000 ["add rice"; "exit"]
             [Reply (dq "{'tool_code':'add_to_pantry','tool_params':{'ingredients':[' Rice']}}")]))) in
  liked_recipes s' ∩ disliked_recipes s' = ∅.
Proof.
  intros s'.
  refine (proj2 (proj2 (proj2 (fresh_session_invariants "key" 739000 _ _ _)))). discriminate.
Defined.

Lemma lookup_payload (k : string) (d : list (string * json)) :
  lookup k (payload_dict d) = Json <$> dict_get k d.
Proof.
  induction d as [|[k' v] d IH]; [reflexivity|].
  cbn [payload_dict fmap list_fmap lookup dict_get fst snd].
  destruct (String.eqb k k'); [reflexivity | exact IH].
Qed.

Lemma has_payload (k : string) (d : list (string * json)) :
  has k (payload_dict d) = dict_has k d.
Proof. unfold has, dict_has. rewrite lookup_payload. destruct (dict_get k d); reflexivity. Qed.

Lemma display_plan (d : list (string * json)) (plan : json) :
  shown_as_plan d plan →
  display (payload_dict d) =
  and_then (say MealPlanHeader) (for_items (Json plan) meal_line).
Proof.
  intros (E & R & S & P). unfold display, with_item.
  rewrite !has_payload, !lookup_payload, E, R.
  assert (dict_has "status" d &&
          match Json <$> dict_get "status" d with
          | Some v => equals v "success"
          | None => false
          end = false) as ->.
  { unfold dict_has. destruct (dict_get "status" d) as [v|]; [|reflexivity].
    cbn. destruct v; try reflexivity. cbn.
    destruct (String.eqb_spec s "success") as [->|]; [destruct (S eq_refl) | reflexivity]. }
  unfold dict_has. rewrite P. reflexivity.
Qed.

Lemma meal_line_listed (meal : json) (l : line) : listed meal l → meal_line meal = say l.
Proof.
  intros (m & day & meal_type & meal_name & -> & D & T & N & ->).
  unfold meal_line, getitem. rewrite D, T, N. reflexivity.
Qed.

Lemma meal_line_lacks (meal : json) (k : string) :
  lacks meal k → meal_line meal = ([], Raise (KeyError k)).
Proof.
  intros (m & -> & [(-> & D) | [(-> & D & T) | (-> & D & T & N)]]);
    unfold meal_line, getitem.
  - rewrite D. reflexivity.
  - destruct (dict_get "day" m); [|contradiction]. rewrite T. reflexivity.
  - destruct (dict_get "day" m); [|contradiction].
    destruct (dict_get "meal_type" m); [|contradiction]. rewrite N. reflexivity.
Qed.

Lemma for_each_listed (meals : list json) (lines : list line) :
  Forall2 listed meals lines → for_each meals meal_line = (lines, Ret tt).
Proof.
  induction 1 as [|meal l meals lines H _ IH]; [reflexivity|].
  cbn [for_each]. rewrite (meal_line_listed _ _ H), IH. reflexivity.
Qed.

Lemma for_each_lacks (meals : list json) (lines : list line) (meal : json) (k : string)
    (others : list json) :
  Forall2 listed meals lines → lacks meal k →
  for_each (meals ++ meal :: others) meal_line = (lines, Raise (KeyError k)).
Proof.
  intros F L. induction F as [|meal' l meals lines H _ IH]; cbn [app for_each].
  - rewrite (meal_line_lacks _ _ L). reflexivity.
  - rewrite (meal_line_listed _ _ H), IH. reflexivity.
Qed.

(** X23: a payload shown as a meal plan whose meals all have the keys
    ["day"], ["meal_type"] and ["meal_name"] is printed as the header and
    one line for each meal, in order, without an exception. *)
Theorem meal_plan_is_listed (d : list (string * json)) (meals : list json)
    (lines : list line) :
  shown_as_plan d (JArr meals) → Forall2 listed meals lines →
  show (Payload (JObj d)) = (MealPlanHeader :: lines, Ret tt).
Proof.
  intros S F. unfold show. cbn [as_dict]. fold (payload_dict d).
  rewrite (display_plan _ _ S). unfold for_items. cbn [items_of py_iter].
  rewrite (for_each_listed _ _ F). reflexivity.
Qed.

Lemma meal_plan_is_listed_witness :
  show (Payload (JObj [("plan", JArr [JObj [("day", JInt 1); ("meal_type", JStr "Lunch");
                                            ("meal_name", JStr "Soup")]])])) =
    ([MealPlanHeader; MealLine (JInt 1) (JStr "Lunch") (JStr "Soup")], Ret tt).
Proof.
  apply (meal_plan_is_listed
           [("plan", JArr [JObj [("day", JInt 1); ("meal_type", JStr "Lunch");
                                 ("meal_name", JStr "Soup")]])]
           [JObj [("day", JInt 1); ("meal_type", JStr "Lunch"); ("meal_name", JStr "Soup")]]).
  - repeat split; try reflexivity. discriminate.
  - repeat constructor. eexists _, _, _, _. repeat split; reflexivity.
Defined.

(** X24: a reply with a meal plan in which a meal lacks one of its three
    keys ends the session with an uncaught [KeyError] for the first key
    that is missing, after the header and the lines of the meals before
    it; the state is as it was. *)
Theorem meal_without_key_ends_session (d : list (string * json)) (meals others : list json)
    (lines : list line) (meal : json) (k : string)
    (raw_text user_input : string) (inputs : list string) (script : list reply) (s : state) :
  lower user_input ≠ "exit" → lower user_input ≠ "quit" →
  classify raw_text = Ret (StructuredPayload (JObj d)) →
  shown_as_plan d (JArr (meals ++ meal :: others)) →
  Forall2 listed meals lines → lacks meal k →
  main_loop (user_input :: inputs) (Reply raw_text :: script) s =
    (s, script, Prompt :: MealPlanHeader :: lines, Crashed (KeyError k)).
Proof.
  intros X Q C S F L. cbn [main_loop ask].
  destruct (String.eqb_spec (lower user_input) "exit"); [contradiction|].
  destruct (String.eqb_spec (lower user_input) "quit"); [contradiction|]. cbn [orb].
  rewrite C. unfold show. cbn [as_dict]. fold (payload_dict d).
  rewrite (display_plan _ _ S). unfold for_items. cbn [items_of py_iter].
  rewrite (for_each_lacks _ _ _ _ _ F L). reflexivity.
Qed.

Lemma meal_without_key_ends_session_witness :
  main_loop ["plan"; "exit"] [Reply (dq "{'plan': [{'meal_type': 'Lunch', 'meal_name': 'Soup'}]}")]
    (new_agent "cli_user" Missing) =
    (new_agent "cli_user" Missing, [], [Prompt; MealPlanHeader], Crashed (KeyError "day")).
Proof.
  apply (meal_without_key_ends_session
           [("plan", JArr [JObj [("meal_type", JStr "Lunch"); ("meal_name", JStr "Soup")]])]
           [] [] [] (JObj [("meal_type", JStr "Lunch"); ("meal_name", JStr "Soup")]) "day").
  - discriminate.
  - discriminate.
  - reflexivity.
  - repeat split; try reflexivity. discriminate.
  - constructor.
  - eexists. split; [reflexivity|]. left. split; reflexivity.
Defined.

(** X19: displaying a result that is not a payload of the model (a tool
    result, a conversational text, a failure) never raises and never
    prints the line of the current pantry; the result of [view_pantry] and
    every result whose status is not ["success"] are printed by the last
    branch, as an unhandled structured response. *)
Theorem tool_results_are_shown (o : outcome) (response : list (string * field)) :
  (∀ obj, o ≠ Payload obj) → as_dict o = Some response →
  snd (show o) = Ret tt ∧
  (∀ names, CurrentPantry names ∉ fst (show o)) ∧
  ((∃ items, o = PantryView items) ∨
   (∃ status msg file_path, o = StatusMessage status msg file_path ∧ status ≠ "success") →
   fst (show o) = [Unhandled response]).
Proof.
  intros N D. rewrite (show_tool_result o N). cbn [fst snd]. split; [reflexivity|]. split.
  - intros names H.
    destruct o as [status msg [path|]| items | obj | text | e [raw_text|]]; cbn in H;
      repeat match type of H with
      | context [if ?b then _ else _] => destruct b
      | _ ∈ _ :: _ => apply elem_of_cons in H as [H | H]; [discriminate H|]
      | _ ∈ [] => inversion H
      end.
  - intros [[items ->] | (status & msg & file_path & -> & S)].
    + rewrite D. reflexivity.
    + destruct (String.eqb_spec status "success"); [contradiction|]. rewrite D. reflexivity.
Qed.

Lemma tool_results_are_shown_witness :
  show (PantryView ["egg"; "rice"]) =
    ([Unhandled [("pantry", Json (JArr [JStr "egg"; JStr "rice"]))]], Ret tt).
Proof.
  destruct (tool_results_are_shown (PantryView ["egg"; "rice"])
              [("pantry", Json (JArr [JStr "egg"; JStr "rice"]))]) as (A & _ & C);
    [discriminate | reflexivity |].
  specialize (C (or_introl (ex_intro _ _ eq_refl))).
  destruct (show (PantryView ["egg"; "rice"])) as [printed r]. cbn [fst snd] in *.
  rewrite A, C. reflexivity.
Defined.

Lemma replace_go_absent (old new s : string) :
  contains old s = false → replace_go old new 0 s = s.
Proof.
  induction s as [|c s IH]; [reflexivity|]. cbn [contains replace_go].
  intros H. apply orb_false_elim in H as [P H]. rewrite P, (IH H). reflexivity.
Qed.

Lemma prefix_shorter (p q s : string) :
  String.prefix (p +:+ q) s = true → String.prefix p s = true.
Proof.
  revert s. induction p as [|a p IH]; intros s; [destruct s; reflexivity|].
  destruct s as [|b s]; [discriminate|]. cbn [String.append]. rewrite !prefix_cons.
  intros [-> H]. split; [reflexivity | apply IH, H].
Qed.

Lemma contains_longer (p q s : string) :
  contains p s = false → contains (p +:+ q) s = false.
Proof.
  induction s as [|c s IH]; cbn [contains]; intros H; apply orb_false_elim in H as [P H];
    apply orb_false_intro; try (apply IH, H); try reflexivity;
    destruct (String.prefix (p +:+ q) _) eqn:E; try reflexivity;
    apply prefix_shorter in E; congruence.
Qed.

(** X17: a reply without an opening brace, or without a closing brace,
    and without three backticks in a row is answered as it is, with the
    white space around it stripped. *)
Theorem plain_reply_is_stripped (raw_text : string) :
  first_index "{" raw_text = None ∨ last_index "}" raw_text = None →
  contains "```" (strip raw_text) = false →
  classify raw_text = Ret (ConversationalText (strip raw_text)).
Proof.
  intros B F. unfold classify. rewrite search_brace_span.
  assert (brace_span raw_text = None) as ->.
  { unfold brace_span. destruct B as [-> | ->]; [reflexivity|].
    destruct (first_index "{" raw_text); reflexivity. }
  unfold cleaned_text, replace.
  rewrite (replace_go_absent "```json" EmptyString (strip raw_text))
    by (apply (contains_longer "```" "json"), F).
  rewrite (replace_go_absent _ _ _ F). reflexivity.
Qed.

Lemma plain_reply_is_stripped_witness :
  classify "  Sure, I can help with that!  " =
    Ret (ConversationalText "Sure, I can help with that!").
Proof.
  exact (plain_reply_is_stripped "  Sure, I can help with that!  " (or_introl eq_refl) eq_refl).
Defined.

(** *** Further edge cases *)

(** X25: [add_to_pantry] with a text in place of a list adds the normal
    form of each of its characters as a name of its own; the feedback sets
    stay. *)
Theorem add_to_pantry_string (text : string) (s : state) :
  let r := add_to_pantry (JStr text) s in
  pantry (fst r) = pantry s ∪ names (chars text) ∧
  liked_recipes (fst r) = liked_recipes s ∧ disliked_recipes (fst r) = disliked_recipes s.
Proof.
  intros r. subst r.
  assert (E : add_to_pantry (JStr text) s = add_to_pantry (JArr (JStr <$> chars text)) s)
    by reflexivity.
  rewrite E, add_to_pantry_strings.
  pose proof (save_memory_frame (set_pantry (pantry s ∪ names (chars text)) s)) as F.
  cbn zeta in F. destruct F as (_ & P & L & D & _). rewrite P, L, D. auto.
Qed.

(** X26: at construction, a memory file that decodes to a value that is
    not an object raises [AttributeError]; so does an entry for the user
    that is not an object; a ["pantry"] that is a number, a boolean or
    [null] raises [TypeError]. *)
Theorem load_shape_errors (api_key uid text : string) (now : Z) (v : json) :
  api_key ≠ EmptyString → loads text = Parsed v →
  let r := snd (init (Some api_key) uid (Content text) now) in
  ((∀ d, v ≠ JObj d) → r = Raise AttributeError) ∧
  (∀ bank entry, v = JObj bank → dict_get uid bank = Some entry → (∀ d, entry ≠ JObj d) →
     r = Raise AttributeError) ∧
  (∀ bank rec x, v = JObj bank → dict_get uid bank = Some (JObj rec) →
     dict_get "pantry" rec = Some x → scalar x = true → r = Raise TypeError).
Proof.
  intros K L r. subst r. unfold init. destruct api_key; [contradiction|].
  unfold _load_memory. unfold_M. cbn [memory_file]. rewrite L. cbn [user_id].
  split; [|split].
  - intros N. destruct v; try reflexivity. destruct (N members eq_refl).
  - intros bank entry -> G N. cbn [get_default]. rewrite G.
    destruct entry; try reflexivity. destruct (N members eq_refl).
  - intros bank rec x -> G P C. cbn [get_default]. rewrite G. cbn [get_default]. rewrite P.
    destruct x; try discriminate C; reflexivity.
Qed.

Lemma load_shape_errors_witness :
  snd (init (Some "key") "ann" (Content (dq "{'ann': {'pantry': 5}}")) 739000) =
    Raise TypeError.
Proof.
  refine (proj2 (proj2 (load_shape_errors "key" "ann" (dq "{'ann': {'pantry': 5}}") 739000
            (JObj [("ann", JObj [("pantry", JInt 5)])]) _ eq_refl))
          [("ann", JObj [("pantry", JInt 5)])] [("pantry", JInt 5)] (JInt 5)
          eq_refl eq_refl eq_refl eq_refl).
  discriminate.
Defined.

(** X27: when the call of the model raises, the loop prints the error
    line only (the text in place of the reply is not printed) and goes on
    with the next line typed, on the same state. *)
Theorem transport_failure_continues (user_input : string) (inputs : list string)
    (e : exn) (script : list reply) (s : state) :
  lower user_input ≠ "exit" → lower user_input ≠ "quit" →
  main_loop (user_input :: inputs) (NoReply e :: script) s =
    let '(s', script', more, ended) := main_loop inputs script s in
    (s', script', Prompt :: AgentError (ErrorText e) :: more, ended).
Proof.
  intros X Q. cbn [main_loop ask].
  destruct (String.eqb_spec (lower user_input) "exit"); [contradiction|].
  destruct (String.eqb_spec (lower user_input) "quit"); [contradiction|]. cbn [orb].
  rewrite (show_tool_result (Failure e None)) by discriminate. reflexivity.
Qed.

Lemma transport_failure_continues_witness :
  main_loop ["hello"; "Quit"] [NoReply TransportError] (new_agent "cli_user" Missing) =
    (fst (_save_memory (new_agent "cli_user" Missing)), [],
     [Prompt; AgentError (ErrorText TransportError); Prompt; Goodbye], Ended).
Proof.
  refine (eq_trans (transport_failure_continues "hello" ["Quit"] TransportError []
                      (new_agent "cli_user" Missing) _ _) _);
    [discriminate | discriminate | reflexivity].
Defined.
